(** * Session manager and session context of the MyFleet front-end

    A shallow embedding of [src/services/auth.ts] (the [AuthService]
    singleton) and of [src/contexts/AuthContext.tsx] (the React
    [AuthProvider]), together with the parts of the browser platform they
    run on: JavaScript values, [JSON.stringify] / [JSON.parse],
    [localStorage], [Date].  A second part embeds the code around them:
    [src/services/api.ts] (the [ApiService] singleton, over a model of
    [fetch]), the verification effect of [src/pages/PaymentSuccessPage.tsx],
    [src/config/flags.ts] and [src/services/lovable.ts] (the adapter of the
    Lovable SDK). *)

From Stdlib Require Import ZArith Lia List Ascii String.
From stdpp Require Import base tactics option list strings gmap pretty.

Local Open Scope Z_scope.

(** ** JavaScript values

    The records of the program are flat: every field of the two [User]
    interfaces is a string, a boolean, [null] or absent.  An object is a
    finite map from property names to primitives; a property can be
    present with the value [undefined]. *)

Inductive prim : Type :=
  | Undefined
  | Null
  | Bool (b : bool)
  | Str (s : string).

Inductive value : Type :=
  | VPrim (p : prim)
  | VObj (o : gmap string prim).

Global Instance prim_eq_dec : EqDecision prim.
Proof. solve_decision. Defined.

Global Instance value_eq_dec : EqDecision value.
Proof. solve_decision. Defined.

Module JS.

(** ToBoolean. *)
Definition truthy_prim (p : prim) : bool :=
  match p with
  | Undefined | Null => false
  | Bool b => b
  | Str s => if decide (s = "") then false else true
  end.

Definition truthy (v : value) : bool :=
  match v with
  | VPrim p => truthy_prim p
  | VObj _ => true
  end.

(** [a || b] on primitives. *)
Definition or (a b : prim) : prim := if truthy_prim a then a else b.

(** Property read [o.k]; reading a property of a primitive string or
    boolean finds nothing on the fields used here. *)
Definition get (k : string) (o : gmap string prim) : prim :=
  default Undefined (o !! k).

Definition field (k : string) (v : value) : prim :=
  match v with
  | VObj o => get k o
  | VPrim _ => Undefined
  end.

(** The own enumerable properties copied by an object spread [...v]:
    those of an object, the indexed characters of a string, none for
    [null], [undefined] and booleans.  A property written after the spread
    in an object literal is an insertion into this map. *)
Definition chars (s : string) : list string :=
  (λ c, String c EmptyString) <$> list_ascii_of_string s.

Definition own (v : value) : gmap string prim :=
  match v with
  | VObj o => o
  | VPrim (Str s) =>
      list_to_map (imap (λ i c, (pretty (N.of_nat i), Str c)) (chars s))
  | VPrim _ => ∅
  end.

End JS.

(** ** JSON

    [JSON.stringify] and [JSON.parse] on the values above.  Numbers,
    arrays and nested objects never occur in a record of the program; a
    text that contains one is rejected by [parse] here. *)

Module JSON.

Definition dquote : ascii := ascii_of_N 34.

Definition hexdigit (n : N) : ascii :=
  ascii_of_N (if (n <? 10)%N then 48 + n else 87 + n)%N.

(** QuoteJSONString, one code unit. *)
Definition escape_char (c : ascii) : string :=
  let n := N_of_ascii c in
  if (n =? 34)%N then String "\" (String dquote EmptyString)
  else if (n =? 92)%N then "\\"
  else if (n =? 8)%N then "\b"
  else if (n =? 9)%N then "\t"
  else if (n =? 10)%N then "\n"
  else if (n =? 12)%N then "\f"
  else if (n =? 13)%N then "\r"
  else if (n <? 32)%N then
    String "\" (String "u" (String "0" (String "0"
      (String (hexdigit (n / 16)) (String (hexdigit (n mod 16)) EmptyString)))))
  else String c EmptyString.

Fixpoint escape (s : string) : string :=
  match s with
  | EmptyString => EmptyString
  | String c r => escape_char c +:+ escape r
  end.

Definition quote (s : string) : string :=
  String dquote (escape s +:+ String dquote EmptyString).

Definition stringify_prim (p : prim) : string :=
  match p with
  | Undefined => "undefined"
  | Null => "null"
  | Bool true => "true"
  | Bool false => "false"
  | Str s => quote s
  end.

(** Members of an object; a property whose value is [undefined] is
    skipped. *)
Fixpoint members (first : bool) (l : list (string * prim)) : string :=
  match l with
  | [] => EmptyString
  | (k, v) :: l' =>
      match v with
      | Undefined => members first l'
      | _ => (if first then "" else ",") +:+ quote k +:+ ":"
               +:+ stringify_prim v +:+ members false l'
      end
  end.

Definition stringify (v : value) : string :=
  match v with
  | VPrim p => stringify_prim p
  | VObj o => String "{" (members true (map_to_list o) +:+ "}")
  end.

Inductive token : Type :=
  | TLBrace | TRBrace | TColon | TComma
  | TString (s : string)
  | TTrue | TFalse | TNull.

Definition hexval (c : ascii) : option N :=
  let n := N_of_ascii c in
  if ((48 <=? n) && (n <=? 57))%N then Some (n - 48)%N
  else if ((97 <=? n) && (n <=? 102))%N then Some (n - 87)%N
  else if ((65 <=? n) && (n <=? 70))%N then Some (n - 55)%N
  else None.

(** The code unit of [\uXXXX]; the strings of this model hold code
    units below 256 only. *)
Definition unicode (h1 h2 h3 h4 : ascii) : option ascii :=
  a ← hexval h1; b ← hexval h2; c ← hexval h3; d ← hexval h4;
  if ((a =? 0) && (b =? 0))%N then Some (ascii_of_N (16 * c + d)) else None.

Definition simple_escape (c : ascii) : option ascii :=
  let n := N_of_ascii c in
  if (n =? 34)%N then Some c
  else if (n =? 92)%N then Some c
  else if (n =? 47)%N then Some c
  else if (n =? 98)%N then Some (ascii_of_N 8)
  else if (n =? 102)%N then Some (ascii_of_N 12)
  else if (n =? 110)%N then Some (ascii_of_N 10)
  else if (n =? 114)%N then Some (ascii_of_N 13)
  else if (n =? 116)%N then Some (ascii_of_N 9)
  else None.

Definition snoc (s : string) (c : ascii) : string := s +:+ String c EmptyString.

(** The lexer: [lit = None] between tokens, [lit = Some pre] inside a
    string literal whose decoded prefix is [pre]. *)
Fixpoint lex (lit : option string) (s : string) {struct s} : option (list token) :=
  match lit, s with
  | None, EmptyString => Some []
  | None, String c r =>
      let n := N_of_ascii c in
      if ((n =? 32) || (n =? 9) || (n =? 10) || (n =? 13))%N then lex None r
      else if (n =? 123)%N then cons TLBrace <$> lex None r
      else if (n =? 125)%N then cons TRBrace <$> lex None r
      else if (n =? 58)%N then cons TColon <$> lex None r
      else if (n =? 44)%N then cons TComma <$> lex None r
      else if (n =? 34)%N then lex (Some EmptyString) r
      else if (n =? 116)%N then
        match r with
        | String "r" (String "u" (String "e" r')) => cons TTrue <$> lex None r'
        | _ => None
        end
      else if (n =? 102)%N then
        match r with
        | String "a" (String "l" (String "s" (String "e" r'))) =>
            cons TFalse <$> lex None r'
        | _ => None
        end
      else if (n =? 110)%N then
        match r with
        | String "u" (String "l" (String "l" r')) => cons TNull <$> lex None r'
        | _ => None
        end
      else None
  | Some pre, EmptyString => None
  | Some pre, String c r =>
      let n := N_of_ascii c in
      if (n =? 34)%N then cons (TString pre) <$> lex None r
      else if (n =? 92)%N then
        match r with
        | String e r' =>
            if (N_of_ascii e =? 117)%N then
              match r' with
              | String h1 (String h2 (String h3 (String h4 r''))) =>
                  match unicode h1 h2 h3 h4 with
                  | Some u => lex (Some (snoc pre u)) r''
                  | None => None
                  end
              | _ => None
              end
            else
              match simple_escape e with
              | Some u => lex (Some (snoc pre u)) r'
              | None => None
              end
        | EmptyString => None
        end
      else if (n <? 32)%N then None
      else lex (Some (snoc pre c)) r
  end.

Definition parse_prim (t : token) : option prim :=
  match t with
  | TString s => Some (Str s)
  | TTrue => Some (Bool true)
  | TFalse => Some (Bool false)
  | TNull => Some Null
  | _ => None
  end.

(** After a member: [,] and the next member, or the closing brace.  A
    repeated name overwrites the earlier member. *)
Fixpoint parse_members (o : gmap string prim) (ts : list token) : option (gmap string prim) :=
  match ts with
  | [TRBrace] => Some o
  | TComma :: TString k :: TColon :: t :: ts' =>
      match parse_prim t with
      | Some v => parse_members (<[k:=v]> o) ts'
      | None => None
      end
  | _ => None
  end.

Definition parse_tokens (ts : list token) : option value :=
  match ts with
  | [TLBrace; TRBrace] => Some (VObj ∅)
  | TLBrace :: TString k :: TColon :: t :: ts' =>
      match parse_prim t with
      | Some v => VObj <$> parse_members {[k := v]} ts'
      | None => None
      end
  | [t] => VPrim <$> parse_prim t
  | _ => None
  end.

(** [None] stands for the SyntaxError of [JSON.parse]. *)
Definition parse (s : string) : option value :=
  lex None s ≫= parse_tokens.

End JSON.

(** ** Date

    Time values are milliseconds since the epoch, as integers.  The
    functions are those of the ECMAScript specification of [Date]; the
    local time zone is a fixed offset [tz] (daylight saving changes are not
    modelled).  An invalid date (NaN time value) is [None]. *)

Module Date.

Definition msPerDay : Z := 86400000.

Definition Day (t : Z) : Z := t / msPerDay.
Definition TimeWithinDay (t : Z) : Z := t mod msPerDay.

Definition leap (y : Z) : bool :=
  if negb (y mod 4 =? 0) then false
  else if negb (y mod 100 =? 0) then true
  else if negb (y mod 400 =? 0) then false
  else true.

Definition DaysInYear (y : Z) : Z := if leap y then 366 else 365.

Definition DayFromYear (y : Z) : Z :=
  365 * (y - 1970) + (y - 1969) / 4 - (y - 1901) / 100 + (y - 1601) / 400.

(** The year [y] with [DayFromYear y <= d < DayFromYear (y + 1)]: an
    estimate from the mean year length, corrected by one. *)
Definition YearFromDay (d : Z) : Z :=
  let y := 1970 + (400 * d) / 146097 in
  if d <? DayFromYear y then y - 1
  else if DayFromYear (y + 1) <=? d then y + 1
  else y.

Definition YearFromTime (t : Z) : Z := YearFromDay (Day t).
Definition InLeapYear (t : Z) : bool := leap (YearFromTime t).
Definition DayWithinYear (t : Z) : Z := Day t - DayFromYear (YearFromTime t).

(** Day within the year on which month [m] (0 for January) starts. *)
Definition MonthStart (lp : bool) (m : Z) : Z :=
  let l := if lp then 1 else 0 in
  if m <=? 0 then 0
  else if m =? 1 then 31
  else if m =? 2 then 59 + l
  else if m =? 3 then 90 + l
  else if m =? 4 then 120 + l
  else if m =? 5 then 151 + l
  else if m =? 6 then 181 + l
  else if m =? 7 then 212 + l
  else if m =? 8 then 243 + l
  else if m =? 9 then 273 + l
  else if m =? 10 then 304 + l
  else 334 + l.

Definition MonthFromDay (lp : bool) (d : Z) : Z :=
  if d <? MonthStart lp 1 then 0
  else if d <? MonthStart lp 2 then 1
  else if d <? MonthStart lp 3 then 2
  else if d <? MonthStart lp 4 then 3
  else if d <? MonthStart lp 5 then 4
  else if d <? MonthStart lp 6 then 5
  else if d <? MonthStart lp 7 then 6
  else if d <? MonthStart lp 8 then 7
  else if d <? MonthStart lp 9 then 8
  else if d <? MonthStart lp 10 then 9
  else if d <? MonthStart lp 11 then 10
  else 11.

Definition MonthFromTime (t : Z) : Z :=
  MonthFromDay (InLeapYear t) (DayWithinYear t).

Definition DateFromTime (t : Z) : Z :=
  DayWithinYear t - MonthStart (InLeapYear t) (MonthFromTime t) + 1.

Definition HourFromTime (t : Z) : Z := (t / 3600000) mod 24.
Definition MinFromTime (t : Z) : Z := (t / 60000) mod 60.
Definition SecFromTime (t : Z) : Z := (t / 1000) mod 60.
Definition msFromTime (t : Z) : Z := t mod 1000.

Definition MakeDay (year month date : Z) : Z :=
  let ym := year + month / 12 in
  let mn := month mod 12 in
  DayFromYear ym + MonthStart (leap ym) mn + date - 1.

Definition MakeDate (day time : Z) : Z := day * msPerDay + time.

Definition TimeClip (t : Z) : option Z :=
  if Z.abs t <=? 8640000000000000 then Some t else None.

Definition LocalTime (tz t : Z) : Z := t + tz.
Definition UTC (tz t : Z) : Z := t - tz.

(** [new Date(v)]. *)
Definition new (v : Z) : option Z := TimeClip v.

Section Methods.
Variable tz : Z.

Definition getDate (d : option Z) : option Z :=
  t ← d; Some (DateFromTime (LocalTime tz t)).

Definition getMonth (d : option Z) : option Z :=
  t ← d; Some (MonthFromTime (LocalTime tz t)).

Definition getFullYear (d : option Z) : option Z :=
  t ← d; Some (YearFromTime (LocalTime tz t)).

Definition setDate (d : option Z) (dt : option Z) : option Z :=
  t ← d; dt ← dt;
  let lt := LocalTime tz t in
  TimeClip (UTC tz (MakeDate
    (MakeDay (YearFromTime lt) (MonthFromTime lt) dt) (TimeWithinDay lt))).

Definition setMonth (d : option Z) (m : option Z) : option Z :=
  t ← d; m ← m;
  let lt := LocalTime tz t in
  TimeClip (UTC tz (MakeDate
    (MakeDay (YearFromTime lt) m (DateFromTime lt)) (TimeWithinDay lt))).

Definition setFullYear (d : option Z) (y : option Z) : option Z :=
  t ← d; y ← y;
  let lt := LocalTime tz t in
  TimeClip (UTC tz (MakeDate
    (MakeDay y (MonthFromTime lt) (DateFromTime lt)) (TimeWithinDay lt))).
End Methods.

Definition plus (a : option Z) (n : Z) : option Z := (λ x, x + n) <$> a.

(** Decimal digits of [n], left-padded with zeros to [w] characters. *)
Definition pad (w : nat) (n : Z) : string :=
  let s := pretty (Z.to_N n) in
  string_of_list_ascii (replicate (w - String.length s) "0"%char) +:+ s.

Definition iso (t : Z) : string :=
  let y := YearFromTime t in
  (if (0 <=? y) && (y <=? 9999) then pad 4 y
   else (if y <? 0 then "-" else "+") +:+ pad 6 (Z.abs y))
  +:+ "-" +:+ pad 2 (MonthFromTime t + 1)
  +:+ "-" +:+ pad 2 (DateFromTime t)
  +:+ "T" +:+ pad 2 (HourFromTime t)
  +:+ ":" +:+ pad 2 (MinFromTime t)
  +:+ ":" +:+ pad 2 (SecFromTime t)
  +:+ "." +:+ pad 3 (msFromTime t) +:+ "Z".

End Date.

(** ** The browser tab: storage, clock and React state

    [localStorage] is a string-keyed map.  An access to it can throw (a
    SecurityError when storage is disabled, a QuotaExceededError on a
    write): [faults] is the schedule of the coming accesses, [Some msg] for
    an access that throws an error with message [msg], [None] (or an empty
    schedule) for one that succeeds.  [clock] is the reading of [Date.now()]
    during the operation (the readings one operation takes are equal),
    [LocalTZA] the offset of the local time zone.  Console output is not
    modelled. *)

Record Browser : Type := {
  localStorage : gmap string string;
  faults : list (option string);
  clock : Z;
  LocalTZA : Z
}.

(** The three [useState] cells of [AuthProvider]. *)
Record AuthState : Type := {
  user : value;
  isLoading : bool;
  emailUnverified : prim
}.

Record State : Type := {
  browser : Browser;
  ctx : AuthState
}.

(** A JavaScript computation: it returns or throws an [Error] (kept as its
    message), and in both cases leaves a state. *)
Inductive Result (A : Type) : Type :=
  | Ok (a : A)
  | Throw (message : string).
Arguments Ok {A} a.
Arguments Throw {A} message.

Definition M (A : Type) : Type := State → Result A * State.

Global Instance M_ret : MRet M := λ A a s, (Ok a, s).
Global Instance M_bind : MBind M := λ A B f m s,
  match m s with
  | (Ok a, s') => f a s'
  | (Throw e, s') => (Throw e, s')
  end.

Definition throw {A} (message : string) : M A := λ s, (Throw message, s).

(** [try { body } catch (error) { handler }]. *)
Definition try_catch {A} (body : M A) (handler : string → M A) : M A := λ s,
  match body s with
  | (Ok a, s') => (Ok a, s')
  | (Throw e, s') => handler e s'
  end.

(** [try { body } finally { fin }]. *)
Definition try_finally {A} (body : M A) (fin : M unit) : M A := λ s,
  match body s with
  | (r, s') =>
      match fin s' with
      | (Ok _, s'') => (r, s'')
      | (Throw e, s'') => (Throw e, s'')
      end
  end.

Definition set_localStorage (m : gmap string string) (fs : list (option string))
    (s : State) : State :=
  {| browser := {| localStorage := m; faults := fs;
                   clock := clock (browser s); LocalTZA := LocalTZA (browser s) |};
     ctx := ctx s |}.

(** One access to [localStorage]: consume the head of the schedule. *)
Definition access {A} (f : gmap string string → A * gmap string string) : M A := λ s,
  let m := localStorage (browser s) in
  match faults (browser s) with
  | Some msg :: fs => (Throw msg, set_localStorage m fs s)
  | None :: fs => let '(a, m') := f m in (Ok a, set_localStorage m' fs s)
  | [] => let '(a, m') := f m in (Ok a, set_localStorage m' [] s)
  end.

Definition getItem (k : string) : M (option string) := access (λ m, (m !! k, m)).
Definition setItem (k v : string) : M unit := access (λ m, (tt, <[k:=v]> m)).
Definition removeItem (k : string) : M unit := access (λ m, (tt, delete k m)).

Definition Date_now : M Z := λ s, (Ok (clock (browser s)), s).
Definition tzOffset : M Z := λ s, (Ok (LocalTZA (browser s)), s).

(** [d.toISOString()]: a RangeError on an invalid date. *)
Definition toISOString (d : option Z) : M string :=
  match d with
  | Some t => mret (Date.iso t)
  | None => throw "Invalid time value"
  end.

Definition getUser : M value := λ s, (Ok (user (ctx s)), s).

Definition set_ctx (c : AuthState) (s : State) : State :=
  {| browser := browser s; ctx := c |}.

Definition setUser (v : value) : M unit := λ s,
  (Ok tt, set_ctx {| user := v; isLoading := isLoading (ctx s);
                     emailUnverified := emailUnverified (ctx s) |} s).

Definition setIsLoading (b : bool) : M unit := λ s,
  (Ok tt, set_ctx {| user := user (ctx s); isLoading := b;
                     emailUnverified := emailUnverified (ctx s) |} s).

Definition setEmailUnverified (p : prim) : M unit := λ s,
  (Ok tt, set_ctx {| user := user (ctx s); isLoading := isLoading (ctx s);
                     emailUnverified := p |} s).

(** ** [config/flags]: the feature flags, read once at start-up

    [DEBUG_MODE] only switches console output on. *)

Record Features : Type := {
  USE_AMPLIFY_AUTH : bool;
  DEBUG_MODE : bool
}.

(** ** [services/auth.ts]: the session manager *)

Record AuthResponse : Type := {
  r_user : gmap string prim;
  r_accessToken : string;
  r_refreshToken : string
}.

Module AuthService.

Definition USER : string := "auth_user".
Definition TOKEN : string := "auth_token".
Definition REFRESH_TOKEN : string := "auth_refresh_token".

Section Service.
Variable FEATURES : Features.

(** Run by the constructor; what it reads only decides a console message. *)
Definition initializeAuth : M unit :=
  userData ← getItem USER;
  token ← getItem TOKEN;
  mret tt.

Definition login (email password : string) : M AuthResponse :=
  try_catch
    (if USE_AMPLIFY_AUTH FEATURES
     then throw "AWS Cognito authentication not yet implemented"
     else
       now ← Date_now;
       subscriptionEnd ← toISOString (Date.new (now + 30 * 24 * 60 * 60 * 1000));
       let user : gmap string prim :=
         {[ "id" := Str "placeholder-user-id";
            "email" := Str email;
            "fullName" := Str "John Doe";
            "phone" := Str "+1234567890";
            "isOnboarded" := Bool true;
            "subscribed" := Bool true;
            "subscriptionEnd" := Str subscriptionEnd;
            "emailUnverified" := Bool false ]} in
       now1 ← Date_now;
       let accessToken := "placeholder-token-" +:+ pretty now1 in
       now2 ← Date_now;
       let refreshToken := "placeholder-refresh-" +:+ pretty now2 in
       setItem USER (JSON.stringify (VObj user));;
       setItem TOKEN accessToken;;
       setItem REFRESH_TOKEN refreshToken;;
       mret {| r_user := user; r_accessToken := accessToken;
               r_refreshToken := refreshToken |})
    (λ error, throw ("Login failed: " +:+ error)).

(** [fullName] and [phone] are optional in [SignUpData]; [x || ''] is
    [x] for a string and the empty string for an absent field. *)
Definition signUp (email password : string) (fullName phone : option string)
    : M AuthResponse :=
  try_catch
    (if USE_AMPLIFY_AUTH FEATURES
     then throw "AWS Cognito registration not yet implemented"
     else
       now ← Date_now;
       let user : gmap string prim :=
         {[ "id" := Str ("placeholder-user-" +:+ pretty now);
            "email" := Str email;
            "fullName" := Str (default "" fullName);
            "phone" := Str (default "" phone);
            "isOnboarded" := Bool false;
            "subscribed" := Bool false;
            "emailUnverified" := Bool true ]} in
       now1 ← Date_now;
       let accessToken := "placeholder-token-" +:+ pretty now1 in
       now2 ← Date_now;
       let refreshToken := "placeholder-refresh-" +:+ pretty now2 in
       setItem USER (JSON.stringify (VObj user));;
       setItem TOKEN accessToken;;
       setItem REFRESH_TOKEN refreshToken;;
       mret {| r_user := user; r_accessToken := accessToken;
               r_refreshToken := refreshToken |})
    (λ error, throw ("Sign up failed: " +:+ error)).

(** The branch on [USE_AMPLIFY_AUTH] is empty in the source. *)
Definition logout : M unit :=
  try_catch
    (removeItem USER;;
     removeItem TOKEN;;
     removeItem REFRESH_TOKEN)
    (λ error,
     removeItem USER;;
     removeItem TOKEN;;
     removeItem REFRESH_TOKEN).

Definition getCurrentUser : M value :=
  try_catch
    (userData ← getItem USER;
     match userData with
     | Some text =>
         if JS.truthy_prim (Str text) then
           match JSON.parse text with
           | Some v => mret v
           | None => throw "Unexpected token in JSON"
           end
         else mret (VPrim Null)
     | None => mret (VPrim Null)
     end)
    (λ error, mret (VPrim Null)).

Definition getAccessToken : M (option string) := getItem TOKEN.

Definition isLoggedIn : M bool :=
  user ← getCurrentUser;
  token ← getAccessToken;
  mret (JS.truthy user &&
        match token with Some tk => JS.truthy_prim (Str tk) | None => false end).

Definition refreshToken : M string :=
  try_catch
    (if USE_AMPLIFY_AUTH FEATURES
     then throw "AWS Cognito token refresh not yet implemented"
     else
       now ← Date_now;
       let newToken := "placeholder-token-refreshed-" +:+ pretty now in
       setItem TOKEN newToken;;
       mret newToken)
    (λ error, throw ("Token refresh failed: " +:+ error)).

Definition resetPassword (email : string) : M unit :=
  try_catch
    (if USE_AMPLIFY_AUTH FEATURES
     then throw "AWS Cognito password reset not yet implemented"
     else mret tt)
    (λ error, throw ("Password reset failed: " +:+ error)).

(** The assignment [user.emailUnverified = false] on a truthy value that
    is not an object (a string or [true] read back from the store) is a
    TypeError in module code. *)
Definition verifyEmail (token : string) : M unit :=
  try_catch
    (if USE_AMPLIFY_AUTH FEATURES
     then throw "AWS Cognito email verification not yet implemented"
     else
       user ← getCurrentUser;
       if JS.truthy user then
         match user with
         | VObj o =>
             setItem USER (JSON.stringify (VObj (<["emailUnverified" := Bool false]> o)))
         | VPrim _ => throw "Cannot create property 'emailUnverified'"
         end
       else mret tt)
    (λ error, throw ("Email verification failed: " +:+ error)).

End Service.
End AuthService.

(** ** [contexts/AuthContext.tsx]: the session context *)

Inductive Tier : Type := semiannual | annual.

Definition tier_name (tier : Tier) : string :=
  match tier with
  | semiannual => "semiannual"
  | annual => "annual"
  end.

Module AuthContext.

(** The [User] interface of the context. *)
Record User : Type := {
  id : string;
  phone : option string;
  email : string;
  fullName : option string;
  companyName : option string;
  panNumber : option string;
  isOnboarded : bool;
  subscribed : bool;
  subscriptionTier : option (option string);
  subscriptionEnd : option (option string);
  phoneVerified : option bool;
  emailUnverified : option bool
}.

Definition opt (k : string) (p : option prim) (o : gmap string prim) : gmap string prim :=
  match p with
  | Some v => <[k := v]> o
  | None => o
  end.

Definition nullable (x : option string) : prim :=
  match x with
  | Some s => Str s
  | None => Null
  end.

(** The object that holds a [User]: an absent optional field is an
    absent property. *)
Definition toObj (u : User) : gmap string prim :=
  opt "emailUnverified" (Bool <$> emailUnverified u)
  (opt "phoneVerified" (Bool <$> phoneVerified u)
  (opt "subscriptionEnd" (nullable <$> subscriptionEnd u)
  (opt "subscriptionTier" (nullable <$> subscriptionTier u)
  (<["subscribed" := Bool (subscribed u)]>
  (<["isOnboarded" := Bool (isOnboarded u)]>
  (opt "panNumber" (Str <$> panNumber u)
  (opt "companyName" (Str <$> companyName u)
  (opt "fullName" (Str <$> fullName u)
  (<["email" := Str (email u)]>
  (opt "phone" (Str <$> phone u)
  (<["id" := Str (id u)]> ∅))))))))))).

(** Reading the fields of an object back at their declared types. *)
Definition str_field (k : string) (o : gmap string prim) : option string :=
  match o !! k with Some (Str s) => Some s | _ => None end.

Definition bool_field (k : string) (o : gmap string prim) : option bool :=
  match o !! k with Some (Bool b) => Some b | _ => None end.

Definition opt_str_field (k : string) (o : gmap string prim) : option (option string) :=
  match o !! k with
  | None => Some None
  | Some (Str s) => Some (Some s)
  | _ => None
  end.

Definition opt_bool_field (k : string) (o : gmap string prim) : option (option bool) :=
  match o !! k with
  | None => Some None
  | Some (Bool b) => Some (Some b)
  | _ => None
  end.

Definition opt_nullable_field (k : string) (o : gmap string prim)
    : option (option (option string)) :=
  match o !! k with
  | None => Some None
  | Some Null => Some (Some None)
  | Some (Str s) => Some (Some (Some s))
  | _ => None
  end.

Definition fromObj (o : gmap string prim) : option User :=
  id ← str_field "id" o;
  phone ← opt_str_field "phone" o;
  email ← str_field "email" o;
  fullName ← opt_str_field "fullName" o;
  companyName ← opt_str_field "companyName" o;
  panNumber ← opt_str_field "panNumber" o;
  isOnboarded ← bool_field "isOnboarded" o;
  subscribed ← bool_field "subscribed" o;
  subscriptionTier ← opt_nullable_field "subscriptionTier" o;
  subscriptionEnd ← opt_nullable_field "subscriptionEnd" o;
  phoneVerified ← opt_bool_field "phoneVerified" o;
  emailUnverified ← opt_bool_field "emailUnverified" o;
  Some {| id := id; phone := phone; email := email; fullName := fullName;
          companyName := companyName; panNumber := panNumber;
          isOnboarded := isOnboarded; subscribed := subscribed;
          subscriptionTier := subscriptionTier; subscriptionEnd := subscriptionEnd;
          phoneVerified := phoneVerified; emailUnverified := emailUnverified |}.

(** The object literal that [initializeAuth], [login] and [signup] build
    from a service user: eight properties, each read from [v]. *)
Definition userData (v : value) : gmap string prim :=
  {[ "id" := JS.field "id" v;
     "email" := JS.field "email" v;
     "fullName" := JS.field "fullName" v;
     "phone" := JS.field "phone" v;
     "isOnboarded" := JS.field "isOnboarded" v;
     "subscribed" := JS.field "subscribed" v;
     "subscriptionEnd" := JS.field "subscriptionEnd" v;
     "emailUnverified" := JS.field "emailUnverified" v ]}.

Section Context.
Variable FEATURES : Features.

(** The effect run once when the provider mounts. *)
Definition initializeAuth : M unit :=
  currentUser ← AuthService.getCurrentUser;
  (if JS.truthy currentUser then
     setUser (VObj (userData currentUser));;
     setEmailUnverified (JS.or (JS.field "emailUnverified" currentUser) (Bool false))
   else mret tt);;
  setIsLoading false.

(** The result [{}] is [None], [{ error }] is [Some error]. *)
Definition login (email password : string) : M (option string) :=
  try_finally
    (try_catch
       (setIsLoading true;;
        response ← AuthService.login FEATURES email password;
        setUser (VObj (userData (VObj (r_user response))));;
        setEmailUnverified
          (JS.or (JS.get "emailUnverified" (r_user response)) (Bool false));;
        mret None)
       (λ error, mret (Some error)))
    (setIsLoading false).

Definition signup (email password : string) (fullName phone vehicleNumber : string)
    : M (option string) :=
  try_finally
    (try_catch
       (setIsLoading true;;
        response ← AuthService.signUp FEATURES email password (Some fullName) (Some phone);
        setUser (VObj (userData (VObj (r_user response))));;
        setEmailUnverified
          (JS.or (JS.get "emailUnverified" (r_user response)) (Bool false));;
        mret None)
       (λ error, mret (Some error)))
    (setIsLoading false).

Definition logout : M unit :=
  try_finally
    (try_catch
       (setIsLoading true;;
        AuthService.logout;;
        setUser (VPrim Null);;
        setEmailUnverified (Bool false))
       (λ error, mret tt))
    (setIsLoading false).

Definition completeOnboarding (fullName mobileNo vehicleNumber : string) : M bool :=
  try_catch
    (user ← getUser;
     if negb (JS.truthy user) then mret false
     else
       let updatedUser :=
         <["isOnboarded" := Bool true]>
         (<["phone" := Str mobileNo]>
         (<["fullName" := Str fullName]> (JS.own user))) in
       currentUser ← AuthService.getCurrentUser;
       setItem "auth_user" (JSON.stringify (VObj
         (<["isOnboarded" := Bool true]>
         (<["phone" := Str mobileNo]>
         (<["fullName" := Str fullName]> (JS.own currentUser))))));;
       setUser (VObj updatedUser);;
       mret true)
    (λ error, mret false).

Definition updateProfile (fullName companyName panNumber phone : string) : M bool :=
  try_catch
    (user ← getUser;
     if negb (JS.truthy user) then mret false
     else
       let updatedUser :=
         <["phone" := Str phone]>
         (<["panNumber" := Str panNumber]>
         (<["companyName" := Str companyName]>
         (<["fullName" := Str fullName]> (JS.own user)))) in
       currentUser ← AuthService.getCurrentUser;
       setItem "auth_user" (JSON.stringify (VObj
         (<["phone" := Str phone]>
         (<["panNumber" := Str panNumber]>
         (<["companyName" := Str companyName]>
         (<["fullName" := Str fullName]> (JS.own currentUser)))))));;
       setUser (VObj updatedUser);;
       mret true)
    (λ error, mret false).

Definition subscribe (tier : string) (subscriptionEnd : string)
    (o : gmap string prim) : gmap string prim :=
  <["subscriptionEnd" := Str subscriptionEnd]>
  (<["subscriptionTier" := Str tier]>
  (<["subscribed" := Bool true]> o)).

Definition startTrial : M unit :=
  try_catch
    (user ← getUser;
     if negb (JS.truthy user) then mret tt
     else
       now ← Date_now;
       tz ← tzOffset;
       let trialEnd := Date.new now in
       let trialEnd :=
         Date.setDate tz trialEnd (Date.plus (Date.getDate tz trialEnd) 7) in
       end1 ← toISOString trialEnd;
       let updatedUser := subscribe "trial" end1 (JS.own user) in
       currentUser ← AuthService.getCurrentUser;
       end2 ← toISOString trialEnd;
       setItem "auth_user" (JSON.stringify (VObj
         (subscribe "trial" end2 (JS.own currentUser))));;
       setUser (VObj updatedUser))
    (λ error, mret tt).

Definition setPaidSubscription (tier : Tier) : M unit :=
  try_catch
    (user ← getUser;
     if negb (JS.truthy user) then mret tt
     else
       now ← Date_now;
       tz ← tzOffset;
       let subscriptionEnd := Date.new now in
       let subscriptionEnd :=
         match tier with
         | semiannual =>
             Date.setMonth tz subscriptionEnd
               (Date.plus (Date.getMonth tz subscriptionEnd) 6)
         | annual =>
             Date.setFullYear tz subscriptionEnd
               (Date.plus (Date.getFullYear tz subscriptionEnd) 1)
         end in
       end1 ← toISOString subscriptionEnd;
       let updatedUser := subscribe (tier_name tier) end1 (JS.own user) in
       currentUser ← AuthService.getCurrentUser;
       end2 ← toISOString subscriptionEnd;
       setItem "auth_user" (JSON.stringify (VObj
         (subscribe (tier_name tier) end2 (JS.own currentUser))));;
       setUser (VObj updatedUser))
    (λ error, mret tt).

Definition resendVerificationEmail (email : string) : M (option string) :=
  try_catch (mret None) (λ error, mret (Some error)).

End Context.
End AuthContext.

(** ** Operations and the user records of a state *)

(** What a read of the user key finds in a store: the parsed text, [null]
    when the key is absent, empty or not JSON. *)
Definition stored_user (m : gmap string string) : value :=
  match m !! AuthService.USER with
  | Some text =>
      if JS.truthy_prim (Str text)
      then default (VPrim Null) (JSON.parse text)
      else VPrim Null
  | None => VPrim Null
  end.

(** The operations of the session context and of the session manager. *)
Inductive Op : Type :=
  | InitializeAuth
  | Login (email password : string)
  | Signup (email password fullName phone vehicleNumber : string)
  | Logout
  | CompleteOnboarding (fullName mobileNo vehicleNumber : string)
  | UpdateProfile (fullName companyName panNumber phone : string)
  | StartTrial
  | SetPaidSubscription (tier : Tier)
  | ResendVerificationEmail (email : string)
  | ServiceLogin (email password : string)
  | ServiceSignUp (email password : string) (fullName phone : option string)
  | ServiceLogout
  | ServiceGetCurrentUser
  | ServiceGetAccessToken
  | ServiceIsLoggedIn
  | ServiceRefreshToken
  | ServiceResetPassword (email : string)
  | ServiceVerifyEmail (token : string).

Definition exec {A} (m : M A) (s : State) : State := (m s).2.

Definition run (F : Features) (op : Op) : State → State :=
  match op with
  | InitializeAuth => exec AuthContext.initializeAuth
  | Login e p => exec (AuthContext.login F e p)
  | Signup e p fn ph vn => exec (AuthContext.signup F e p fn ph vn)
  | Logout => exec AuthContext.logout
  | CompleteOnboarding fn mob vn => exec (AuthContext.completeOnboarding fn mob vn)
  | UpdateProfile fn cn pan ph => exec (AuthContext.updateProfile fn cn pan ph)
  | StartTrial => exec AuthContext.startTrial
  | SetPaidSubscription tier => exec (AuthContext.setPaidSubscription tier)
  | ResendVerificationEmail e => exec (AuthContext.resendVerificationEmail e)
  | ServiceLogin e p => exec (AuthService.login F e p)
  | ServiceSignUp e p fn ph => exec (AuthService.signUp F e p fn ph)
  | ServiceLogout => exec AuthService.logout
  | ServiceGetCurrentUser => exec AuthService.getCurrentUser
  | ServiceGetAccessToken => exec AuthService.getAccessToken
  | ServiceIsLoggedIn => exec AuthService.isLoggedIn
  | ServiceRefreshToken => exec (AuthService.refreshToken F)
  | ServiceResetPassword e => exec (AuthService.resetPassword F e)
  | ServiceVerifyEmail tk => exec (AuthService.verifyEmail F tk)
  end.

(** A state whose storage accesses all succeed. *)
Definition working (m : gmap string string) (now tz : Z) (c : AuthState) : State :=
  {| browser := {| localStorage := m; faults := []; clock := now; LocalTZA := tz |};
     ctx := c |}.

(** The ISO rendering of a valid time value. *)
Definition timestamp (s : string) : Prop :=
  ∃ t, Date.TimeClip t = Some t ∧ s = Date.iso t.

(** The data-model invariant on one user record. *)
Definition subscription_ok (v : value) : Prop :=
  JS.field "subscribed" v = Bool true →
  ∃ s, JS.field "subscriptionEnd" v = Str s ∧ timestamp s.

Definition Inv (s : State) : Prop :=
  subscription_ok (user (ctx s)) ∧
  subscription_ok (stored_user (localStorage (browser s))).

(** A subscribed record [v] of the state after an operation that started
    at time [now] in state [s]: its end was set by the operation, to a
    valid time later than [now], or it is the end of a subscribed record
    of [s]. *)
Definition end_set_in_future (s : State) (v : value) : Prop :=
  JS.field "subscribed" v = Bool true →
  (∃ t, clock (browser s) < t ∧ Date.TimeClip t = Some t
        ∧ JS.field "subscriptionEnd" v = Str (Date.iso t))
  ∨ (∃ v0, (v0 = user (ctx s) ∨ v0 = stored_user (localStorage (browser s)))
        ∧ JS.field "subscribed" v0 = Bool true
        ∧ JS.field "subscriptionEnd" v = JS.field "subscriptionEnd" v0).

(** ** Auxiliary definitions of the development *)

(** The tokens of the text that [JSON.stringify] writes. *)
Definition prim_token (p : prim) : JSON.token :=
  match p with
  | Str s => JSON.TString s
  | Bool true => JSON.TTrue
  | Bool false => JSON.TFalse
  | _ => JSON.TNull
  end.

Fixpoint member_tokens (first : bool) (l : list (string * prim)) : list JSON.token :=
  match l with
  | [] => []
  | (k, v) :: l' =>
      match v with
      | Undefined => member_tokens first l'
      | _ => (if first then [] else [JSON.TComma])
             ++ JSON.TString k :: JSON.TColon :: prim_token v :: member_tokens false l'
      end
  end.

(** An object after a round trip through JSON: the properties whose value
    is [undefined] are gone. *)
Definition is_def (kv : string * prim) : Prop := kv.2 ≠ Undefined.

Global Instance is_def_dec kv : Decision (is_def kv).
Proof. unfold is_def. apply _. Defined.

Definition defined (o : gmap string prim) : gmap string prim := filter is_def o.

Definition ins (acc : gmap string prim) (kv : string * prim) : gmap string prim :=
  <[kv.1 := kv.2]> acc.

Definition no_undefined (o : gmap string prim) : Prop := ∀ k, o !! k ≠ Some Undefined.

(** A character that is no decimal digit: no property name starting with
    one is the index of a character of a string. *)
Definition letter (a : ascii) : Prop := ∀ n, pretty_N_char n ≠ a.

Definition flags (amplify debug : bool) : Features :=
  {| USE_AMPLIFY_AUTH := amplify; DEBUG_MODE := debug |}.

Definition anonymous : AuthState :=
  {| user := VPrim Null; isLoading := false; emailUnverified := Bool false |}.

(** The user record of the placeholder login. *)
Definition loginUser (email subscriptionEnd : string) : gmap string prim :=
  {[ "id" := Str "placeholder-user-id";
     "email" := Str email;
     "fullName" := Str "John Doe";
     "phone" := Str "+1234567890";
     "isOnboarded" := Bool true;
     "subscribed" := Bool true;
     "subscriptionEnd" := Str subscriptionEnd;
     "emailUnverified" := Bool false ]}.

Definition thirtyDays : Z := 30 * 24 * 60 * 60 * 1000.

(** The three fields that [completeOnboarding] sets. *)
Definition onboard (fullName mobileNo : string) (o : gmap string prim) : gmap string prim :=
  <["isOnboarded" := Bool true]>
  (<["phone" := Str mobileNo]>
  (<["fullName" := Str fullName]> o)).

Definition session_keys : list string :=
  [AuthService.USER; AuthService.TOKEN; AuthService.REFRESH_TOKEN].



(** [m'] differs from [m] by a write (or a removal, when [rm]) of exactly the
    keys [ks]. *)
Definition wrote (rm : bool) (ks : list string) (m m' : gmap string string) : Prop :=
  (∀ k, k ∈ ks → if rm then m' !! k = None else is_Some (m' !! k))
  ∧ (∀ k, k ∉ ks → m' !! k = m !! k).

(** The operations that are not expected to change an unfinished
    onboarding: all but login, completeOnboarding and the mount-time
    initialisation (which copies the stored record). *)
Definition keeps_onboarding (op : Op) : bool :=
  match op with
  | Login _ _ | CompleteOnboarding _ _ _ | InitializeAuth => false
  | _ => true
  end.

(** A tab whose storage has become inaccessible while a user is loaded. *)
Definition stale_session : State :=
  {| browser := {| localStorage := {[ "auth_user" := "{}"; "auth_token" := "t" ]};
                   faults := [Some "SecurityError"; Some "SecurityError"];
                   clock := 0; LocalTZA := 0 |};
     ctx := {| user := VObj {[ "id" := Str "u1" ]}; isLoading := false;
               emailUnverified := Bool true |} |}.

Definition subscribed_session : State :=
  working ∅ 0 0
    {| user := VObj {[ "subscribed" := Bool true;
                       "subscriptionEnd" := Str "1970-01-01T00:00:00.000Z" ]};
       isLoading := false; emailUnverified := Bool false |}.


Definition q : string := String JSON.dquote "".

(** * The code around the session: network, API service, payment page,
      configuration, SDK adapter *)

(** ** The network

    [fetch] sends a request and receives the reply of the outside world.
    The world is a function of the requests sent so far: it answers the
    last of them with a response or makes the promise reject (a TypeError
    when the network fails, an AbortError when the timeout of [request]
    aborts the call).  A response carries its status line and the value that
    [response.json()] resolves to (a value of this model: a primitive or a
    flat object), [None] when the body is not JSON (the promise of [json()]
    then rejects with a SyntaxError). *)

Record File : Type := {
  file_name : string;
  file_type : string;
  file_content : string
}.

Inductive Body : Type :=
  | NoBody
  | Text (s : string)
  | Blob (f : File).

Record Request : Type := {
  url : string;
  method : option string;
  headers : gmap string string;
  body : Body
}.

Record Response : Type := {
  status : Z;
  statusText : string;
  payload : option value
}.

(** [response.ok]: the status is in the range 200-299. *)
Definition ok (r : Response) : bool := (200 <=? status r) && (status r <=? 299).

Inductive Reply : Type :=
  | Rejected (message : string)
  | Responded (r : Response).

(** ** [pages/PaymentSuccessPage]: the state of the page *)

Inductive Status : Type := verifying | success | failed.

(** The two [useState] cells of the page and the navigations scheduled
    with [setTimeout] (delay in milliseconds, target path). *)
Record Page : Type := {
  page_status : Status;
  page_message : string;
  timers : list (Z * string)
}.

(** ** The application: the tab, the network and the page *)

Record World : Type := {
  tab : State;
  server : list Request → Reply;
  sent : list Request;
  page : Page
}.

(** A thrown value: an instance of [Error] (kept as its message; it has no
    [status] property), or the plain [ApiError] object that [request]
    throws. *)
Inductive Thrown : Type :=
  | Error (message : string)
  | ApiError (message : string) (status : prim).

Inductive Outcome (A : Type) : Type :=
  | Return (a : A)
  | Raise (e : Thrown).
Arguments Return {A} a.
Arguments Raise {A} e.

Definition W (A : Type) : Type := World → Outcome A * World.

Global Instance W_ret : MRet W := λ A a w, (Return a, w).
Global Instance W_bind : MBind W := λ A B f m w,
  match m w with
  | (Return a, w') => f a w'
  | (Raise e, w') => (Raise e, w')
  end.

Definition raise {A} (e : Thrown) : W A := λ w, (Raise e, w).

(** [try { body } catch (error) { handler }]. *)
Definition catch {A} (body : W A) (handler : Thrown → W A) : W A := λ w,
  match body w with
  | (Return a, w') => (Return a, w')
  | (Raise e, w') => handler e w'
  end.

Definition set_tab (s : State) (w : World) : World :=
  {| tab := s; server := server w; sent := sent w; page := page w |}.

(** A computation of the tab, run in the application. *)
Definition lift {A} (m : M A) : W A := λ w,
  match m (tab w) with
  | (Ok a, s) => (Return a, set_tab s w)
  | (Throw message, s) => (Raise (Error message), set_tab s w)
  end.

Definition fetch (req : Request) : W Response := λ w,
  let log := sent w ++ [req] in
  let w' := {| tab := tab w; server := server w; sent := log; page := page w |} in
  match server w log with
  | Rejected message => (Raise (Error message), w')
  | Responded r => (Return r, w')
  end.

(** [response.json()]. *)
Definition json (r : Response) : W value :=
  match payload r with
  | Some v => mret v
  | None => raise (Error "Unexpected token in JSON")
  end.

(** ToString of a primitive (a template literal, the URL given to
    [fetch]). *)
Definition ToString (p : prim) : string :=
  match p with
  | Undefined => "undefined"
  | Null => "null"
  | Bool true => "true"
  | Bool false => "false"
  | Str s => s
  end.

(** The property read [v.k] as an expression: a TypeError on [null] and
    [undefined]. *)
Definition member (k : string) (v : value) : W prim :=
  match v with
  | VPrim Null | VPrim Undefined => raise (Error "Cannot read properties of null")
  | _ => mret (JS.field k v)
  end.

(** ** [URLSearchParams]: the application/x-www-form-urlencoded serializer

    A string is encoded to UTF-8 (two bytes for a code unit from 128 to
    255); a byte is kept when it is an ASCII letter or digit or one of
    [*-._], a space becomes [+], every other byte is percent-encoded. *)

Module URLSearchParams.

Definition utf8 (c : ascii) : list N :=
  let n := N_of_ascii c in
  if (n <? 128)%N then [n] else [192 + n / 64; 128 + n mod 64]%N.

Definition unreserved (n : N) : bool :=
  (((48 <=? n) && (n <=? 57)) || ((65 <=? n) && (n <=? 90))
   || ((97 <=? n) && (n <=? 122))
   || (n =? 42) || (n =? 45) || (n =? 46) || (n =? 95))%N.

Definition HEXDIGIT (n : N) : ascii :=
  ascii_of_N (if (n <? 10)%N then 48 + n else 55 + n)%N.

Definition encode_byte (n : N) : string :=
  if (n =? 32)%N then "+"
  else if unreserved n then String (ascii_of_N n) EmptyString
  else String "%" (String (HEXDIGIT (n / 16)) (String (HEXDIGIT (n mod 16)) EmptyString)).

Fixpoint encode_bytes (l : list N) : string :=
  match l with
  | [] => EmptyString
  | n :: l' => encode_byte n +:+ encode_bytes l'
  end.

Fixpoint encode (s : string) : string :=
  match s with
  | EmptyString => EmptyString
  | String c r => encode_bytes (utf8 c) +:+ encode r
  end.

(** [new URLSearchParams(record).toString()], the entries of the record in
    their enumeration order. *)
Fixpoint toString (params : list (string * string)) : string :=
  match params with
  | [] => EmptyString
  | [(k, v)] => encode k +:+ "=" +:+ encode v
  | (k, v) :: rest => encode k +:+ "=" +:+ encode v +:+ "&" +:+ toString rest
  end.

End URLSearchParams.

(** ** [services/api.ts]: the API service

    [baseUrl] is [CONFIG.API_BASE_URL].  The timer that aborts a request
    after [CONFIG.API_TIMEOUT] is part of the world's reply (a rejection);
    [DEBUG_MODE] only switches console output on.  The JSON text of a body
    lists the properties of an object in the order of the map that holds
    them, not in the order of the object literal. *)

Record RequestInit : Type := {
  init_method : option string;
  init_body : Body;
  init_headers : gmap string string
}.

Record ApiResponse : Type := {
  data : value;
  api_success : bool
}.

Module ApiService.

Section Service.
Variable baseUrl : string.

Definition getAuthToken : W (option string) := lift (getItem "auth_token").

Definition request (endpoint : string) (options : RequestInit) : W ApiResponse :=
  let url := baseUrl +:+ endpoint in
  token ← getAuthToken;
  let defaultHeaders : gmap string string := {[ "Content-Type" := "application/json" ]} in
  let defaultHeaders :=
    match token with
    | Some tk =>
        if JS.truthy_prim (Str tk)
        then <["Authorization" := "Bearer " +:+ tk]> defaultHeaders
        else defaultHeaders
    | None => defaultHeaders
    end in
  let config :=
    {| url := url; method := init_method options;
       headers := init_headers options ∪ defaultHeaders;
       body := init_body options |} in
  catch
    (response ← fetch config;
     if negb (ok response)
     then raise (Error ("HTTP " +:+ pretty (status response) +:+ ": "
                        +:+ statusText response))
     else
       data ← json response;
       mret {| data := data; api_success := true |})
    (λ error,
     raise (ApiError
              match error with
              | Error message => message
              | ApiError _ _ => "Unknown API error"
              end
              Undefined)).

Definition get (endpoint : string) (params : option (list (string * string)))
    : W ApiResponse :=
  let url :=
    match params with
    | Some ps => endpoint +:+ "?" +:+ URLSearchParams.toString ps
    | None => endpoint
    end in
  request url {| init_method := Some "GET"; init_body := NoBody; init_headers := ∅ |}.

Definition post (endpoint : string) (body : value) : W ApiResponse :=
  request endpoint
    {| init_method := Some "POST";
       init_body := if JS.truthy body then Text (JSON.stringify body) else NoBody;
       init_headers := ∅ |}.

Definition put (endpoint : string) (body : value) : W ApiResponse :=
  request endpoint
    {| init_method := Some "PUT";
       init_body := if JS.truthy body then Text (JSON.stringify body) else NoBody;
       init_headers := ∅ |}.

Definition patch (endpoint : string) (body : value) : W ApiResponse :=
  request endpoint
    {| init_method := Some "PATCH";
       init_body := if JS.truthy body then Text (JSON.stringify body) else NoBody;
       init_headers := ∅ |}.

Definition delete (endpoint : string) : W ApiResponse :=
  request endpoint
    {| init_method := Some "DELETE"; init_body := NoBody; init_headers := ∅ |}.

Definition getUploadUrl (fileName contentType : string) : W ApiResponse :=
  post "/upload-url"
    (VObj {[ "fileName" := Str fileName; "contentType" := Str contentType ]}).

Definition uploadFile (uploadUrl : prim) (file : File) : W unit :=
  response ← fetch {| url := ToString uploadUrl; method := Some "PUT";
                      headers := {[ "Content-Type" := file_type file ]};
                      body := Blob file |};
  if negb (ok response)
  then raise (Error ("Upload failed: " +:+ statusText response))
  else mret tt.

Definition uploadFileComplete (file : File) : W prim :=
  catch
    (response ← getUploadUrl (file_name file) (file_type file);
     let urlData := data response in
     uploadUrl ← member "uploadUrl" urlData;
     uploadFile uploadUrl file;;
     member "fileUrl" urlData)
    (λ error,
     raise (Error ("File upload failed: "
                   +:+ match error with
                       | Error message => message
                       | ApiError _ _ => "Unknown error"
                       end))).

End Service.
End ApiService.

(** ** [pages/PaymentSuccessPage]: the verification effect *)

Module PaymentSuccessPage.

Definition set_page (p : Page) (w : World) : World :=
  {| tab := tab w; server := server w; sent := sent w; page := p |}.

Definition setStatus (st : Status) : W unit := λ w,
  (Return tt, set_page {| page_status := st; page_message := page_message (page w);
                          timers := timers (page w) |} w).

Definition setMessage (text : string) : W unit := λ w,
  (Return tt, set_page {| page_status := page_status (page w); page_message := text;
                          timers := timers (page w) |} w).

(** [setTimeout(() => navigate(path), delay)]. *)
Definition navigate_after (path : string) (delay : Z) : W unit := λ w,
  (Return tt, set_page {| page_status := page_status (page w);
                          page_message := page_message (page w);
                          timers := timers (page w) ++ [(delay, path)] |} w).

Section Page.
Variable baseUrl : string.

(** One run of the effect; [order_id] is [params.get("order_id")]. *)
Definition verify (order_id : option string) : W unit :=
  match order_id with
  | Some orderId =>
      if JS.truthy_prim (Str orderId) then
        catch
          (response ← ApiService.post baseUrl "/payments/verify"
                        (VObj {[ "orderId" := Str orderId ]});
           isPaid ← member "isPaid" (data response);
           if JS.truthy_prim isPaid then
             plan ← member "plan" (data response);
             let plan := if decide (plan = Str "semiannual") then semiannual else annual in
             lift (AuthContext.setPaidSubscription plan);;
             setStatus success;;
             setMessage "Payment confirmed! Redirecting to your dashboard...";;
             navigate_after "/" 800
           else
             setStatus failed;;
             setMessage "Payment not completed yet. If you were charged, please contact support.")
          (λ e,
           setStatus failed;;
           setMessage "Could not verify payment. Please try again.")
      else
        setStatus failed;;
        setMessage "Missing order reference."
  | None =>
      setStatus failed;;
      setMessage "Missing order reference."
  end.

End Page.
End PaymentSuccessPage.

(** ** [config/flags.ts]: feature flags and configuration

    [import.meta.env] maps the names of the variables that are set to
    their texts.  A Number that [parseInt] can return is [NaN], an integer
    that a double holds, or an infinity (the sign of zero is not kept). *)

Inductive number : Type :=
  | NaN
  | Int (z : Z)
  | Infinity (negative : bool).

Module Flags.

(** StrWhiteSpaceChar, for code units below 256. *)
Definition whitespace (c : ascii) : bool :=
  let n := N_of_ascii c in
  ((n =? 9) || (n =? 10) || (n =? 11) || (n =? 12) || (n =? 13) || (n =? 32)
   || (n =? 160))%N.

Fixpoint trim_start (s : string) : string :=
  match s with
  | EmptyString => EmptyString
  | String c r => if whitespace c then trim_start r else s
  end.

Definition digit (c : ascii) : option Z :=
  let n := N_of_ascii c in
  if ((48 <=? n) && (n <=? 57))%N then Some (Z.of_N (n - 48)) else None.

(** The value of the longest prefix of decimal digits, after [acc]. *)
Fixpoint digits (acc : Z) (s : string) : Z :=
  match s with
  | EmptyString => acc
  | String c r =>
      match digit c with
      | Some d => digits (10 * acc + d) r
      | None => acc
      end
  end.

(** The Number value of an integer [a >= 0]: the nearest double, the one
    with the even significand when two are as near, and an infinity when
    the rounding reaches 2^1024.  Up to 2^53 it is [a] itself; above, [a]
    has more than 53 bits, [e] of them are dropped and the 53 kept are
    rounded.  (An engine may round a text of more than 20 significant
    digits from its first 20.) *)
Definition nearest (a : Z) : number :=
  let e := Z.log2 a - 52 in
  if e <=? 0 then Int a
  else
    let kept := a / 2 ^ e in
    let dropped := a mod 2 ^ e in
    let half := 2 ^ (e - 1) in
    let rounded :=
      if (half <? dropped) || ((dropped =? half) && Z.odd kept) then kept + 1 else kept in
    if 2 ^ 1024 <=? rounded * 2 ^ e then Infinity false else Int (rounded * 2 ^ e).

Definition unsigned (s : string) : number :=
  match s with
  | EmptyString => NaN
  | String c _ =>
      match digit c with
      | Some _ => nearest (digits 0 s)
      | None => NaN
      end
  end.

Definition negate (n : number) : number :=
  match n with
  | NaN => NaN
  | Int z => Int (- z)
  | Infinity negative => Infinity (negb negative)
  end.

(** [parseInt(s, 10)]. *)
Definition parseInt (s : string) : number :=
  match trim_start s with
  | String "-" r => negate (unsigned r)
  | String "+" r => unsigned r
  | t => unsigned t
  end.

(** [import.meta.env.NAME === 'true']. *)
Definition enabled (env : gmap string string) (name : string) : bool :=
  bool_decide (env !! name = Some "true").

(** [import.meta.env.NAME || fallback]. *)
Definition or_else (env : gmap string string) (name fallback : string) : string :=
  match env !! name with
  | Some text => if JS.truthy_prim (Str text) then text else fallback
  | None => fallback
  end.

Record Features : Type := {
  USE_AMPLIFY_AUTH : bool;
  USE_AWS_S3 : bool;
  ENABLE_LOVABLE_FEATURES : bool;
  DEBUG_MODE : bool
}.

Definition FEATURES (env : gmap string string) : Features :=
  {| USE_AMPLIFY_AUTH := enabled env "VITE_USE_AMPLIFY_AUTH";
     USE_AWS_S3 := enabled env "VITE_USE_AWS_S3";
     ENABLE_LOVABLE_FEATURES := enabled env "VITE_ENABLE_LOVABLE_FEATURES";
     DEBUG_MODE := enabled env "VITE_DEBUG_MODE" |}.

Record Config : Type := {
  AWS_REGION : string;
  API_BASE_URL : string;
  AWS_COGNITO_USER_POOL_ID : string;
  AWS_COGNITO_CLIENT_ID : string;
  AWS_S3_BUCKET : string;
  API_TIMEOUT : number
}.

Definition CONFIG (env : gmap string string) : Config :=
  {| AWS_REGION := or_else env "VITE_AWS_REGION" "us-east-1";
     API_BASE_URL := or_else env "VITE_API_BASE_URL" "http://localhost:3000/api";
     AWS_COGNITO_USER_POOL_ID := or_else env "VITE_AWS_COGNITO_USER_POOL_ID" "";
     AWS_COGNITO_CLIENT_ID := or_else env "VITE_AWS_COGNITO_CLIENT_ID" "";
     AWS_S3_BUCKET := or_else env "VITE_AWS_S3_BUCKET" "";
     API_TIMEOUT := parseInt (or_else env "VITE_API_TIMEOUT" "30000") |}.

End Flags.

(** ** [services/lovable.ts]: the adapter of the Lovable SDK

    The SDK is the object found at [window.Lovable], if any.  The adapter
    tests whether a member of it is truthy and calls it; what a call does is
    up to the SDK: it returns or throws (for the two asynchronous members,
    the promise resolves or rejects), as a function of the calls made so far.
    The values handed through to the SDK (a configuration, event properties,
    a feedback, a profile, the insights it returns) are of a type [Data] that
    the adapter never inspects.  Reading a member of the SDK is assumed not
    to throw.  The attributes of the elements of the document are a map from
    the identity of an element; [valid_name] is the check of
    [setAttribute] on the name of an attribute. *)

Module Lovable.

Inductive Member : Type :=
  | m_configure | m_track | m_tagComponent | m_getUserInsights | m_sendFeedback
  | m_initChat | m_updateProfile.

Record LovableTag : Type := {
  tagName : string;
  attributes : option (list (string * string))
}.

Section Adapter.
Variable Data : Type.
Variable valid_name : string → bool.

Inductive Invocation : Type :=
  | Configure (config : Data)
  | Track (eventName : string) (properties : Data)
  | TagComponent (element : string) (tag : LovableTag)
  | GetUserInsights (userId : string)
  | SendFeedback (feedback : Data)
  | InitChat (containerId : option string)
  | UpdateProfile (profile : Data).

Record SDK : Type := {
  present : Member → bool;
  version : prim;
  behaviour : list Invocation → option string;
  insights : list Invocation → Data
}.

(** The two private fields of the adapter. *)
Record Fields : Type := {
  isInitialized : bool;
  lovableSDK : option SDK
}.

Record Tab : Type := {
  this : Fields;
  calls : list Invocation;
  document : gmap string (gmap string string)
}.

Definition L (A : Type) : Type := Tab → Result A * Tab.

Definition ret {A} (a : A) : L A := λ t, (Ok a, t).

Definition bind {A B} (m : L A) (f : A → L B) : L B := λ t,
  match m t with
  | (Ok a, t') => f a t'
  | (Throw e, t') => (Throw e, t')
  end.

(** [try { body } catch (error) { handler }]; the handlers of the adapter
    do not use the error. *)
Definition attempt {A} (body : L A) (handler : L A) : L A := λ t,
  match body t with
  | (Ok a, t') => (Ok a, t')
  | (Throw _, t') => handler t'
  end.

(** The result of [getUserInsights]. *)
Inductive Insights : Type :=
  | NoInsights
  | UndefinedInsights
  | SomeInsights (d : Data).

(** The constructor: [initializeLovable] with the flag
    [ENABLE_LOVABLE_FEATURES] and the value of [window.Lovable] ([None] when
    it is absent or falsy). *)
Definition initializeLovable (ENABLE_LOVABLE_FEATURES : bool) (global : option SDK)
    : Fields :=
  if negb ENABLE_LOVABLE_FEATURES then {| isInitialized := false; lovableSDK := None |}
  else
    match global with
    | Some sdk => {| isInitialized := true; lovableSDK := Some sdk |}
    | None => {| isInitialized := false; lovableSDK := None |}
    end.

Definition isAvailable : L bool := λ t,
  (Ok (isInitialized (this t) && bool_decide (is_Some (lovableSDK (this t)))), t).

(** [this.lovableSDK.member], as a condition. *)
Definition has (m : Member) : L bool := λ t,
  match lovableSDK (this t) with
  | Some sdk => (Ok (present sdk m), t)
  | None => (Throw "Cannot read properties of null", t)
  end.

(** A call of a member of the SDK. *)
Definition invoke (i : Invocation) : L unit := λ t,
  match lovableSDK (this t) with
  | Some sdk =>
      let log := calls t ++ [i] in
      let t' := {| this := this t; calls := log; document := document t |} in
      match behaviour sdk log with
      | None => (Ok tt, t')
      | Some message => (Throw message, t')
      end
  | None => (Throw "Cannot read properties of null", t)
  end.

(** [await this.lovableSDK.getUserInsights(userId)]. *)
Definition invoke_insights (userId : string) : L Data := λ t,
  match lovableSDK (this t) with
  | Some sdk =>
      let log := calls t ++ [GetUserInsights userId] in
      let t' := {| this := this t; calls := log; document := document t |} in
      match behaviour sdk log with
      | None => (Ok (insights sdk log), t')
      | Some message => (Throw message, t')
      end
  | None => (Throw "Cannot read properties of null", t)
  end.

Definition lowercase (c : ascii) : ascii :=
  let n := N_of_ascii c in
  if ((65 <=? n) && (n <=? 90))%N then ascii_of_N (n + 32) else c.

Fixpoint ascii_lowercase (s : string) : string :=
  match s with
  | EmptyString => EmptyString
  | String c r => String (lowercase c) (ascii_lowercase r)
  end.

(** [element.setAttribute(name, value)] on an HTML element. *)
Definition setAttribute (element name value : string) : L unit := λ t,
  if valid_name name then
    (Ok tt,
     {| this := this t; calls := calls t;
        document := <[element := <[ascii_lowercase name := value]>
                                   (default ∅ (document t !! element))]> (document t) |})
  else (Throw "InvalidCharacterError", t).

(** [entries.forEach(([key, value]) => element.setAttribute(...))]. *)
Fixpoint setAttributes (element : string) (entries : list (string * string)) : L unit :=
  match entries with
  | [] => ret tt
  | (key, value) :: rest =>
      bind (setAttribute element ("data-lovable-" +:+ key) value)
        (λ _, setAttributes element rest)
  end.

Definition configure (config : Data) : L unit :=
  attempt
    (bind isAvailable (λ available,
     if negb available then ret tt
     else bind (has m_configure) (λ member,
          if member then invoke (Configure config) else ret tt)))
    (ret tt).

Definition trackEvent (eventName : string) (properties : Data) : L unit :=
  attempt
    (bind isAvailable (λ available,
     if negb available then ret tt
     else bind (has m_track) (λ member,
          if member then invoke (Track eventName properties) else ret tt)))
    (ret tt).

Definition tagComponent (element : option string) (tag : LovableTag) : L unit :=
  attempt
    (bind isAvailable (λ available,
     match element with
     | Some el =>
         if negb available then ret tt
         else bind (has m_tagComponent) (λ member,
              if member then invoke (TagComponent el tag)
              else
                bind (setAttribute el "data-lovable-tag" (tagName tag)) (λ _,
                match attributes tag with
                | Some entries => setAttributes el entries
                | None => ret tt
                end))
     | None => ret tt
     end))
    (ret tt).

Definition getUserInsights (userId : string) : L Insights :=
  attempt
    (bind isAvailable (λ available,
     if negb available then ret NoInsights
     else bind (has m_getUserInsights) (λ member,
          if member then bind (invoke_insights userId) (λ d, ret (SomeInsights d))
          else ret UndefinedInsights)))
    (ret NoInsights).

Definition sendFeedback (feedback : Data) : L bool :=
  attempt
    (bind isAvailable (λ available,
     if negb available then ret false
     else bind (has m_sendFeedback) (λ member,
          if member then bind (invoke (SendFeedback feedback)) (λ _, ret true)
          else ret false)))
    (ret false).

Definition initializeChatWidget (containerId : option string) : L unit :=
  attempt
    (bind isAvailable (λ available,
     if negb available then ret tt
     else bind (has m_initChat) (λ member,
          if member then invoke (InitChat containerId) else ret tt)))
    (ret tt).

Definition updateUserProfile (profile : Data) : L unit :=
  attempt
    (bind isAvailable (λ available,
     if negb available then ret tt
     else bind (has m_updateProfile) (λ member,
          if member then invoke (UpdateProfile profile) else ret tt)))
    (ret tt).

Definition getVersion : L prim :=
  attempt
    (bind isAvailable (λ available,
     if negb available then ret Null
     else λ t,
       match lovableSDK (this t) with
       | Some sdk => (Ok (JS.or (version sdk) Null), t)
       | None => (Throw "Cannot read properties of null", t)
       end))
    (ret Null).

End Adapter.

Arguments Configure {Data} config.
Arguments Track {Data} eventName properties.
Arguments TagComponent {Data} element tag.
Arguments GetUserInsights {Data} userId.
Arguments SendFeedback {Data} feedback.
Arguments InitChat {Data} containerId.
Arguments UpdateProfile {Data} profile.
Arguments present {Data} _ _.
Arguments version {Data} _.
Arguments behaviour {Data} _ _.
Arguments insights {Data} _ _.
Arguments isInitialized {Data} _.
Arguments lovableSDK {Data} _.
Arguments this {Data} _.
Arguments calls {Data} _.
Arguments document {Data} _.
Arguments NoInsights {Data}.
Arguments UndefinedInsights {Data}.
Arguments SomeInsights {Data} d.
Arguments ret {Data A} a _.
Arguments bind {Data A B} m f _.
Arguments attempt {Data A} body handler _.
Arguments has {Data} m _.
Arguments invoke {Data} i _.
Arguments invoke_insights {Data} userId _.
Arguments initializeLovable {Data} ENABLE_LOVABLE_FEATURES global.
Arguments isAvailable {Data} _.
Arguments configure {Data} config _.
Arguments trackEvent {Data} eventName properties _.
Arguments tagComponent {Data} valid_name element tag _.
Arguments getUserInsights {Data} userId _.
Arguments sendFeedback {Data} feedback _.
Arguments initializeChatWidget {Data} containerId _.
Arguments updateUserProfile {Data} profile _.
Arguments getVersion {Data} _.
Arguments setAttribute {Data} valid_name element name value _.
Arguments setAttributes {Data} valid_name element entries _.

End Lovable.

(** ** Auxiliary definitions of the second part *)

(** The user record of the placeholder sign-up. *)
Definition signUpUser (email fullName phone : string) (now : Z) : gmap string prim :=
  {[ "id" := Str ("placeholder-user-" +:+ pretty now);
     "email" := Str email;
     "fullName" := Str fullName;
     "phone" := Str phone;
     "isOnboarded" := Bool false;
     "subscribed" := Bool false;
     "emailUnverified" := Bool true ]}.

(** The initial values of the three [useState] cells of [AuthProvider]. *)
Definition initial : AuthState :=
  {| user := VPrim Null; isLoading := true; emailUnverified := Bool false |}.

(** Loading the page: a new provider is mounted on the browser state that
    the previous page left. *)
Definition reload (s : State) : State :=
  exec AuthContext.initializeAuth {| browser := browser s; ctx := initial |}.

(** The number of accesses of a schedule that throw. *)
Fixpoint failures (fs : list (option string)) : nat :=
  match fs with
  | [] => 0
  | Some _ :: fs' => S (failures fs')
  | None :: fs' => failures fs'
  end.

(** The four fields that [updateProfile] sets. *)
Definition profile (fullName companyName panNumber phone : string)
    (o : gmap string prim) : gmap string prim :=
  <["phone" := Str phone]>
  (<["panNumber" := Str panNumber]>
  (<["companyName" := Str companyName]>
  (<["fullName" := Str fullName]> o))).

(** The properties that the context copies from a service user. *)
Definition copied : list string :=
  ["id"; "email"; "fullName"; "phone"; "isOnboarded"; "subscribed"; "subscriptionEnd";
   "emailUnverified"].

(** The operations of the context that edit the user record. *)
Definition edits_record (op : Op) : bool :=
  match op with
  | CompleteOnboarding _ _ _ | UpdateProfile _ _ _ _ | StartTrial
  | SetPaidSubscription _ => true
  | _ => false
  end.

(** The lengths, in days, that a paid subscription of a tier can have. *)
Definition days (tier : Tier) (d : Z) : Prop :=
  match tier with
  | semiannual => 181 <= d <= 184
  | annual => 365 <= d <= 366
  end.

(** The latest time value. *)
Definition maxTime : Z := 8640000000000000.

(** The page as it is first rendered. *)
Definition first_render : Page :=
  {| page_status := verifying; page_message := "Verifying your payment..."; timers := [] |}.

(** An application state from its parts. *)
Definition world (s : State) (srv : list Request → Reply) (log : list Request) (pg : Page)
    : World :=
  {| tab := s; server := srv; sent := log; page := pg |}.

(** The headers that [request] sends by default over a store [m]. *)
Definition default_headers (m : gmap string string) : gmap string string :=
  match m !! "auth_token" with
  | Some tk =>
      if decide (tk = "") then {[ "Content-Type" := "application/json" ]}
      else {[ "Authorization" := "Bearer " +:+ tk; "Content-Type" := "application/json" ]}
  | None => {[ "Content-Type" := "application/json" ]}
  end.

(** The five verbs of the service. *)
Inductive Call : Type :=
  | Get (params : option (list (string * string)))
  | Post (body : value)
  | Put (body : value)
  | Patch (body : value)
  | Delete.

Definition call (baseUrl endpoint : string) (c : Call) : W ApiResponse :=
  match c with
  | Get params => ApiService.get baseUrl endpoint params
  | Post body => ApiService.post baseUrl endpoint body
  | Put body => ApiService.put baseUrl endpoint body
  | Patch body => ApiService.patch baseUrl endpoint body
  | Delete => ApiService.delete baseUrl endpoint
  end.

(** The request that a call is expected to send over a store [m]. *)
Definition request_of (baseUrl endpoint : string) (c : Call) (m : gmap string string)
    : Request :=
  {| url := baseUrl +:+ endpoint
            +:+ match c with
                | Get (Some ps) => "?" +:+ URLSearchParams.toString ps
                | _ => ""
                end;
     method := Some match c with
                    | Get _ => "GET" | Post _ => "POST" | Put _ => "PUT"
                    | Patch _ => "PATCH" | Delete => "DELETE"
                    end;
     headers := default_headers m;
     body := match c with
             | Post v | Put v | Patch v =>
                 if JS.truthy v then Text (JSON.stringify v) else NoBody
             | _ => NoBody
             end |}.

(** What [request] makes of a reply. *)
Definition outcome_of (reply : Reply) : Outcome ApiResponse :=
  match reply with
  | Rejected message => Raise (ApiError message Undefined)
  | Responded r =>
      if ok r then
        match payload r with
        | Some v => Return {| data := v; api_success := true |}
        | None => Raise (ApiError "Unexpected token in JSON" Undefined)
        end
      else Raise (ApiError ("HTTP " +:+ pretty (status r) +:+ ": " +:+ statusText r)
                    Undefined)
  end.

(** The characters of a serialized query: the ones the serializer keeps,
    and [+], [%], [=], [&]. *)
Definition query_char (c : ascii) : bool :=
  let n := N_of_ascii c in
  (URLSearchParams.unreserved n || (n =? 43) || (n =? 37) || (n =? 61) || (n =? 38))%N.

Fixpoint all_chars (P : ascii → bool) (s : string) : bool :=
  match s with
  | EmptyString => true
  | String c r => P c && all_chars P r
  end.

(** The two requests of [uploadFileComplete] over a store [m]: the request
    for a presigned URL, and the upload to the URL [target]. *)
Definition upload_url_request (baseUrl : string) (file : File) (m : gmap string string)
    : Request :=
  request_of baseUrl "/upload-url"
    (Post (VObj {[ "fileName" := Str (file_name file);
                   "contentType" := Str (file_type file) ]})) m.

Definition upload_request (target : prim) (file : File) : Request :=
  {| url := ToString target; method := Some "PUT";
     headers := {[ "Content-Type" := file_type file ]}; body := Blob file |}.

(** A world that answers the first request with a presigned URL and every
    other request with an empty success. *)
Definition presigning_server (log : list Request) : Reply :=
  match log with
  | [_] =>
      Responded {| status := 200; statusText := "OK";
                   payload := Some (VObj {[ "uploadUrl" := Str "https://bucket/put";
                                            "fileUrl" := Str "https://bucket/report.pdf" ]}) |}
  | _ => Responded {| status := 200; statusText := "OK"; payload := None |}
  end.

Definition report : File :=
  {| file_name := "report.pdf"; file_type := "application/pdf"; file_content := "%PDF" |}.

(** The request that [verify] sends for an order. *)
Definition verify_request (baseUrl orderId : string) (m : gmap string string) : Request :=
  request_of baseUrl "/payments/verify" (Post (VObj {[ "orderId" := Str orderId ]})) m.

(** The plan of a reply that confirms a payment: a response with a status
    from 200 to 299 whose JSON body is an object with a truthy [isPaid]. *)
Definition confirmed (reply : Reply) : option prim :=
  match reply with
  | Responded r =>
      if ok r then
        match payload r with
        | Some (VObj o) =>
            if JS.truthy_prim (JS.get "isPaid" o) then Some (JS.get "plan" o) else None
        | _ => None
        end
      else None
  | Rejected _ => None
  end.

(** The tier that [verify] makes of a plan. *)
Definition tier_of (plan : prim) : Tier :=
  if decide (plan = Str "semiannual") then semiannual else annual.

(** A server that confirms every payment, with the plan [plan]. *)
Definition paying_server (plan : prim) (log : list Request) : Reply :=
  Responded {| status := 200; statusText := "OK";
               payload := Some (VObj {[ "isPaid" := Bool true; "plan" := plan ]}) |}.

(** The flags that the session manager reads. *)
Definition session_flags (env : gmap string string) : Features :=
  {| USE_AMPLIFY_AUTH := Flags.USE_AMPLIFY_AUTH (Flags.FEATURES env);
     DEBUG_MODE := Flags.DEBUG_MODE (Flags.FEATURES env) |}.

(** The Number value of an integer. *)
Definition to_number (z : Z) : number :=
  if z <? 0 then Flags.negate (Flags.nearest (- z)) else Flags.nearest z.

(** A character that can start a decimal number: white space, a sign or a
    digit. *)
Definition numeric_start (c : ascii) : bool :=
  Flags.whitespace c || bool_decide (c = "-"%char) || bool_decide (c = "+"%char)
  || bool_decide (is_Some (Flags.digit c)).

(** A tab of the browser with a new adapter. *)
Definition new_adapter {Data : Type} (ENABLE_LOVABLE_FEATURES : bool)
    (global : option (Lovable.SDK Data)) (log : list (Lovable.Invocation Data))
    (doc : gmap string (gmap string string)) : Lovable.Tab Data :=
  {| Lovable.this := Lovable.initializeLovable ENABLE_LOVABLE_FEATURES global;
     Lovable.calls := log; Lovable.document := doc |}.

(** The attribute that the fallback of [tagComponent] writes for an entry. *)
Definition tag_attribute (acc : gmap string string) (entry : string * string)
    : gmap string string :=
  <[Lovable.ascii_lowercase ("data-lovable-" +:+ entry.1) := entry.2]> acc.

Definition entries_of (tag : Lovable.LovableTag) : list (string * string) :=
  default [] (Lovable.attributes tag).

(** * Properties *)

(** ** The platform model on known values *)

Example iso_epoch : Date.iso 0 = "1970-01-01T00:00:00.000Z".
Proof. vm_compute. reflexivity. Qed.

Example iso_leap_day : Date.iso 951782400000 = "2000-02-29T00:00:00.000Z".
Proof. vm_compute. reflexivity. Qed.

Example iso_before_epoch : Date.iso (-1) = "1969-12-31T23:59:59.999Z".
Proof. vm_compute. reflexivity. Qed.

Example iso_latest : Date.iso 8640000000000000 = "+275760-09-13T00:00:00.000Z".
Proof. vm_compute. reflexivity. Qed.

Example setMonth_overflows_into_march :
  Date.iso <$> Date.setMonth 0 (Date.new 1693440000000)
                 (Date.plus (Date.getMonth 0 (Date.new 1693440000000)) 6)
  = Some "2024-03-02T00:00:00.000Z".
Proof. vm_compute. reflexivity. Qed.

Example stringify_skips_undefined :
  JSON.stringify (VObj {[ "ok" := Bool true; "n" := Undefined ]})
  = "{" +:+ q +:+ "ok" +:+ q +:+ ":true}".
Proof. vm_compute. reflexivity. Qed.

Example parse_whitespace :
  JSON.parse (" { " +:+ q +:+ "a" +:+ q +:+ " : null , " +:+ q +:+ "b" +:+ q +:+ ":false } ")
  = Some (VObj {[ "a" := Null; "b" := Bool false ]}).
Proof. vm_compute. reflexivity. Qed.

Example parse_escapes :
  JSON.parse (q +:+ "x\ny\u0041\/" +:+ q)
  = Some (VPrim (Str (String "x" (String (ascii_of_N 10) "yA/")))).
Proof. vm_compute. reflexivity. Qed.

Example parse_last_member_wins :
  JSON.parse ("{" +:+ q +:+ "a" +:+ q +:+ ":true," +:+ q +:+ "a" +:+ q +:+ ":null}")
  = Some (VObj {[ "a" := Null ]}).
Proof. vm_compute. reflexivity. Qed.

Example own_of_a_string :
  JS.own (VPrim (Str "ab")) = {[ "0" := Str "a"; "1" := Str "b" ]}.
Proof. vm_compute. reflexivity. Qed.

Example parse_rejects_garbage : JSON.parse "{oops" = None.
Proof. vm_compute. reflexivity. Qed.

(** ** JSON: parsing what [stringify] wrote *)

Lemma append_assoc (a b c : string) : (a +:+ b) +:+ c = a +:+ (b +:+ c).
Proof.
  induction a as [|x a IH]; [done|].
  change (String x ((a +:+ b) +:+ c) = String x (a +:+ b +:+ c)). by rewrite IH.
Qed.

Lemma append_nil_r (a : string) : a +:+ "" = a.
Proof.
  induction a as [|x a IH]; [done|].
  change (String x (a +:+ "") = String x a). by rewrite IH.
Qed.

Lemma lex_escape_char (c : ascii) (pre tail : string) :
  JSON.lex (Some pre) (JSON.escape_char c +:+ tail) = JSON.lex (Some (JSON.snoc pre c)) tail.
Proof.
  destruct c as [[] [] [] [] [] [] [] []]; reflexivity.
Qed.

Lemma snoc_app (pre : string) (c : ascii) (r : string) :
  JSON.snoc pre c +:+ r = pre +:+ String c r.
Proof. unfold JSON.snoc. by rewrite append_assoc. Qed.

Lemma lex_escape (s pre rest : string) :
  JSON.lex (Some pre) (JSON.escape s +:+ String JSON.dquote rest)
  = cons (JSON.TString (pre +:+ s)) <$> JSON.lex None rest.
Proof.
  revert pre. induction s as [|c r IH]; intros pre.
  - rewrite append_nil_r. reflexivity.
  - simpl JSON.escape. rewrite append_assoc, lex_escape_char, IH.
    by rewrite snoc_app.
Qed.

Lemma lex_open (x : string) :
  JSON.lex None (String JSON.dquote x) = JSON.lex (Some "") x.
Proof. reflexivity. Qed.

Lemma quote_app (k rest : string) :
  JSON.quote k +:+ rest = String JSON.dquote (JSON.escape k +:+ String JSON.dquote rest).
Proof.
  unfold JSON.quote.
  change (String JSON.dquote ((JSON.escape k +:+ String JSON.dquote "") +:+ rest) = 
          String JSON.dquote (JSON.escape k +:+ String JSON.dquote rest)).
  by rewrite append_assoc.
Qed.

Lemma lex_quote (k rest : string) :
  JSON.lex None (JSON.quote k +:+ rest) = cons (JSON.TString k) <$> JSON.lex None rest.
Proof. by rewrite quote_app, lex_open, lex_escape. Qed.

Lemma lex_prim (p : prim) (rest : string) :
  p ≠ Undefined →
  JSON.lex None (JSON.stringify_prim p +:+ rest) = cons (prim_token p) <$> JSON.lex None rest.
Proof.
  intros Hp. destruct p as [| |[]|s]; try done.
  apply lex_quote.
Qed.

Lemma parse_prim_token (p : prim) :
  p ≠ Undefined → JSON.parse_prim (prim_token p) = Some p.
Proof. by destruct p as [| |[]|s]. Qed.

Lemma lex_members (l : list (string * prim)) (first : bool) (rest : string) :
  JSON.lex None (JSON.members first l +:+ rest)
  = (member_tokens first l ++.) <$> JSON.lex None rest.
Proof.
  revert first. induction l as [|[k v] l IH]; intros first.
  - change (JSON.lex None rest = (λ x, [] ++ x) <$> JSON.lex None rest).
    destruct (JSON.lex None rest); reflexivity.
  - destruct (decide (v = Undefined)) as [->|Hv].
    + simpl. apply IH.
    + assert (JSON.members first ((k, v) :: l)
              = (if first then "" else ",") +:+ JSON.quote k +:+ ":"
                +:+ JSON.stringify_prim v +:+ JSON.members false l) as ->
        by (destruct v; [done|reflexivity..]).
      assert (member_tokens first ((k, v) :: l)
              = (if first then [] else [JSON.TComma])
                ++ JSON.TString k :: JSON.TColon :: prim_token v :: member_tokens false l) as ->
        by (by destruct v).
      rewrite !append_assoc.
      assert (∀ x, JSON.lex None ((if first then "" else ",") +:+ x)
               = ((if first then [] else [JSON.TComma]) ++.) <$> JSON.lex None x) as ->.
      { intros x. destruct first; [|reflexivity].
        change (JSON.lex None x = (λ y, [] ++ y) <$> JSON.lex None x).
        destruct (JSON.lex None x); reflexivity. }
      rewrite lex_quote.
      change (":" +:+ ?x) with (String ":" x).
      assert (∀ x, JSON.lex None (String ":" x) = cons JSON.TColon <$> JSON.lex None x) as ->
        by reflexivity.
      rewrite lex_prim, IH by done.
      destruct (JSON.lex None rest); simpl; [|done].
      f_equal. destruct first; done.
Qed.

Lemma member_tokens_filter (first : bool) (l : list (string * prim)) :
  member_tokens first l = member_tokens first (filter is_def l).
Proof.
  revert first. induction l as [|[k v] l IH]; intros first; [done|].
  destruct (decide (v = Undefined)) as [->|Hv].
  - rewrite filter_cons_False by (unfold is_def; simpl; tauto). apply IH.
  - rewrite filter_cons_True by done.
    destruct v; try done; simpl; by rewrite <- IH.
Qed.

Lemma parse_members_tokens (l : list (string * prim)) (o : gmap string prim) :
  Forall is_def l →
  JSON.parse_members o (member_tokens false l ++ [JSON.TRBrace]) = Some (foldl ins o l).
Proof.
  intros Hl. revert o. induction Hl as [|[k v] l Hv _ IH]; intros o; [done|].
  unfold is_def in Hv; simpl in Hv.
  assert (member_tokens false ((k, v) :: l)
          = JSON.TComma :: JSON.TString k :: JSON.TColon :: prim_token v
            :: member_tokens false l) as -> by (by destruct v).
  simpl. rewrite parse_prim_token by done. apply IH.
Qed.

Lemma parse_object_tokens (l : list (string * prim)) :
  Forall is_def l →
  JSON.parse_tokens (JSON.TLBrace :: member_tokens true l ++ [JSON.TRBrace])
  = Some (VObj (foldl ins ∅ l)).
Proof.
  intros Hl. destruct Hl as [|[k v] l Hv Hl]; [done|].
  unfold is_def in Hv; simpl in Hv.
  assert (member_tokens true ((k, v) :: l)
          = JSON.TString k :: JSON.TColon :: prim_token v
            :: member_tokens false l) as -> by (by destruct v).
  assert (foldl ins ∅ ((k, v) :: l) = foldl ins {[k := v]} l) as ->.
  { change (foldl ins (<[k := v]> ∅) l = foldl ins {[k := v]} l).
    by rewrite insert_empty. }
  simpl. rewrite parse_prim_token by done. by rewrite parse_members_tokens.
Qed.

Lemma foldl_ins_list_to_map (l : list (string * prim)) (acc : gmap string prim) :
  NoDup l.*1 → foldl ins acc l = list_to_map l ∪ acc.
Proof.
  revert acc. induction l as [|[k v] l IH]; intros acc Hnd.
  - simpl. by rewrite (left_id_L ∅ (∪)).
  - apply NoDup_cons in Hnd as [Hk Hnd]. simpl.
    rewrite IH by done. unfold ins; simpl.
    rewrite <- insert_union_l. symmetry. apply insert_union_r.
    by apply not_elem_of_list_to_map_1.
Qed.

Lemma lex_object (l : list (string * prim)) :
  JSON.lex None (String "{" (JSON.members true l +:+ "}"))
  = Some (JSON.TLBrace :: member_tokens true l ++ [JSON.TRBrace]).
Proof.
  change (cons JSON.TLBrace <$> JSON.lex None (JSON.members true l +:+ "}")
          = Some (JSON.TLBrace :: member_tokens true l ++ [JSON.TRBrace])).
  by rewrite lex_members.
Qed.

Theorem parse_stringify (o : gmap string prim) :
  JSON.parse (JSON.stringify (VObj o)) = Some (VObj (defined o)).
Proof.
  unfold JSON.parse, JSON.stringify. rewrite lex_object.
  change (JSON.parse_tokens
            (JSON.TLBrace :: member_tokens true (map_to_list o) ++ [JSON.TRBrace])
          = Some (VObj (defined o))).
  rewrite member_tokens_filter, parse_object_tokens.
  - do 2 f_equal. rewrite foldl_ins_list_to_map.
    + rewrite (right_id_L ∅ (∪)). unfold defined. by rewrite map_filter_alt.
    + apply NoDup_fmap_fst.
      * intros k x y Hx Hy. apply list_elem_of_filter in Hx as [_ Hx], Hy as [_ Hy].
        apply elem_of_map_to_list in Hx, Hy. congruence.
      * apply NoDup_filter, NoDup_map_to_list.
  - apply Forall_forall. intros x Hx. by apply list_elem_of_filter in Hx as [? ?].
Qed.

Lemma defined_id (o : gmap string prim) :
  (∀ k, o !! k ≠ Some Undefined) → defined o = o.
Proof.
  intros Ho. apply map_filter_id. intros k x Hk. unfold is_def. simpl.
  intros ->. by apply (Ho k).
Qed.

Lemma get_defined (k : string) (o : gmap string prim) :
  JS.get k (defined o) = JS.get k o.
Proof.
  unfold JS.get, defined. rewrite map_lookup_filter.
  destruct (o !! k) as [v|]; [|done]. simpl.
  case_guard as Hv; [done|]. simpl.
  unfold is_def in Hv. simpl in Hv.
  destruct (decide (v = Undefined)) as [->|Hne]; [done | by destruct Hv].
Qed.

Lemma field_defined (k : string) (o : gmap string prim) :
  JS.field k (VObj (defined o)) = JS.field k (VObj o).
Proof. apply get_defined. Qed.

Lemma get_insert_eq (k : string) (v : prim) (o : gmap string prim) :
  JS.get k (<[k := v]> o) = v.
Proof. unfold JS.get. by rewrite lookup_insert_eq. Qed.

Lemma get_insert_ne (k k' : string) (v : prim) (o : gmap string prim) :
  k ≠ k' → JS.get k' (<[k := v]> o) = JS.get k' o.
Proof. intros. unfold JS.get. by rewrite lookup_insert_ne. Qed.

Lemma field_insert_ne (k k' : string) (v : prim) (o : gmap string prim) :
  k ≠ k' → JS.field k' (VObj (<[k := v]> o)) = JS.field k' (VObj o).
Proof. apply get_insert_ne. Qed.

Lemma no_undefined_empty : no_undefined ∅.
Proof. intros k. by rewrite lookup_empty. Qed.

Lemma no_undefined_insert (k : string) (v : prim) (o : gmap string prim) :
  v ≠ Undefined → no_undefined o → no_undefined (<[k := v]> o).
Proof.
  intros Hv Ho k'. rewrite lookup_insert. case_decide; [congruence | apply Ho].
Qed.

Lemma no_undefined_opt (k : string) (p : option prim) (o : gmap string prim) :
  p ≠ Some Undefined → no_undefined o → no_undefined (AuthContext.opt k p o).
Proof.
  intros Hp Ho. destruct p as [v|]; [|done].
  apply no_undefined_insert; [congruence | done].
Qed.

Lemma toObj_no_undefined (u : AuthContext.User) : no_undefined (AuthContext.toObj u).
Proof.
  unfold AuthContext.toObj.
  repeat first
    [ apply no_undefined_empty
    | apply no_undefined_insert; [done|]
    | apply no_undefined_opt;
      [ match goal with |- ?f <$> ?x ≠ _ => destruct x as [[?|]|] || destruct x end; done |] ].
Qed.

Lemma fromObj_toObj (u : AuthContext.User) :
  AuthContext.fromObj (AuthContext.toObj u) = Some u.
Proof.
  destruct u as [id phone email fullName companyName panNumber isOnboarded subscribed
                 tier send phoneVerified emailUnverified].
  destruct phone, fullName, companyName, panNumber,
    tier as [[?|]|], send as [[?|]|], phoneVerified, emailUnverified;
    vm_compute; reflexivity.
Qed.

(** The own properties of a primitive never carry one of the field names. *)
Lemma pretty_N_go_head (a : ascii) (x : N) (s : string) :
  letter a → (∀ r, s ≠ String a r) → ∀ r, pretty_N_go x s ≠ String a r.
Proof.
  intros Ha. revert s. induction (N.lt_wf_0 x) as [x _ IH]; intros s Hs r.
  destruct (decide (x = 0)%N) as [->|Hx].
  - rewrite pretty_N_go_0. apply Hs.
  - rewrite pretty_N_go_step by lia. apply IH.
    + apply N.div_lt; lia.
    + intros r' [= Hc _]. by apply (Ha (x `mod` 10)%N).
Qed.

Lemma pretty_N_head (a : ascii) (n : N) (r : string) :
  letter a → pretty n ≠ String a r.
Proof.
  intros Ha. unfold pretty, pretty_N. case_decide.
  - intros [= Hc _]. by apply (Ha 0%N).
  - by apply pretty_N_go_head.
Qed.

Lemma get_own_prim (a : ascii) (r : string) (p : prim) :
  letter a → JS.get (String a r) (JS.own (VPrim p)) = Undefined.
Proof.
  intros Ha. unfold JS.get.
  destruct p as [| | |s]; simpl; rewrite ?lookup_empty; try done.
  rewrite (not_elem_of_list_to_map_1 _ (String a r)); [done|].
  intros Hin. apply list_elem_of_fmap in Hin as ([k v] & Hk & Hin). simpl in Hk.
  apply elem_of_lookup_imap in Hin as (i & c & Heq & _).
  injection Heq as -> _. by apply (pretty_N_head a (N.of_nat i) r).
Qed.

Lemma get_own (a : ascii) (r : string) (v : value) :
  letter a → JS.get (String a r) (JS.own v) = JS.field (String a r) v.
Proof.
  intros Ha. destruct v as [p|o]; [|done]. by apply get_own_prim.
Qed.

Lemma field_own (a : ascii) (r : string) (v : value) :
  letter a → JS.field (String a r) (VObj (JS.own v)) = JS.field (String a r) v.
Proof. apply get_own. Qed.

Lemma letter_s : letter "s".
Proof. intros n. unfold pretty_N_char. by repeat case_match. Qed.

Lemma field_userData_subscribed (v : value) :
  JS.field "subscribed" (VObj (AuthContext.userData v)) = JS.field "subscribed" v.
Proof. reflexivity. Qed.

Lemma field_userData_subscriptionEnd (v : value) :
  JS.field "subscriptionEnd" (VObj (AuthContext.userData v))
  = JS.field "subscriptionEnd" v.
Proof. reflexivity. Qed.

(** ** Date: the calendar arithmetic of the subscription ends *)

Lemma DayFromYear_succ (y : Z) :
  Date.DayFromYear (y + 1) = Date.DayFromYear y + Date.DaysInYear y.
Proof.
  unfold Date.DayFromYear, Date.DaysInYear, Date.leap.
  repeat match goal with |- context [?a =? ?b] => destruct (Z.eqb_spec a b) end;
    simpl; Z.div_mod_to_equations; lia.
Qed.

(** [YearFromDay] computes the year that contains the day. *)
Lemma YearFromDay_spec (d : Z) :
  Date.DayFromYear (Date.YearFromDay d) <= d < Date.DayFromYear (Date.YearFromDay d + 1).
Proof.
  unfold Date.YearFromDay.
  repeat match goal with
         | |- context [?a <? ?b] => destruct (Z.ltb_spec a b)
         | |- context [?a <=? ?b] => destruct (Z.leb_spec a b)
         end;
    unfold Date.DayFromYear in *; Z.div_mod_to_equations; lia.
Qed.

Lemma MonthFromDay_range (lp : bool) (d : Z) : 0 <= Date.MonthFromDay lp d <= 11.
Proof.
  unfold Date.MonthFromDay.
  repeat match goal with |- context [?a <? ?b] => destruct (a <? b) end; lia.
Qed.

Lemma Day_decompose (t : Z) : t = Date.Day t * Date.msPerDay + Date.TimeWithinDay t.
Proof.
  unfold Date.Day, Date.TimeWithinDay, Date.msPerDay.
  Z.div_mod_to_equations; lia.
Qed.

Lemma TimeClip_Some (x t : Z) : Date.TimeClip x = Some t → t = x.
Proof. unfold Date.TimeClip. case_match; congruence. Qed.

Lemma TimeClip_idem (x t : Z) : Date.TimeClip x = Some t → Date.TimeClip t = Some t.
Proof. intros Ht. by pose proof (TimeClip_Some _ _ Ht) as ->. Qed.

Lemma new_Some (now t : Z) : Date.new now = Some t → t = now.
Proof. apply TimeClip_Some. Qed.

Lemma new_future (now n t : Z) :
  0 < n → Date.new (now + n) = Some t → now < t ∧ Date.TimeClip t = Some t.
Proof.
  unfold Date.new. intros Hn Ht. pose proof (TimeClip_Some _ _ Ht) as ->.
  split; [lia | done].
Qed.

Lemma MakeDay_same_month (t dt : Z) :
  Date.MakeDay (Date.YearFromTime t) (Date.MonthFromTime t) dt
  = Date.Day t + (dt - Date.DateFromTime t).
Proof.
  unfold Date.MakeDay, Date.DateFromTime, Date.DayWithinYear.
  pose proof (MonthFromDay_range (Date.InLeapYear t) (Date.DayWithinYear t)) as Hm.
  fold (Date.MonthFromTime t) in Hm.
  rewrite (Z.div_small (Date.MonthFromTime t) 12), (Z.mod_small (Date.MonthFromTime t) 12) by lia.
  rewrite Z.add_0_r. unfold Date.InLeapYear. lia.
Qed.

Lemma setDate_plus (tz now n : Z) :
  Date.setDate tz (Some now) (Date.plus (Date.getDate tz (Some now)) n)
  = Date.TimeClip (now + n * Date.msPerDay).
Proof.
  unfold Date.setDate, Date.getDate, Date.plus. simpl.
  rewrite MakeDay_same_month. f_equal.
  unfold Date.UTC, Date.MakeDate, Date.LocalTime.
  pose proof (Day_decompose (now + tz)). lia.
Qed.

Lemma MakeDay_month_later (y m date : Z) :
  0 <= m <= 11 →
  Date.MakeDay y m date < Date.MakeDay y (m + 6) date.
Proof.
  intros Hm. unfold Date.MakeDay.
  assert (m = 0 ∨ m = 1 ∨ m = 2 ∨ m = 3 ∨ m = 4 ∨ m = 5 ∨ m = 6 ∨ m = 7 ∨ m = 8
          ∨ m = 9 ∨ m = 10 ∨ m = 11) as Hc by lia.
  destruct_or!; subst m;
    change (0 / 12) with 0; change (0 mod 12) with 0;
    repeat match goal with
           | |- context [(?a + 6) / 12] =>
               let v := eval vm_compute in ((a + 6) / 12) in
               change ((a + 6) / 12) with v
           | |- context [(?a + 6) mod 12] =>
               let v := eval vm_compute in ((a + 6) mod 12) in
               change ((a + 6) mod 12) with v
           | |- context [?a / 12] =>
               let v := eval vm_compute in (a / 12) in change (a / 12) with v
           | |- context [?a mod 12] =>
               let v := eval vm_compute in (a mod 12) in change (a mod 12) with v
           end;
    rewrite ?Z.add_0_r, ?DayFromYear_succ; unfold Date.DaysInYear;
    destruct (Date.leap y), (Date.leap (y + 1)); cbn; lia.
Qed.

Lemma MakeDay_year_later (y m date : Z) :
  0 <= m <= 11 →
  Date.MakeDay y m date < Date.MakeDay (y + 1) m date.
Proof.
  intros Hm. unfold Date.MakeDay.
  rewrite (Z.div_small m 12), (Z.mod_small m 12), !Z.add_0_r, DayFromYear_succ by lia.
  unfold Date.DaysInYear, Date.MonthStart.
  destruct (Date.leap y), (Date.leap (y + 1));
    repeat match goal with
           | |- context [?a <=? ?b] => destruct (Z.leb_spec a b)
           | |- context [?a =? ?b] => destruct (Z.eqb_spec a b)
           end; lia.
Qed.

Lemma later_day_later_time (tz now day t' : Z) :
  Date.Day (Date.LocalTime tz now) < day →
  Date.TimeClip (Date.UTC tz (Date.MakeDate day
    (Date.TimeWithinDay (Date.LocalTime tz now)))) = Some t' →
  now < t'.
Proof.
  intros Hd Ht. apply TimeClip_Some in Ht. subst t'.
  unfold Date.UTC, Date.MakeDate.
  pose proof (Day_decompose (Date.LocalTime tz now)) as Hdec.
  unfold Date.LocalTime in *. unfold Date.msPerDay in *. nia.
Qed.

Lemma setMonth_future (tz now t' : Z) :
  Date.setMonth tz (Some now) (Date.plus (Date.getMonth tz (Some now)) 6) = Some t' →
  now < t'.
Proof.
  unfold Date.setMonth, Date.getMonth, Date.plus. simpl.
  apply later_day_later_time.
  set (lt := Date.LocalTime tz now).
  pose proof (MakeDay_same_month lt (Date.DateFromTime lt)) as Heq.
  rewrite Z.sub_diag, Z.add_0_r in Heq. rewrite <- Heq.
  apply MakeDay_month_later, MonthFromDay_range.
Qed.

Lemma setFullYear_future (tz now t' : Z) :
  Date.setFullYear tz (Some now) (Date.plus (Date.getFullYear tz (Some now)) 1) = Some t' →
  now < t'.
Proof.
  unfold Date.setFullYear, Date.getFullYear, Date.plus. simpl.
  apply later_day_later_time.
  set (lt := Date.LocalTime tz now).
  pose proof (MakeDay_same_month lt (Date.DateFromTime lt)) as Heq.
  rewrite Z.sub_diag, Z.add_0_r in Heq. rewrite <- Heq.
  apply MakeDay_year_later, MonthFromDay_range.
Qed.

Lemma setDate_clip (tz now dt t : Z) :
  Date.setDate tz (Some now) (Some dt) = Some t → Date.TimeClip t = Some t.
Proof. unfold Date.setDate. cbn [mbind option_bind]. apply TimeClip_idem. Qed.

Lemma setMonth_clip (tz now m t : Z) :
  Date.setMonth tz (Some now) (Some m) = Some t → Date.TimeClip t = Some t.
Proof. unfold Date.setMonth. cbn [mbind option_bind]. apply TimeClip_idem. Qed.

Lemma setFullYear_clip (tz now y t : Z) :
  Date.setFullYear tz (Some now) (Some y) = Some t → Date.TimeClip t = Some t.
Proof. unfold Date.setFullYear. cbn [mbind option_bind]. apply TimeClip_idem. Qed.

Lemma trialEnd_future (tz now t : Z) :
  Date.setDate tz (Date.new now) (Date.plus (Date.getDate tz (Date.new now)) 7) = Some t →
  now < t ∧ Date.TimeClip t = Some t.
Proof.
  destruct (Date.new now) as [t0|] eqn:Hnow; [|done].
  apply new_Some in Hnow as ->. intros Ht. split.
  - rewrite setDate_plus in Ht. apply TimeClip_Some in Ht.
    unfold Date.msPerDay in Ht. lia.
  - revert Ht. unfold Date.plus, Date.getDate.
    cbn [mbind option_bind fmap option_fmap option_map]. apply setDate_clip.
Qed.

Lemma semiannual_future (tz now t : Z) :
  Date.setMonth tz (Date.new now) (Date.plus (Date.getMonth tz (Date.new now)) 6) = Some t →
  now < t ∧ Date.TimeClip t = Some t.
Proof.
  destruct (Date.new now) as [t0|] eqn:Hnow; [|done].
  apply new_Some in Hnow as ->. intros Ht. split.
  - by apply (setMonth_future tz).
  - revert Ht. unfold Date.plus, Date.getMonth.
    cbn [mbind option_bind fmap option_fmap option_map]. apply setMonth_clip.
Qed.

Lemma annual_future (tz now t : Z) :
  Date.setFullYear tz (Date.new now)
    (Date.plus (Date.getFullYear tz (Date.new now)) 1) = Some t →
  now < t ∧ Date.TimeClip t = Some t.
Proof.
  destruct (Date.new now) as [t0|] eqn:Hnow; [|done].
  apply new_Some in Hnow as ->. intros Ht. split.
  - by apply (setFullYear_future tz).
  - revert Ht. unfold Date.plus, Date.getFullYear.
    cbn [mbind option_bind fmap option_fmap option_map]. apply setFullYear_clip.
Qed.

(** ** Running the operations *)

Ltac refold_working :=
  repeat match goal with
  | |- context [ {| browser := {| localStorage := ?m; faults := []; clock := ?n;
                                  LocalTZA := ?t |}; ctx := ?c |} ] =>
      change {| browser := {| localStorage := m; faults := []; clock := n;
                              LocalTZA := t |}; ctx := c |}
        with (working m n t c)
  end.

(** Unfold the monad and the state accessors, one step of evaluation. *)
Ltac mstep :=
  repeat (progress (
    unfold mbind, M_bind, mret, M_ret, throw, try_catch, try_finally, access, getItem,
      setItem, removeItem, set_localStorage, Date_now, tzOffset, getUser, setUser,
      setIsLoading, setEmailUnverified, set_ctx, toISOString, exec;
    cbn [browser ctx localStorage faults clock LocalTZA user isLoading
         emailUnverified fst snd negb working]));
  refold_working.

Lemma stored_user_absent (m : gmap string string) :
  m !! AuthService.USER = None → stored_user m = VPrim Null.
Proof. unfold stored_user. by intros ->. Qed.

Lemma stored_user_write (m : gmap string string) (o : gmap string prim) :
  stored_user (<[AuthService.USER := JSON.stringify (VObj o)]> m) = VObj (defined o).
Proof.
  unfold stored_user. rewrite lookup_insert_eq, parse_stringify. reflexivity.
Qed.

Lemma stored_user_other (m : gmap string string) (k v : string) :
  k ≠ AuthService.USER → stored_user (<[k := v]> m) = stored_user m.
Proof. intros. unfold stored_user. by rewrite lookup_insert_ne. Qed.

Lemma stored_user_delete (m : gmap string string) :
  stored_user (delete AuthService.USER m) = VPrim Null.
Proof. unfold stored_user. by rewrite lookup_delete_eq. Qed.

Lemma stored_user_delete_other (m : gmap string string) (k : string) :
  k ≠ AuthService.USER → stored_user (delete k m) = stored_user m.
Proof. intros. unfold stored_user. by rewrite lookup_delete_ne. Qed.

Lemma getCurrentUser_working m now tz c :
  AuthService.getCurrentUser (working m now tz c)
  = (Ok (stored_user m), working m now tz c).
Proof.
  unfold AuthService.getCurrentUser, stored_user. mstep.
  destruct (m !! AuthService.USER) as [text|]; mstep; [|done].
  destruct (JS.truthy_prim (Str text)); mstep; [|done].
  destruct (JSON.parse text); mstep; done.
Qed.

(** [getCurrentUser] under the two other heads of the fault schedule. *)
Lemma getCurrentUser_ok (m : gmap string string) (fs : list (option string))
    (now tz : Z) (c : AuthState) :
  AuthService.getCurrentUser
    {| browser := {| localStorage := m; faults := None :: fs; clock := now;
                     LocalTZA := tz |}; ctx := c |}
  = (Ok (stored_user m),
     {| browser := {| localStorage := m; faults := fs; clock := now;
                      LocalTZA := tz |}; ctx := c |}).
Proof.
  unfold AuthService.getCurrentUser, stored_user. mstep.
  destruct (m !! AuthService.USER) as [text|]; mstep; [|done].
  destruct (JS.truthy_prim (Str text)); mstep; [|done].
  destruct (JSON.parse text); mstep; done.
Qed.

Lemma getCurrentUser_fault (m : gmap string string) (msg : string)
    (fs : list (option string)) (now tz : Z) (c : AuthState) :
  AuthService.getCurrentUser
    {| browser := {| localStorage := m; faults := Some msg :: fs; clock := now;
                     LocalTZA := tz |}; ctx := c |}
  = (Ok (VPrim Null),
     {| browser := {| localStorage := m; faults := fs; clock := now;
                      LocalTZA := tz |}; ctx := c |}).
Proof. reflexivity. Qed.

Lemma isLoggedIn_working m now tz c :
  AuthService.isLoggedIn (working m now tz c)
  = (Ok (JS.truthy (stored_user m) &&
         match m !! AuthService.TOKEN with
         | Some tk => JS.truthy_prim (Str tk)
         | None => false
         end), working m now tz c).
Proof.
  unfold AuthService.isLoggedIn. mstep. rewrite getCurrentUser_working.
  unfold AuthService.getAccessToken. mstep. reflexivity.
Qed.

Lemma logout_working m now tz c :
  AuthService.logout (working m now tz c)
  = (Ok tt, working (delete AuthService.REFRESH_TOKEN (delete AuthService.TOKEN
                      (delete AuthService.USER m))) now tz c).
Proof. reflexivity. Qed.

Lemma context_logout_working (m : gmap string string) (now tz : Z) (c : AuthState) :
  AuthContext.logout (working m now tz c)
  = (Ok tt, working (delete AuthService.REFRESH_TOKEN (delete AuthService.TOKEN
                       (delete AuthService.USER m))) now tz
              {| user := VPrim Null; isLoading := false; emailUnverified := Bool false |}).
Proof. reflexivity. Qed.

(** A removal that throws in the first pass is made up for by the retry. *)
Lemma logout_retry_recovers (pre : list (option string)) (msg : string)
    (m : gmap string string) (now tz : Z) (c : AuthState) :
  pre = [] ∨ pre = [None] ∨ pre = [None; None] →
  AuthService.logout
    {| browser := {| localStorage := m; faults := pre ++ [Some msg]; clock := now;
                     LocalTZA := tz |}; ctx := c |}
  = (Ok tt, working (delete AuthService.REFRESH_TOKEN (delete AuthService.TOKEN
                       (delete AuthService.USER m))) now tz c).
Proof.
  intros [->|[->| ->]]; unfold AuthService.logout; cbn [app]; mstep;
    unfold working; do 3 f_equal;
    apply map_eq; intros k; rewrite !lookup_delete; repeat case_decide; done.
Qed.

Lemma completeOnboarding_working (fullName mobileNo vehicleNumber : string)
    (m : gmap string string) (now tz : Z) (u : value) (l : bool) (e : prim) :
  JS.truthy u = true →
  AuthContext.completeOnboarding fullName mobileNo vehicleNumber
    (working m now tz {| user := u; isLoading := l; emailUnverified := e |})
  = (Ok true,
     working (<["auth_user" := JSON.stringify
                  (VObj (onboard fullName mobileNo (JS.own (stored_user m))))]> m)
       now tz {| user := VObj (onboard fullName mobileNo (JS.own u));
                 isLoading := l; emailUnverified := e |}).
Proof.
  intros Hu. unfold AuthContext.completeOnboarding. mstep. rewrite Hu. mstep.
  rewrite getCurrentUser_working. mstep. reflexivity.
Qed.

Lemma login_working (debug : bool) (email password : string)
    (m : gmap string string) (now tz : Z) (c : AuthState) :
  Date.TimeClip (now + thirtyDays) = Some (now + thirtyDays) →
  AuthService.login (flags false debug) email password (working m now tz c)
  = (Ok {| r_user := loginUser email (Date.iso (now + thirtyDays));
           r_accessToken := "placeholder-token-" +:+ pretty now;
           r_refreshToken := "placeholder-refresh-" +:+ pretty now |},
     working
       (<[AuthService.REFRESH_TOKEN := "placeholder-refresh-" +:+ pretty now]>
        (<[AuthService.TOKEN := "placeholder-token-" +:+ pretty now]>
        (<[AuthService.USER :=
             JSON.stringify (VObj (loginUser email (Date.iso (now + thirtyDays))))]> m)))
       now tz c).
Proof.
  intros Hclip. unfold AuthService.login, flags. cbn [USE_AMPLIFY_AUTH]. mstep.
  change (30 * 24 * 60 * 60 * 1000) with thirtyDays.
  unfold Date.new. rewrite Hclip. mstep. reflexivity.
Qed.

(** What a login that returns has done. *)
Lemma login_Ok (F : Features) (email password : string) (s s1 : State) (r : AuthResponse) :
  AuthService.login F email password s = (Ok r, s1) →
  let now := clock (browser s) in
  USE_AMPLIFY_AUTH F = false
  ∧ Date.TimeClip (now + thirtyDays) = Some (now + thirtyDays)
  ∧ r_user r = loginUser email (Date.iso (now + thirtyDays))
  ∧ localStorage (browser s1)
    = <[AuthService.REFRESH_TOKEN := "placeholder-refresh-" +:+ pretty now]>
      (<[AuthService.TOKEN := "placeholder-token-" +:+ pretty now]>
      (<[AuthService.USER := JSON.stringify (VObj (r_user r))]>
         (localStorage (browser s))))
  ∧ clock (browser s1) = now
  ∧ LocalTZA (browser s1) = LocalTZA (browser s)
  ∧ ctx s1 = ctx s.
Proof.
  destruct s as [[m fs now tz] c]. unfold AuthService.login. mstep.
  destruct (USE_AMPLIFY_AUTH F); mstep; [done|].
  change (30 * 24 * 60 * 60 * 1000) with thirtyDays.
  unfold Date.new. destruct (Date.TimeClip (now + thirtyDays)) as [t|] eqn:Ht; mstep; [|done].
  pose proof (TimeClip_Some _ _ Ht) as ->.
  destruct fs as [|[?|] [|[?|] [|[?|] fs]]]; mstep; intros [= <- <-]; done.
Qed.

Ltac unfold_ops :=
  unfold run, AuthContext.initializeAuth, AuthContext.login, AuthContext.signup,
    AuthContext.logout, AuthContext.completeOnboarding, AuthContext.updateProfile,
    AuthContext.startTrial, AuthContext.setPaidSubscription,
    AuthContext.resendVerificationEmail, AuthService.login, AuthService.signUp,
    AuthService.logout, AuthService.isLoggedIn, AuthService.getAccessToken,
    AuthService.refreshToken, AuthService.resetPassword, AuthService.verifyEmail.

(** Case analysis on every branch of an operation: flags, truthiness
    tests, parse results and the head of the fault schedule at each access. *)
Ltac split_all :=
  repeat (mstep;
          first
            [ progress rewrite ?getCurrentUser_working, ?getCurrentUser_ok,
                ?getCurrentUser_fault
            | match goal with
              | |- context [AuthService.getCurrentUser
                              {| browser := {| localStorage := _; faults := ?fs;
                                               clock := _; LocalTZA := _ |};
                                 ctx := _ |}] =>
                  is_var fs; destruct fs as [|[?|] ?]
              | |- context [match ?fs with [] => _ | _ :: _ => _ end] =>
                  is_var fs; destruct fs as [|[?|] ?]
              | |- context [if ?b then _ else _] => destruct b eqn:?
              | |- context [match ?x with Some _ => _ | None => _ end] =>
                  destruct x eqn:?
              | |- context [match ?x with VPrim _ => _ | VObj _ => _ end] =>
                  destruct x eqn:?
              end ]);
  mstep.

(** ** C1: logout of the session context *)

(** C1 (as amended).  The session context's logout never throws and always
    ends with [isLoading] false.  When the session manager's logout returns
    normally, the in-memory [user] is cleared to [null] and [emailUnverified]
    to [false]; when it throws, [user] and [emailUnverified] are left as they
    were. *)
Theorem logout_clears_when_delegate_returns (s : State) :
  ∃ s', AuthContext.logout s = (Ok tt, s')
    ∧ isLoading (ctx s') = false
    ∧ match (AuthService.logout (exec (setIsLoading true) s)).1 with
      | Ok _ =>
          user (ctx s') = VPrim Null ∧ emailUnverified (ctx s') = Bool false
      | Throw _ =>
          user (ctx s') = user (ctx s)
          ∧ emailUnverified (ctx s') = emailUnverified (ctx s)
      end.
Proof.
  destruct s as [[m fs now tz] [u l e]].
  unfold AuthContext.logout, AuthService.logout.
  split_all; eexists; (split; [reflexivity|]); split; done.
Qed.

(** C1, counterexample to the claim as stated: with a user loaded and a
    storage whose removals throw in the first pass and in the retry, the
    session manager's logout throws, the context's logout returns, and the
    user is still loaded (and [emailUnverified] still set). *)
Lemma logout_keeps_user_when_delegate_throws :
  (AuthService.logout (exec (setIsLoading true) stale_session)).1 = Throw "SecurityError"
  ∧ (AuthContext.logout stale_session).1 = Ok tt
  ∧ user (ctx (exec AuthContext.logout stale_session)) = VObj {[ "id" := Str "u1" ]}
  ∧ user (ctx (exec AuthContext.logout stale_session)) ≠ VPrim Null
  ∧ emailUnverified (ctx (exec AuthContext.logout stale_session)) ≠ Bool false.
Proof. repeat split; try reflexivity; discriminate. Qed.

(** ** C2: which store keys an operation writes *)



Lemma wrote_one (m : gmap string string) (k v : string) :
  wrote false [k] m (<[k := v]> m).
Proof.
  split; intros k' Hk.
  - apply list_elem_of_singleton in Hk as ->. rewrite lookup_insert_eq. eauto.
  - rewrite not_elem_of_cons in Hk. destruct Hk as [? _].
    by rewrite lookup_insert_ne.
Qed.



(** ** C3: onboarding state after signup and login *)

Lemma signup_isOnboarded (F : Features) (email password fullName phone vehicleNumber : string)
    (s s' : State) :
  AuthContext.signup F email password fullName phone vehicleNumber s = (Ok None, s') →
  JS.field "isOnboarded" (user (ctx s')) = Bool false.
Proof.
  destruct s as [[m fs now tz] [u l e]]. unfold_ops.
  split_all; intros [= <-]; reflexivity.
Qed.

Lemma login_isOnboarded (F : Features) (email password : string) (s s' : State) :
  AuthContext.login F email password s = (Ok None, s') →
  JS.field "isOnboarded" (user (ctx s')) = Bool true.
Proof.
  destruct s as [[m fs now tz] [u l e]]. unfold_ops.
  split_all; intros [= <-]; reflexivity.
Qed.

Lemma not_onboarded_preserved (F : Features) (op : Op) (s : State) :
  keeps_onboarding op = true →
  JS.field "isOnboarded" (user (ctx s)) = Bool false →
  user (ctx (run F op s)) = VPrim Null
  ∨ JS.field "isOnboarded" (user (ctx (run F op s))) = Bool false.
Proof.
  destruct s as [[m fs now tz] [u l e]]. intros Hop Hu.
  cbn [ctx user] in Hu. destruct u as [p|o]; [done|]. cbn [JS.field] in Hu.
  destruct op; try discriminate Hop; unfold_ops; split_all;
    first [ by left
          | right; exact Hu
          | right; reflexivity
          | right; cbn [JS.field JS.own]; unfold AuthContext.subscribe;
            by rewrite !get_insert_ne ].
Qed.

(** C3 (as amended).  Every successful signup leaves a user whose
    [isOnboarded] is false; every successful login leaves a user whose
    [isOnboarded] is true (the placeholder login synthesises an onboarded
    user); and from a state whose user has [isOnboarded] false, every
    operation other than login and completeOnboarding (and the mount-time
    initialisation) ends with no user or with [isOnboarded] still false. *)
Theorem onboarding_after_signup_and_login (F : Features)
    (email password fullName phone vehicleNumber : string) (s : State) :
  (∀ s', AuthContext.signup F email password fullName phone vehicleNumber s = (Ok None, s') →
         JS.field "isOnboarded" (user (ctx s')) = Bool false)
  ∧ (∀ s', AuthContext.login F email password s = (Ok None, s') →
           JS.field "isOnboarded" (user (ctx s')) = Bool true)
  ∧ (∀ op, keeps_onboarding op = true →
           JS.field "isOnboarded" (user (ctx s)) = Bool false →
           user (ctx (run F op s)) = VPrim Null
           ∨ JS.field "isOnboarded" (user (ctx (run F op s))) = Bool false).
Proof.
  split; [|split].
  - apply signup_isOnboarded.
  - apply login_isOnboarded.
  - intros op. apply not_onboarded_preserved.
Qed.

(** The first part at a concrete signup. *)
Lemma onboarding_after_signup_and_login_witness :
  JS.field "isOnboarded"
    (user (ctx (exec (AuthContext.signup (flags false false) "a@b.c" "pw" "A" "555" "X")
                  (working ∅ 0 0 anonymous)))) = Bool false.
Proof.
  apply (proj1 (onboarding_after_signup_and_login (flags false false)
                  "a@b.c" "pw" "A" "555" "X" (working ∅ 0 0 anonymous))).
  vm_compute. reflexivity.
Defined.

(** C3, counterexample to the claim as stated: a successful login from the
    anonymous state yields a user whose [isOnboarded] is true, not false. *)
Lemma login_yields_onboarded_user :
  (AuthContext.login (flags false false) "a@b.c" "pw" (working ∅ 0 0 anonymous)).1 = Ok None
  ∧ JS.field "isOnboarded"
      (user (ctx (exec (AuthContext.login (flags false false) "a@b.c" "pw")
                    (working ∅ 0 0 anonymous)))) = Bool true
  ∧ JS.field "isOnboarded"
      (user (ctx (exec (AuthContext.login (flags false false) "a@b.c" "pw")
                    (working ∅ 0 0 anonymous)))) ≠ Bool false.
Proof.
  split; [vm_compute; reflexivity|].
  assert (JS.field "isOnboarded"
      (user (ctx (exec (AuthContext.login (flags false false) "a@b.c" "pw")
                    (working ∅ 0 0 anonymous)))) = Bool true) as -> by (vm_compute; reflexivity).
  split; [reflexivity | discriminate].
Qed.

(** ** C4: the subscription invariant *)

Section EndSetInFuture.
Variable s : State.

Lemma carried_from_memory : end_set_in_future s (user (ctx s)).
Proof. intros Hs. right. exists (user (ctx s)). auto. Qed.

Lemma carried_from_store : end_set_in_future s (stored_user (localStorage (browser s))).
Proof. intros Hs. right. eexists. eauto. Qed.

Lemma not_subscribed (v : value) :
  JS.field "subscribed" v ≠ Bool true → end_set_in_future s v.
Proof. intros Hv Hs. done. Qed.

Lemma freshly_set (v : value) (t : Z) :
  clock (browser s) < t ∧ Date.TimeClip t = Some t →
  JS.field "subscriptionEnd" v = Str (Date.iso t) →
  end_set_in_future s v.
Proof. intros [Ht Hc] He Hs. left. eauto. Qed.

Lemma same_subscription (v v' : value) :
  JS.field "subscribed" v' = JS.field "subscribed" v →
  JS.field "subscriptionEnd" v' = JS.field "subscriptionEnd" v →
  end_set_in_future s v → end_set_in_future s v'.
Proof.
  intros Hsub Hend Hv. unfold end_set_in_future. rewrite Hsub, Hend. exact Hv.
Qed.
End EndSetInFuture.

Ltac future_time :=
  lazymatch goal with
  | |- _ < ?z ∧ _ =>
      match goal with
      | H : Date.new (_ + _) = Some z |- _ => eapply new_future; [|exact H]; done
      | H : Date.setDate _ _ _ = Some z |- _ => exact (trialEnd_future _ _ _ H)
      | H : Date.setMonth _ _ _ = Some z |- _ => exact (semiannual_future _ _ _ H)
      | H : Date.setFullYear _ _ _ = Some z |- _ => exact (annual_future _ _ _ H)
      end
  end.

(** Decide [end_set_in_future] by the shape of the record. *)
Ltac decide_end :=
  lazymatch goal with
  | |- end_set_in_future ?s ?v =>
      lazymatch v with
      | stored_user _ => exact (carried_from_store s)
      | VPrim _ => apply not_subscribed; intros Hsub; discriminate Hsub
      | VObj (defined ?x) =>
          apply (same_subscription s (VObj x)); [apply field_defined | apply field_defined | decide_end]
      | VObj (AuthContext.userData ?w) =>
          apply (same_subscription s w);
            [ apply field_userData_subscribed
            | apply field_userData_subscriptionEnd | decide_end ]
      | VObj (JS.own ?w) =>
          apply (same_subscription s w);
            [apply field_own, letter_s | apply field_own, letter_s | decide_end]
      | VObj (<["subscribed" := Bool false]> _) =>
          apply not_subscribed; cbn [JS.field]; rewrite get_insert_eq;
          intros Hsub; discriminate Hsub
      | VObj (<["subscribed" := Bool true]> (<["subscriptionEnd" := Str (Date.iso _)]> _)) =>
          eapply freshly_set; cycle 1;
            [ cbn [JS.field]; rewrite get_insert_ne by done; apply get_insert_eq
            | future_time ]
      | VObj (<["subscriptionEnd" := Str (Date.iso _)]> _) =>
          eapply freshly_set; cycle 1; [apply get_insert_eq | future_time]
      | VObj (<[_ := _]> ?o) =>
          apply (same_subscription s (VObj o));
            [by apply field_insert_ne | by apply field_insert_ne | decide_end]
      | VObj ?o =>
          match goal with
          | H : stored_user _ = VObj o |- _ => rewrite <- H; exact (carried_from_store s)
          | _ => exact (carried_from_memory s)
          end
      | _ => exact (carried_from_memory s)
      end
  end.

Ltac simplify_stored_user :=
  unfold AuthContext.subscribe;
  change "auth_user" with AuthService.USER;
  repeat first
    [ rewrite stored_user_write
    | rewrite stored_user_other by done
    | rewrite stored_user_delete
    | rewrite stored_user_delete_other by done ].

Lemma end_set_in_future_user (F : Features) (op : Op) (s : State) :
  end_set_in_future s (user (ctx (run F op s))).
Proof.
  destruct s as [[m fs now tz] [u l e]].
  destruct op; unfold_ops; split_all; cbn [r_user]; try done; simplify_stored_user; decide_end.
Qed.

Lemma end_set_in_future_stored (F : Features) (op : Op) (s : State) :
  end_set_in_future s (stored_user (localStorage (browser (run F op s)))).
Proof.
  destruct s as [[m fs now tz] [u l e]].
  destruct op; unfold_ops; split_all; cbn [r_user]; try done; simplify_stored_user.
  all: decide_end.
Qed.

(** C4.  Every operation of the session context and of the session manager,
    under every schedule of storage faults, preserves the invariant that a
    user record (in memory or persisted) with [subscribed] true has a
    [subscriptionEnd] that is the ISO rendering of a valid time; and the end
    of every subscribed record after the operation was either set by it, to a
    time later than the clock reading at which it ran, or carried over from a
    subscribed record of the state before. *)
Theorem subscription_invariant_preserved (F : Features) (op : Op) (s : State) :
  Inv s →
  Inv (run F op s)
  ∧ end_set_in_future s (user (ctx (run F op s)))
  ∧ end_set_in_future s (stored_user (localStorage (browser (run F op s)))).
Proof.
  intros [Hu Hm].
  pose proof (end_set_in_future_user F op s) as Eu.
  pose proof (end_set_in_future_stored F op s) as Em.
  assert (∀ v, end_set_in_future s v → subscription_ok v) as Hok.
  { intros v Ev Hsub. destruct (Ev Hsub) as [(t & _ & Ht & He)|(v0 & Hv0 & Hs0 & He)].
    - exists (Date.iso t). split; [done|]. by exists t.
    - rewrite He. destruct Hv0 as [->| ->]; auto. }
  split; [|done]. split; by apply Hok.
Qed.

(** The theorem at a subscribed user who starts a trial. *)
Lemma subscription_invariant_preserved_witness :
  Inv subscribed_session
  ∧ Inv (run (flags false false) StartTrial subscribed_session)
  ∧ end_set_in_future subscribed_session
      (user (ctx (run (flags false false) StartTrial subscribed_session))).
Proof.
  assert (Inv subscribed_session) as HI.
  { split.
    - intros _. exists "1970-01-01T00:00:00.000Z". split; [reflexivity|].
      exists 0. split; vm_compute; reflexivity.
    - intros H. vm_compute in H. discriminate H. }
  split; [exact HI|].
  destruct (subscription_invariant_preserved (flags false false) StartTrial
              subscribed_session HI) as (H1 & H2 & _).
  split; assumption.
Defined.

(** ** C5: login, then isLoggedIn *)

(** C5.  With the real-authentication flag disabled, after a login that
    returned, and with the reads that follow not throwing, [isLoggedIn]
    returns true and [getCurrentUser] returns a record whose [email] is the
    supplied email. *)
Theorem login_then_isLoggedIn (debug : bool) (email password : string)
    (s s1 : State) (r : AuthResponse) :
  AuthService.login (flags false debug) email password s = (Ok r, s1) →
  faults (browser s1) = [] →
  AuthService.isLoggedIn s1 = (Ok true, s1)
  ∧ ∃ o, AuthService.getCurrentUser s1 = (Ok (VObj o), s1)
         ∧ JS.get "email" o = Str email.
Proof.
  intros Hlogin Hfs. apply login_Ok in Hlogin as (_ & _ & Hr & Hm & _).
  destruct s1 as [[m1 fs1 now1 tz1] c1].
  cbn [browser localStorage faults] in Hm, Hfs. subst fs1.
  change {| browser := {| localStorage := m1; faults := []; clock := now1;
                          LocalTZA := tz1 |}; ctx := c1 |}
    with (working m1 now1 tz1 c1).
  rewrite isLoggedIn_working, getCurrentUser_working.
  assert (stored_user m1 = VObj (defined (r_user r))) as ->.
  { rewrite Hm, !stored_user_other, stored_user_write by done. done. }
  split.
  - rewrite Hm, lookup_insert_ne, lookup_insert_eq by done. reflexivity.
  - eexists. split; [reflexivity|].
    rewrite get_defined, Hr. reflexivity.
Qed.

(** The theorem at a login on an empty, working store. *)
Lemma login_then_isLoggedIn_witness :
  ∃ r s1,
    AuthService.login (flags false false) "a@b.c" "pw" (working ∅ 0 0 anonymous) = (Ok r, s1)
    ∧ faults (browser s1) = []
    ∧ AuthService.isLoggedIn s1 = (Ok true, s1).
Proof.
  eexists _, _. split; [by apply login_working|]. split; [reflexivity|].
  apply (login_then_isLoggedIn false "a@b.c" "pw" (working ∅ 0 0 anonymous) _ _
           (login_working false "a@b.c" "pw" ∅ 0 0 anonymous eq_refl) eq_refl).
Defined.

(** ** C6: logout of the session manager *)

(** Reading the session in a state whose store holds no user record. *)
Lemma getCurrentUser_no_record (s : State) :
  localStorage (browser s) !! AuthService.USER = None →
  (AuthService.getCurrentUser s).1 = Ok (VPrim Null).
Proof.
  destruct s as [[m fs now tz] c]. cbn [browser localStorage]. intros Hm.
  destruct fs as [|[msg|] fs].
  - change {| browser := {| localStorage := m; faults := []; clock := now;
                            LocalTZA := tz |}; ctx := c |} with (working m now tz c).
    by rewrite getCurrentUser_working, stored_user_absent.
  - by rewrite getCurrentUser_fault.
  - by rewrite getCurrentUser_ok, stored_user_absent.
Qed.

Lemma isLoggedIn_no_record (s : State) :
  localStorage (browser s) !! AuthService.USER = None →
  (AuthService.isLoggedIn s).1 ≠ Ok true.
Proof.
  destruct s as [[m fs now tz] c]. cbn [browser localStorage]. intros Hm.
  pose proof (stored_user_absent m Hm) as Hs.
  unfold AuthService.isLoggedIn, AuthService.getAccessToken.
  split_all; rewrite ?Hs; cbn [JS.truthy andb fst]; done.
Qed.

(** A logout changes nothing in a store that holds none of the three keys,
    whichever of its removals throw. *)
Lemma logout_no_session (s : State) :
  (∀ k, k ∈ session_keys → localStorage (browser s) !! k = None) →
  localStorage (browser (exec AuthService.logout s)) = localStorage (browser s)
  ∧ ctx (exec AuthService.logout s) = ctx s.
Proof.
  destruct s as [[m fs now tz] c]. cbn [browser localStorage ctx]. intros Hm.
  assert (m !! AuthService.USER = None ∧ m !! AuthService.TOKEN = None
          ∧ m !! AuthService.REFRESH_TOKEN = None) as (Hu & Ht & Hr).
  { unfold session_keys in Hm. repeat split; apply Hm; set_solver. }
  unfold AuthService.logout.
  split_all; unfold working; cbn [browser localStorage ctx]; (split; [|reflexivity]).
  all: apply map_eq; intros k; rewrite ?lookup_delete; repeat case_decide; subst; done.
Qed.

(** What a logout that returns has done. *)
Lemma logout_Ok (s s' : State) (r : unit) :
  AuthService.logout s = (Ok r, s') →
  (∀ k, k ∈ session_keys → localStorage (browser s') !! k = None) ∧ ctx s' = ctx s.
Proof.
  destruct s as [[m fs now tz] c]. unfold AuthService.logout.
  split_all; intros [= _ <-]; unfold working; cbn [browser localStorage ctx];
    (split; [|reflexivity]); intros k Hk; unfold session_keys in Hk;
    rewrite !elem_of_cons, elem_of_nil in Hk;
    destruct Hk as [->|[->|[->|[]]]]; rewrite !lookup_delete; repeat case_decide; done.
Qed.

(** The case in which the first pass throws at its removal [i] and the
    retry at its removal [j] (counted from 0). *)
Ltac retry_case i j :=
  exists i, j; eexists; (split; [lia|]); (split; [lia|]);
  (split; [cbn [replicate app]; reflexivity|]); (split; [reflexivity|]);
  intros k; cbn [Nat.max take session_keys]; rewrite ?lookup_delete;
  repeat case_decide; try done;
  repeat match goal with
         | H : _ ∈ [] |- _ => by apply elem_of_nil in H
         | H : _ ∈ _ :: _ |- _ => apply elem_of_cons in H as [?|H]
         | H : _ ∉ _ :: _ |- _ => apply not_elem_of_cons in H as [? H]
         end; congruence.

(** C6 (as amended).  Whatever the store holds, a session or none: on a
    store whose accesses succeed, logout returns normally, afterwards
    [isLoggedIn] is false and [getCurrentUser] is [null], and logging out
    twice ends in the same state as logging out once.  Under any schedule of
    storage faults, a logout that returns normally has ended the session
    ([getCurrentUser] returns [null], [isLoggedIn] does not return true, and
    a second logout leaves the store and the state of the context alone);
    and logout throws only when a removal throws in its first pass (after
    [i] removals) and a removal throws again in the retry of the catch block
    (after [j] removals): it then throws the second error, the state of the
    context is untouched, and the store has lost only the keys removed
    before the two errors. *)
Theorem logout_ends_session_unless_retry_throws (s : State)
    (m : gmap string string) (now tz : Z) (c : AuthState) :
  (∃ s', AuthService.logout (working m now tz c) = (Ok tt, s')
         ∧ AuthService.isLoggedIn s' = (Ok false, s')
         ∧ AuthService.getCurrentUser s' = (Ok (VPrim Null), s')
         ∧ (AuthService.logout;; AuthService.logout) (working m now tz c) = (Ok tt, s'))
  ∧ match AuthService.logout s with
    | (Ok _, s') =>
        ctx s' = ctx s
        ∧ (AuthService.getCurrentUser s').1 = Ok (VPrim Null)
        ∧ (AuthService.isLoggedIn s').1 ≠ Ok true
        ∧ localStorage (browser (exec AuthService.logout s')) = localStorage (browser s')
        ∧ ctx (exec AuthService.logout s') = ctx s
    | (Throw msg, s') =>
        ∃ (i j : nat) (msg1 : string),
          (i < 3)%nat ∧ (j < 3)%nat
          ∧ faults (browser s)
            = replicate i None ++ Some msg1 :: replicate j None
              ++ Some msg :: faults (browser s')
          ∧ ctx s' = ctx s
          ∧ ∀ k, localStorage (browser s') !! k
                 = if decide (k ∈ take (i `max` j) session_keys) then None
                   else localStorage (browser s) !! k
    end.
Proof.
  split.
  { eexists. split; [apply logout_working|].
    assert (delete AuthService.REFRESH_TOKEN (delete AuthService.TOKEN
              (delete AuthService.USER m)) !! AuthService.USER = None) as Hu.
    { rewrite lookup_delete_ne, lookup_delete_ne, lookup_delete_eq; done. }
    split; [|split].
    - rewrite isLoggedIn_working, stored_user_absent; done.
    - rewrite getCurrentUser_working, stored_user_absent; done.
    - mstep. rewrite !logout_working. do 2 f_equal.
      apply map_eq. intros k. rewrite !lookup_delete. repeat case_decide; done. }
  destruct (AuthService.logout s) as [[r|msg] s'] eqn:Hrun.
  - destruct (logout_Ok _ _ _ Hrun) as [Hkeys Hctx].
    assert (localStorage (browser s') !! AuthService.USER = None) as Hu
      by (apply Hkeys; unfold session_keys; set_solver).
    destruct (logout_no_session s' Hkeys) as [Hst Hc].
    split; [exact Hctx|]. split; [by apply getCurrentUser_no_record|].
    split; [by apply isLoggedIn_no_record|]. split; [exact Hst|]. by rewrite Hc.
  - revert Hrun. destruct s as [[m0 fs now0 tz0] c0]. unfold AuthService.logout.
    split_all; intros [= <- <-]; cbn [browser localStorage faults ctx].
    all: first [ retry_case 0%nat 0%nat | retry_case 0%nat 1%nat | retry_case 0%nat 2%nat
               | retry_case 1%nat 0%nat | retry_case 1%nat 1%nat | retry_case 1%nat 2%nat
               | retry_case 2%nat 0%nat | retry_case 2%nat 1%nat | retry_case 2%nat 2%nat ].
Qed.

(** C6, counterexample to the claim as stated: on a tab whose storage
    throws at the first removal and again at the first removal of the retry,
    logout surfaces the storage error and the session is still there:
    [isLoggedIn] returns true and [getCurrentUser] the stored record. *)
Lemma logout_throws_and_session_stays :
  (AuthService.logout stale_session).1 = Throw "SecurityError"
  ∧ (AuthService.logout;; AuthService.isLoggedIn) stale_session
    = (Throw "SecurityError", exec AuthService.logout stale_session)
  ∧ (AuthService.isLoggedIn (exec AuthService.logout stale_session)).1 = Ok true
  ∧ (AuthService.getCurrentUser (exec AuthService.logout stale_session)).1 = Ok (VObj ∅).
Proof. repeat split; vm_compute; reflexivity. Qed.

(** ** C7: round trip of a user record *)

(** Writing any object under the user key and reading it back returns an
    object with the same value for every property name (a property whose
    value is [undefined] comes back absent). *)
Lemma object_round_trip (o : gmap string prim) (m : gmap string string)
    (now tz : Z) (c : AuthState) :
  ∃ s',
    setItem AuthService.USER (JSON.stringify (VObj o)) (working m now tz c) = (Ok tt, s')
    ∧ AuthService.getCurrentUser s' = (Ok (VObj (defined o)), s')
    ∧ ∀ k, JS.get k (defined o) = JS.get k o.
Proof.
  eexists. split; [reflexivity|]. split; [|intros k; apply get_defined].
  mstep. by rewrite getCurrentUser_working, stored_user_write.
Qed.

(** C7.  For every [User] record, with any combination of absent optional
    fields, writing its JSON text under the user key and reading it back
    with [getCurrentUser] returns the object of that record, whose fields
    read back as the record itself. *)
Theorem user_record_round_trip (u : AuthContext.User) (m : gmap string string)
    (now tz : Z) (c : AuthState) :
  ∃ s',
    setItem AuthService.USER (JSON.stringify (VObj (AuthContext.toObj u)))
      (working m now tz c) = (Ok tt, s')
    ∧ AuthService.getCurrentUser s' = (Ok (VObj (AuthContext.toObj u)), s')
    ∧ AuthContext.fromObj (AuthContext.toObj u) = Some u.
Proof.
  eexists. split; [reflexivity|]. split; [|apply fromObj_toObj].
  mstep. rewrite getCurrentUser_working, stored_user_write, defined_id; [done|].
  apply toObj_no_undefined.
Qed.

(** ** C8: completeOnboarding *)

(** C8.  With a user loaded (and a store whose accesses succeed),
    completeOnboarding returns true and the in-memory user has [isOnboarded]
    true, [fullName] the supplied full name and [phone] the supplied mobile
    number; with no user loaded it returns false and leaves the whole state
    unchanged. *)
Theorem completeOnboarding_result (fullName mobileNo vehicleNumber : string)
    (o : gmap string prim) (m : gmap string string) (now tz : Z)
    (l : bool) (e : prim) (b : Browser) :
  (∃ s' o',
     AuthContext.completeOnboarding fullName mobileNo vehicleNumber
       (working m now tz {| user := VObj o; isLoading := l; emailUnverified := e |})
     = (Ok true, s')
     ∧ user (ctx s') = VObj o'
     ∧ JS.get "isOnboarded" o' = Bool true
     ∧ JS.get "fullName" o' = Str fullName
     ∧ JS.get "phone" o' = Str mobileNo)
  ∧ (let s := {| browser := b;
                 ctx := {| user := VPrim Null; isLoading := l; emailUnverified := e |} |} in
     AuthContext.completeOnboarding fullName mobileNo vehicleNumber s = (Ok false, s)).
Proof.
  split.
  - eexists _, _. split; [by apply completeOnboarding_working|].
    split; [reflexivity|]. unfold onboard.
    split; [apply get_insert_eq|].
    split.
    + rewrite !get_insert_ne by done. apply get_insert_eq.
    + rewrite get_insert_ne by done. apply get_insert_eq.
  - reflexivity.
Qed.

(** ** C9: refreshToken *)

(** C9.  With the real-authentication flag disabled (and a store whose
    accesses succeed), refreshToken writes the newly synthesised token under
    the access-token key and leaves the user-record and refresh-token keys as
    they were; with the flag enabled it throws and leaves the state
    unchanged. *)
Theorem refreshToken_effect (debug : bool) (m : gmap string string) (now tz : Z)
    (c : AuthState) (s : State) :
  let newToken := "placeholder-token-refreshed-" +:+ pretty now in
  AuthService.refreshToken (flags false debug) (working m now tz c)
    = (Ok newToken, working (<[AuthService.TOKEN := newToken]> m) now tz c)
  ∧ <[AuthService.TOKEN := newToken]> m !! AuthService.TOKEN = Some newToken
  ∧ <[AuthService.TOKEN := newToken]> m !! AuthService.USER = m !! AuthService.USER
  ∧ <[AuthService.TOKEN := newToken]> m !! AuthService.REFRESH_TOKEN
      = m !! AuthService.REFRESH_TOKEN
  ∧ AuthService.refreshToken (flags true debug) s
    = (Throw "Token refresh failed: AWS Cognito token refresh not yet implemented", s).
Proof.
  intros newToken. split; [reflexivity|].
  split; [apply lookup_insert_eq|].
  split; [by apply lookup_insert_ne|].
  split; [by apply lookup_insert_ne|].
  reflexivity.
Qed.

(** ** C10: completeOnboarding without a persisted record *)

(** C10.  With a user loaded and no user record in the store,
    completeOnboarding returns true and stores a record with exactly the
    fields [fullName], [phone] and [isOnboarded], without [id] or [email];
    a read of the store returns that record. *)
Theorem completeOnboarding_without_persisted_record
    (fullName mobileNo vehicleNumber : string) (o : gmap string prim)
    (m : gmap string string) (now tz : Z) (l : bool) (e : prim) :
  m !! "auth_user" = None →
  let record : gmap string prim :=
    {[ "fullName" := Str fullName; "phone" := Str mobileNo; "isOnboarded" := Bool true ]} in
  ∃ s',
    AuthContext.completeOnboarding fullName mobileNo vehicleNumber
      (working m now tz {| user := VObj o; isLoading := l; emailUnverified := e |})
    = (Ok true, s')
    ∧ localStorage (browser s') = <["auth_user" := JSON.stringify (VObj record)]> m
    ∧ AuthService.getCurrentUser s' = (Ok (VObj record), s')
    ∧ dom record = {[ "fullName"; "phone"; "isOnboarded" ]}
    ∧ record !! "id" = None ∧ record !! "email" = None.
Proof.
  intros Hm record.
  assert (onboard fullName mobileNo (JS.own (stored_user m)) = record) as Hrec.
  { rewrite stored_user_absent by done. unfold onboard, record, JS.own.
    apply map_eq. intros k.
    rewrite !lookup_insert, lookup_singleton, lookup_empty.
    repeat case_decide; simplify_eq; done. }
  eexists. split; [by apply completeOnboarding_working|]. rewrite Hrec.
  split; [reflexivity|].
  split.
  { rewrite getCurrentUser_working.
    change "auth_user" with AuthService.USER. rewrite stored_user_write.
    rewrite defined_id; [done|].
    intros k. unfold record. rewrite !lookup_insert, lookup_singleton.
    repeat case_decide; done. }
  split; [|done].
  unfold record. rewrite !dom_insert_L, dom_singleton_L. set_solver.
Qed.

(** The theorem at a loaded user and an empty store. *)
Lemma completeOnboarding_without_persisted_record_witness :
  (∅ : gmap string string) !! "auth_user" = None
  ∧ ∃ s',
      AuthContext.completeOnboarding "A" "555" "X"
        (working ∅ 0 0 {| user := VObj {[ "id" := Str "u1"; "email" := Str "a@b.c" ]};
                          isLoading := false; emailUnverified := Bool false |})
      = (Ok true, s')
      ∧ AuthService.getCurrentUser s'
        = (Ok (VObj {[ "fullName" := Str "A"; "phone" := Str "555";
                        "isOnboarded" := Bool true ]}), s').
Proof.
  split; [apply lookup_empty|].
  destruct (completeOnboarding_without_persisted_record "A" "555" "X"
              {[ "id" := Str "u1"; "email" := Str "a@b.c" ]} ∅ 0 0 false (Bool false)
              (lookup_empty _)) as (s' & H1 & _ & H3 & _).
  exists s'. split; assumption.
Defined.

(** * Further properties of the session manager and the session context *)

(** ** Reading the session *)

(** X1.  getCurrentUser never throws and changes neither the store nor the
    state of the context, whatever the store holds and whether or not the
    access to it throws: it uses one storage access and returns a value.  The
    value is [null] when the user key is absent and when the read throws; when
    the read succeeds and the stored text is JSON of the kind modelled here (a
    string, a boolean, [null], or an object of such values), it is the parsed
    text. *)
Theorem getCurrentUser_never_throws (s : State) :
  ∃ v, AuthService.getCurrentUser s
       = (Ok v, set_localStorage (localStorage (browser s)) (tail (faults (browser s))) s)
     ∧ (localStorage (browser s) !! AuthService.USER = None → v = VPrim Null)
     ∧ (∀ msg, head (faults (browser s)) = Some (Some msg) → v = VPrim Null)
     ∧ (∀ text w, localStorage (browser s) !! AuthService.USER = Some text →
                  JSON.parse text = Some w →
                  head (faults (browser s)) = None ∨ head (faults (browser s)) = Some None →
                  v = w).
Proof.
  assert (∀ m text w, m !! AuthService.USER = Some text → JSON.parse text = Some w →
                      stored_user m = w) as Hparsed.
  { intros m text w Hm Hw. unfold stored_user. rewrite Hm. cbn [JS.truthy_prim].
    destruct (decide (text = "")) as [->|Ht]; [discriminate Hw|].
    by rewrite Hw. }
  destruct s as [[m fs now tz] c].
  destruct fs as [|[msg|] fs]; cbn [browser localStorage faults tail head].
  - change {| browser := {| localStorage := m; faults := []; clock := now;
                            LocalTZA := tz |}; ctx := c |} with (working m now tz c).
    rewrite getCurrentUser_working. eexists. split; [reflexivity|].
    split; [apply stored_user_absent|]. split; [done|]. eauto.
  - rewrite getCurrentUser_fault. eexists. split; [reflexivity|].
    split; [done|]. split; [done|]. by intros text w _ _ [?|?].
  - rewrite getCurrentUser_ok. eexists. split; [reflexivity|].
    split; [apply stored_user_absent|]. split; [done|]. eauto.
Qed.

(** X2.  On a store whose accesses succeed isLoggedIn changes nothing, and
    it returns true only if the store holds a non-empty text under the user
    key and a non-empty token.  A read of the user record that throws counts
    as logged out; the read of the token is not protected: when it throws,
    isLoggedIn throws the storage error, and so do getAccessToken and the
    initialisation that the constructor of the service runs. *)
Theorem isLoggedIn_needs_record_and_token (m : gmap string string) (now tz : Z)
    (c : AuthState) (msg : string) (fs : list (option string)) :
  (∃ b, AuthService.isLoggedIn (working m now tz c) = (Ok b, working m now tz c)
        ∧ (b = true →
           ∃ text tk, m !! AuthService.USER = Some text ∧ text ≠ ""
                      ∧ m !! AuthService.TOKEN = Some tk ∧ tk ≠ ""))
  ∧ (AuthService.isLoggedIn
       {| browser := {| localStorage := m; faults := Some msg :: None :: fs; clock := now;
                        LocalTZA := tz |}; ctx := c |}).1 = Ok false
  ∧ (AuthService.isLoggedIn
       {| browser := {| localStorage := m; faults := None :: Some msg :: fs; clock := now;
                        LocalTZA := tz |}; ctx := c |}).1 = Throw msg
  ∧ (AuthService.getAccessToken
       {| browser := {| localStorage := m; faults := Some msg :: fs; clock := now;
                        LocalTZA := tz |}; ctx := c |}).1 = Throw msg
  ∧ (AuthService.initializeAuth
       {| browser := {| localStorage := m; faults := Some msg :: fs; clock := now;
                        LocalTZA := tz |}; ctx := c |}).1 = Throw msg.
Proof.
  split; [|split; [|split; [|split; [reflexivity|reflexivity]]]].
  - rewrite isLoggedIn_working. eexists. split; [reflexivity|].
    intros [Hu Ht]%andb_true_iff. unfold stored_user in Hu.
    destruct (m !! AuthService.USER) as [text|]; [|done].
    destruct (m !! AuthService.TOKEN) as [tk|]; [|done].
    exists text, tk. repeat split.
    + intros ->. done.
    + intros ->. done.
  - unfold AuthService.isLoggedIn. mstep. rewrite getCurrentUser_fault.
    unfold AuthService.getAccessToken. mstep. reflexivity.
  - unfold AuthService.isLoggedIn. mstep. rewrite getCurrentUser_ok.
    unfold AuthService.getAccessToken. mstep. reflexivity.
Qed.

(** ** Starting and ending a session *)

Lemma signUpUser_no_undefined email fullName phone now :
  no_undefined (signUpUser email fullName phone now).
Proof.
  intros k. unfold signUpUser. rewrite !lookup_insert, lookup_singleton.
  repeat case_decide; done.
Qed.

Lemma signUp_working (debug : bool) (email password : string) (fullName phone : option string)
    (m : gmap string string) (now tz : Z) (c : AuthState) :
  AuthService.signUp (flags false debug) email password fullName phone (working m now tz c)
  = (Ok {| r_user := signUpUser email (default "" fullName) (default "" phone) now;
           r_accessToken := "placeholder-token-" +:+ pretty now;
           r_refreshToken := "placeholder-refresh-" +:+ pretty now |},
     working
       (<[AuthService.REFRESH_TOKEN := "placeholder-refresh-" +:+ pretty now]>
        (<[AuthService.TOKEN := "placeholder-token-" +:+ pretty now]>
        (<[AuthService.USER :=
             JSON.stringify (VObj (signUpUser email (default "" fullName)
                                     (default "" phone) now))]> m)))
       now tz c).
Proof. reflexivity. Qed.

(** X3.  With the real-authentication flag disabled (and a store whose
    accesses succeed), signUp returns the placeholder user: the given email,
    the given full name and phone or the empty string where one is absent,
    [isOnboarded] and [subscribed] false, [emailUnverified] true, no
    [subscriptionEnd].  Afterwards getCurrentUser returns that record,
    getAccessToken the returned token, and isLoggedIn true. *)
Theorem signUp_starts_session (debug : bool) (email password : string)
    (fullName phone : option string) (m : gmap string string) (now tz : Z) (c : AuthState) :
  let u := signUpUser email (default "" fullName) (default "" phone) now in
  ∃ r s',
    AuthService.signUp (flags false debug) email password fullName phone (working m now tz c)
    = (Ok r, s')
    ∧ r_user r = u
    ∧ AuthService.getCurrentUser s' = (Ok (VObj u), s')
    ∧ AuthService.isLoggedIn s' = (Ok true, s')
    ∧ AuthService.getAccessToken s' = (Ok (Some (r_accessToken r)), s')
    ∧ u !! "subscriptionEnd" = None.
Proof.
  intros u. eexists _, _. split; [apply signUp_working|]. split; [reflexivity|].
  fold u. cbn [r_accessToken].
  assert (stored_user
            (<[AuthService.REFRESH_TOKEN := "placeholder-refresh-" +:+ pretty now]>
             (<[AuthService.TOKEN := "placeholder-token-" +:+ pretty now]>
             (<[AuthService.USER := JSON.stringify (VObj u)]> m))) = VObj u) as Hu.
  { rewrite !stored_user_other, stored_user_write by done.
    rewrite defined_id; [done|]. apply signUpUser_no_undefined. }
  split; [by rewrite getCurrentUser_working, Hu|].
  split.
  { rewrite isLoggedIn_working, Hu.
    rewrite lookup_insert_ne, lookup_insert_eq by done. reflexivity. }
  split.
  { unfold AuthService.getAccessToken. mstep.
    rewrite lookup_insert_ne, lookup_insert_eq by done. reflexivity. }
  reflexivity.
Qed.

(** X4.  With the real-authentication flag enabled, login and signup of the
    context return the error text of the session manager and leave the state
    as it was, apart from [isLoading], which ends false; resetPassword and
    verifyEmail throw and leave the state unchanged.  This holds under every
    schedule of storage faults: no access to the store is made. *)
Theorem amplify_flag_blocks_placeholder_session (debug : bool) (email password : string)
    (fullName phone vehicleNumber token : string) (s : State) :
  let F := flags true debug in
  let idle := set_ctx {| user := user (ctx s); isLoading := false;
                         emailUnverified := emailUnverified (ctx s) |} s in
  AuthContext.login F email password s
    = (Ok (Some "Login failed: AWS Cognito authentication not yet implemented"), idle)
  ∧ AuthContext.signup F email password fullName phone vehicleNumber s
    = (Ok (Some "Sign up failed: AWS Cognito registration not yet implemented"), idle)
  ∧ AuthService.resetPassword F email s
    = (Throw "Password reset failed: AWS Cognito password reset not yet implemented", s)
  ∧ AuthService.verifyEmail F token s
    = (Throw "Email verification failed: AWS Cognito email verification not yet implemented", s).
Proof. destruct s as [[m fs now tz] [u l e]]. repeat split. Qed.

(** X5.  login writes its three keys one after the other and does not undo
    a write.  When a write throws [msg], login throws [Login failed: msg],
    the state of the context is untouched, and the store holds the writes
    made before the failing one: none of them, the user record alone, or the
    user record and the access token. *)
Theorem login_is_not_atomic (debug : bool) (email password msg : string)
    (m : gmap string string) (fs : list (option string)) (now tz : Z) (c : AuthState) :
  Date.TimeClip (now + thirtyDays) = Some (now + thirtyDays) →
  let attempt (schedule : list (option string)) :=
    AuthService.login (flags false debug) email password
      {| browser := {| localStorage := m; faults := schedule; clock := now;
                       LocalTZA := tz |}; ctx := c |} in
  let record := JSON.stringify (VObj (loginUser email (Date.iso (now + thirtyDays)))) in
  let failed (r : Result AuthResponse * State) (m' : gmap string string) :=
    r.1 = Throw ("Login failed: " +:+ msg) ∧ localStorage (browser r.2) = m'
    ∧ ctx r.2 = c in
  failed (attempt (Some msg :: fs)) m
  ∧ failed (attempt (None :: Some msg :: fs)) (<[AuthService.USER := record]> m)
  ∧ failed (attempt (None :: None :: Some msg :: fs))
      (<[AuthService.TOKEN := "placeholder-token-" +:+ pretty now]>
       (<[AuthService.USER := record]> m)).
Proof.
  intros Hclip attempt record failed. unfold failed, attempt, record.
  unfold AuthService.login, flags. cbn [USE_AMPLIFY_AUTH]. mstep.
  change (30 * 24 * 60 * 60 * 1000) with thirtyDays.
  unfold Date.new. rewrite Hclip. mstep. done.
Qed.

(** The theorem at a login on an empty store whose second write exceeds the quota. *)
Lemma login_is_not_atomic_witness :
  (AuthService.login (flags false false) "a@b.c" "pw"
     {| browser := {| localStorage := ∅; faults := [None; Some "QuotaExceededError"];
                      clock := 0; LocalTZA := 0 |}; ctx := anonymous |}).1
  = Throw "Login failed: QuotaExceededError"
  ∧ localStorage (browser
      (AuthService.login (flags false false) "a@b.c" "pw"
         {| browser := {| localStorage := ∅; faults := [None; Some "QuotaExceededError"];
                          clock := 0; LocalTZA := 0 |}; ctx := anonymous |}).2)
    = <[AuthService.USER :=
          JSON.stringify (VObj (loginUser "a@b.c" (Date.iso (0 + thirtyDays))))]> ∅.
Proof.
  destruct (login_is_not_atomic false "a@b.c" "pw" "QuotaExceededError" ∅ [] 0 0 anonymous
              eq_refl) as (_ & (H1 & H2 & _) & _).
  split; assumption.
Defined.

Ltac solve_cleared :=
  split; intros k Hk; unfold session_keys in Hk;
  [ rewrite !elem_of_cons, elem_of_nil in Hk;
    destruct Hk as [->|[->|[->|[]]]]; rewrite !lookup_delete;
    repeat case_decide; eauto; done
  | rewrite !not_elem_of_cons in Hk; destruct Hk as (? & ? & ? & _);
    by rewrite !lookup_delete_ne ].

(** X6.  Under every schedule of storage faults: whenever logout of the
    session manager returns normally, the three session keys are absent from
    the store, every other key is as before and the state of the context is
    untouched; and logout does return normally whenever at most one storage
    access throws. *)
Theorem logout_clears_or_throws (s : State) :
  (∀ s', AuthService.logout s = (Ok tt, s') →
         wrote true session_keys (localStorage (browser s)) (localStorage (browser s'))
         ∧ ctx s' = ctx s)
  ∧ ((failures (faults (browser s)) ≤ 1)%nat →
     ∃ s', AuthService.logout s = (Ok tt, s')).
Proof.
  destruct s as [[m fs now tz] c]. cbn [browser localStorage faults ctx]. split.
  - intros s'. unfold AuthService.logout.
    split_all; intros [= <-]; unfold working; cbn [browser localStorage ctx];
      (split; [solve_cleared | reflexivity]).
  - intros Hfs. unfold AuthService.logout.
    split_all; try (eexists; reflexivity);
      exfalso; cbn [failures] in Hfs; lia.
Qed.

Lemma verifyEmail_working (debug : bool) (token : string) (m : gmap string string)
    (now tz : Z) (c : AuthState) (o : gmap string prim) :
  stored_user m = VObj o →
  AuthService.verifyEmail (flags false debug) token (working m now tz c)
  = (Ok tt, working (<[AuthService.USER :=
                         JSON.stringify (VObj (<["emailUnverified" := Bool false]> o))]> m)
              now tz c).
Proof.
  intros Ho. unfold AuthService.verifyEmail, flags. cbn [USE_AMPLIFY_AUTH]. mstep.
  rewrite getCurrentUser_working, Ho. mstep. reflexivity.
Qed.

(** X7.  With the real-authentication flag disabled (and a store whose
    accesses succeed): when the store holds an object under the user key,
    verifyEmail rewrites that key alone; the record read back has
    [emailUnverified] false and every other property as before; the state of
    the context (its user, its own [emailUnverified]) is not touched.  When
    the user key is absent verifyEmail changes nothing. *)
Theorem verifyEmail_updates_the_store_only (debug : bool) (token : string)
    (m : gmap string string) (now tz : Z) (c : AuthState) (o : gmap string prim) :
  (stored_user m = VObj o →
   ∃ m' r,
     AuthService.verifyEmail (flags false debug) token (working m now tz c)
       = (Ok tt, working m' now tz c)
     ∧ wrote false [AuthService.USER] m m'
     ∧ AuthService.getCurrentUser (working m' now tz c) = (Ok (VObj r), working m' now tz c)
     ∧ JS.get "emailUnverified" r = Bool false
     ∧ ∀ k, k ≠ "emailUnverified" → JS.get k r = JS.get k o)
  ∧ (m !! AuthService.USER = None →
     AuthService.verifyEmail (flags false debug) token (working m now tz c)
       = (Ok tt, working m now tz c)).
Proof.
  split.
  - intros Ho. eexists _, _. split; [by apply verifyEmail_working|].
    split; [apply wrote_one|].
    split; [by rewrite getCurrentUser_working, stored_user_write|].
    split.
    + rewrite get_defined. apply get_insert_eq.
    + intros k Hk. rewrite get_defined. by apply get_insert_ne.
  - intros Hm. unfold AuthService.verifyEmail, flags. cbn [USE_AMPLIFY_AUTH]. mstep.
    rewrite getCurrentUser_working, stored_user_absent by done. reflexivity.
Qed.

(** The theorem at a store that holds an unverified record. *)
Lemma verifyEmail_updates_the_store_only_witness :
  ∃ m',
    AuthService.verifyEmail (flags false false) "tk"
      (working {[ "auth_user" := JSON.stringify (VObj {[ "emailUnverified" := Bool true ]}) ]}
         0 0 anonymous)
    = (Ok tt, working m' 0 0 anonymous)
    ∧ JS.field "emailUnverified" (stored_user m') = Bool false.
Proof.
  destruct (proj1 (verifyEmail_updates_the_store_only false "tk"
              {[ "auth_user" := JSON.stringify (VObj {[ "emailUnverified" := Bool true ]}) ]}
              0 0 anonymous {[ "emailUnverified" := Bool true ]}))
    as (m' & r & H1 & _ & H3 & H4 & _).
  { vm_compute. reflexivity. }
  exists m'. split; [exact H1|].
  rewrite getCurrentUser_working in H3. injection H3 as ->. exact H4.
Defined.

(** X8.  refreshToken does not look for a session: after a logout it still
    stores and returns a new token, and yet isLoggedIn stays false and
    getCurrentUser returns [null]. *)
Theorem refreshToken_creates_no_session (debug : bool) (m : gmap string string)
    (now tz : Z) (c : AuthState) :
  let newToken := "placeholder-token-refreshed-" +:+ pretty now in
  ∃ s',
    (AuthService.logout;; AuthService.refreshToken (flags false debug))
      (working m now tz c) = (Ok newToken, s')
    ∧ AuthService.getAccessToken s' = (Ok (Some newToken), s')
    ∧ AuthService.isLoggedIn s' = (Ok false, s')
    ∧ AuthService.getCurrentUser s' = (Ok (VPrim Null), s').
Proof.
  intros newToken.
  exists (working (<[AuthService.TOKEN := newToken]>
            (delete AuthService.REFRESH_TOKEN (delete AuthService.TOKEN
               (delete AuthService.USER m)))) now tz c).
  split.
  { mstep. rewrite logout_working. reflexivity. }
  assert (<[AuthService.TOKEN := newToken]>
            (delete AuthService.REFRESH_TOKEN (delete AuthService.TOKEN
               (delete AuthService.USER m))) !! AuthService.USER = None) as Hu.
  { rewrite lookup_insert_ne, lookup_delete_ne, lookup_delete_ne, lookup_delete_eq; done. }
  split; [|split].
  - unfold AuthService.getAccessToken. mstep. by rewrite lookup_insert_eq.
  - rewrite isLoggedIn_working, stored_user_absent; done.
  - rewrite getCurrentUser_working, stored_user_absent; done.
Qed.

(** ** Reloading the page *)

Lemma initializeAuth_working (m : gmap string string) (now tz : Z) (c : AuthState) :
  AuthContext.initializeAuth (working m now tz c)
  = (Ok tt, working m now tz
       (if JS.truthy (stored_user m)
        then {| user := VObj (AuthContext.userData (stored_user m)); isLoading := false;
                emailUnverified :=
                  JS.or (JS.field "emailUnverified" (stored_user m)) (Bool false) |}
        else {| user := user c; isLoading := false;
                emailUnverified := emailUnverified c |})).
Proof.
  unfold AuthContext.initializeAuth. mstep. rewrite getCurrentUser_working. mstep.
  destruct (JS.truthy (stored_user m)); mstep; reflexivity.
Qed.

Lemma userData_defined (o : gmap string prim) :
  AuthContext.userData (VObj (defined o)) = AuthContext.userData (VObj o).
Proof. unfold AuthContext.userData. by rewrite !field_defined. Qed.

Lemma get_userData (k : string) (v : value) :
  JS.get k (AuthContext.userData v) = if decide (k ∈ copied) then JS.field k v else Undefined.
Proof.
  unfold AuthContext.userData, JS.get.
  rewrite !lookup_insert, lookup_singleton.
  destruct (decide (k ∈ copied)) as [Hk|Hk]; unfold copied in Hk.
  - rewrite !elem_of_cons, elem_of_nil in Hk.
    destruct_or!; try done; subst k; repeat case_decide; done.
  - rewrite !not_elem_of_cons in Hk. destruct_and!.
    repeat case_decide; simplify_eq; done.
Qed.

Lemma reload_working (m : gmap string string) (now tz : Z) (c : AuthState)
    (o : gmap string prim) :
  stored_user m = VObj o →
  reload (working m now tz c)
  = working m now tz
      {| user := VObj (AuthContext.userData (VObj o)); isLoading := false;
         emailUnverified := JS.or (JS.get "emailUnverified" o) (Bool false) |}.
Proof.
  intros Ho. unfold reload. cbn [browser working].
  change {| browser := {| localStorage := m; faults := []; clock := now;
                          LocalTZA := tz |}; ctx := initial |}
    with (working m now tz initial).
  unfold exec. rewrite initializeAuth_working, Ho. reflexivity.
Qed.

Lemma context_login_working (debug : bool) (email password : string)
    (m : gmap string string) (now tz : Z) (c : AuthState) :
  Date.TimeClip (now + thirtyDays) = Some (now + thirtyDays) →
  let u := loginUser email (Date.iso (now + thirtyDays)) in
  AuthContext.login (flags false debug) email password (working m now tz c)
  = (Ok None,
     working
       (<[AuthService.REFRESH_TOKEN := "placeholder-refresh-" +:+ pretty now]>
        (<[AuthService.TOKEN := "placeholder-token-" +:+ pretty now]>
        (<[AuthService.USER := JSON.stringify (VObj u)]> m)))
       now tz
       {| user := VObj (AuthContext.userData (VObj u)); isLoading := false;
          emailUnverified := Bool false |}).
Proof.
  intros Hclip u. unfold AuthContext.login. mstep.
  change {| browser := {| localStorage := m; faults := []; clock := now; LocalTZA := tz |};
            ctx := {| user := user c; isLoading := true;
                      emailUnverified := emailUnverified c |} |}
    with (working m now tz {| user := user c; isLoading := true;
                              emailUnverified := emailUnverified c |}).
  rewrite login_working by done. mstep. reflexivity.
Qed.

Lemma context_signup_working (debug : bool) (email password fullName phone vehicleNumber : string)
    (m : gmap string string) (now tz : Z) (c : AuthState) :
  let u := signUpUser email fullName phone now in
  AuthContext.signup (flags false debug) email password fullName phone vehicleNumber
    (working m now tz c)
  = (Ok None,
     working
       (<[AuthService.REFRESH_TOKEN := "placeholder-refresh-" +:+ pretty now]>
        (<[AuthService.TOKEN := "placeholder-token-" +:+ pretty now]>
        (<[AuthService.USER := JSON.stringify (VObj u)]> m)))
       now tz
       {| user := VObj (AuthContext.userData (VObj u)); isLoading := false;
          emailUnverified := Bool true |}).
Proof. reflexivity. Qed.

(** X9.  After a successful login of the context, after a successful
    signup and after a logout, loading the page again (a new provider mounted
    on the same browser state) ends in the same state: the same user in
    memory (none after the logout), the same [emailUnverified], [isLoading]
    false. *)
Theorem reload_restores_the_session (debug : bool)
    (email password fullName phone vehicleNumber : string)
    (m : gmap string string) (now tz : Z) (c : AuthState) :
  Date.TimeClip (now + thirtyDays) = Some (now + thirtyDays) →
  (∃ s', AuthContext.login (flags false debug) email password (working m now tz c)
         = (Ok None, s')
       ∧ JS.field "email" (user (ctx s')) = Str email
       ∧ reload s' = s')
  ∧ (∃ s', AuthContext.signup (flags false debug) email password fullName phone vehicleNumber
             (working m now tz c) = (Ok None, s')
         ∧ JS.field "email" (user (ctx s')) = Str email
         ∧ reload s' = s')
  ∧ (∃ s', AuthContext.logout (working m now tz c) = (Ok tt, s')
         ∧ user (ctx s') = VPrim Null
         ∧ reload s' = s').
Proof.
  intros Hclip. split; [|split].
  - eexists. split; [by apply context_login_working|]. split; [reflexivity|].
    erewrite reload_working; cycle 1.
    { rewrite !stored_user_other, stored_user_write by done. reflexivity. }
    by rewrite userData_defined, get_defined.
  - eexists. split; [by apply context_signup_working|]. split; [reflexivity|].
    erewrite reload_working; cycle 1.
    { rewrite !stored_user_other, stored_user_write by done. reflexivity. }
    by rewrite userData_defined, get_defined.
  - eexists. split; [apply context_logout_working|]. split; [reflexivity|].
    unfold reload, exec. cbn [browser working].
    change {| browser := {| localStorage := ?m0; faults := []; clock := now;
                            LocalTZA := tz |}; ctx := initial |}
      with (working m0 now tz initial).
    rewrite initializeAuth_working.
    rewrite !stored_user_delete_other, stored_user_delete by done. reflexivity.
Qed.

(** The theorem at a login on an empty store. *)
Lemma reload_restores_the_session_witness :
  ∃ s', AuthContext.login (flags false false) "a@b.c" "pw" (working ∅ 0 0 anonymous)
        = (Ok None, s')
      ∧ reload s' = s'.
Proof.
  destruct (proj1 (reload_restores_the_session false "a@b.c" "pw" "A" "555" "X" ∅ 0 0
                     anonymous eq_refl)) as (s' & H1 & _ & H2).
  exists s'. split; assumption.
Defined.

(** ** Editing the user record *)

Lemma updateProfile_working (fullName companyName panNumber phone : string)
    (m : gmap string string) (now tz : Z) (u : value) (l : bool) (e : prim) :
  JS.truthy u = true →
  AuthContext.updateProfile fullName companyName panNumber phone
    (working m now tz {| user := u; isLoading := l; emailUnverified := e |})
  = (Ok true,
     working (<["auth_user" := JSON.stringify
                  (VObj (profile fullName companyName panNumber phone
                           (JS.own (stored_user m))))]> m)
       now tz {| user := VObj (profile fullName companyName panNumber phone (JS.own u));
                 isLoading := l; emailUnverified := e |}).
Proof.
  intros Hu. unfold AuthContext.updateProfile. mstep. rewrite Hu. mstep.
  rewrite getCurrentUser_working. mstep. reflexivity.
Qed.

Lemma get_profile (k fullName companyName panNumber phone : string) (o : gmap string prim) :
  JS.get k (profile fullName companyName panNumber phone o)
  = if decide (k = "phone") then Str phone
    else if decide (k = "panNumber") then Str panNumber
    else if decide (k = "companyName") then Str companyName
    else if decide (k = "fullName") then Str fullName
    else JS.get k o.
Proof.
  unfold profile, JS.get. rewrite !lookup_insert.
  repeat case_decide; simplify_eq; done.
Qed.

(** X10.  updateProfile puts [companyName] and [panNumber] into the
    in-memory user and into the persisted record, but the initialisation of
    the provider copies eight properties only: after a reload [fullName] and
    [phone] are back, and [companyName], [panNumber] and every other property
    outside the eight are undefined in memory. *)
Theorem reload_forgets_profile_fields (fullName companyName panNumber phone : string)
    (o : gmap string prim) (m : gmap string string) (now tz : Z) (l : bool) (e : prim) :
  ∃ s',
    AuthContext.updateProfile fullName companyName panNumber phone
      (working m now tz {| user := VObj o; isLoading := l; emailUnverified := e |})
    = (Ok true, s')
    ∧ JS.field "companyName" (user (ctx s')) = Str companyName
    ∧ JS.field "panNumber" (user (ctx s')) = Str panNumber
    ∧ JS.field "companyName" (stored_user (localStorage (browser s'))) = Str companyName
    ∧ JS.field "panNumber" (stored_user (localStorage (browser s'))) = Str panNumber
    ∧ JS.field "fullName" (user (ctx (reload s'))) = Str fullName
    ∧ JS.field "phone" (user (ctx (reload s'))) = Str phone
    ∧ ∀ k, k ∉ copied → JS.field k (user (ctx (reload s'))) = Undefined.
Proof.
  eexists. split; [by apply updateProfile_working|].
  cbn [ctx user working browser localStorage JS.field].
  change "auth_user" with AuthService.USER. rewrite stored_user_write.
  cbn [JS.field]. rewrite !get_defined, !get_profile.
  repeat (split; [reflexivity|]).
  erewrite reload_working; [|apply stored_user_write].
  cbn [ctx user working JS.field].
  rewrite !get_userData. cbn [JS.field]. rewrite !get_defined, !get_profile.
  repeat (split; [reflexivity|]).
  intros k Hk. rewrite get_userData. by rewrite decide_False.
Qed.

(** X11.  With a user loaded (and a store whose accesses succeed),
    updateProfile returns true; the in-memory user and the persisted record
    both carry the four given fields, and every other property of the
    in-memory user is as it was.  Every other property of the persisted record
    is as it was in the stored record, when the store held one that the model
    of [JSON.parse] reads as an object (no number, array or nested object in
    it), and is undefined when the store held no record.  With no user loaded
    updateProfile returns false and leaves the whole state unchanged. *)
Theorem updateProfile_result (fullName companyName panNumber phone : string)
    (o : gmap string prim) (m : gmap string string) (now tz : Z)
    (l : bool) (e : prim) (b : Browser) :
  let fields := ["fullName"; "companyName"; "panNumber"; "phone"] in
  (∃ s' o' r,
     AuthContext.updateProfile fullName companyName panNumber phone
       (working m now tz {| user := VObj o; isLoading := l; emailUnverified := e |})
     = (Ok true, s')
     ∧ user (ctx s') = VObj o'
     ∧ stored_user (localStorage (browser s')) = VObj r
     ∧ (∀ rec, rec = o' ∨ rec = r →
          JS.get "fullName" rec = Str fullName
          ∧ JS.get "companyName" rec = Str companyName
          ∧ JS.get "panNumber" rec = Str panNumber
          ∧ JS.get "phone" rec = Str phone)
     ∧ (∀ k, k ∉ fields → JS.get k o' = JS.get k o)
     ∧ (∀ p, stored_user m = VObj p → ∀ k, k ∉ fields → JS.get k r = JS.get k p)
     ∧ (m !! AuthService.USER = None → ∀ k, k ∉ fields → JS.get k r = Undefined))
  ∧ (let s := {| browser := b;
                 ctx := {| user := VPrim Null; isLoading := l; emailUnverified := e |} |} in
     AuthContext.updateProfile fullName companyName panNumber phone s = (Ok false, s)).
Proof.
  intros fields. split; [|reflexivity].
  assert (∀ k q, k ∉ fields →
            JS.get k (profile fullName companyName panNumber phone q) = JS.get k q) as Hframe.
  { intros k q Hk. unfold fields in Hk. rewrite !not_elem_of_cons in Hk.
    destruct Hk as (? & ? & ? & ? & _). rewrite get_profile.
    by rewrite !decide_False. }
  eexists _, _, _. split; [by apply updateProfile_working|].
  split; [reflexivity|].
  split.
  { cbn [working browser localStorage]. change "auth_user" with AuthService.USER.
    apply stored_user_write. }
  split; [|split; [|split]].
  - intros rec [->| ->]; rewrite ?get_defined, !get_profile; done.
  - intros k Hk. by apply Hframe.
  - intros p Hp k Hk. rewrite get_defined, Hp. by apply Hframe.
  - intros Hm k Hk. rewrite get_defined, Hframe, stored_user_absent by done. done.
Qed.

(** The theorem at a profile saved over a stored record. *)
Lemma updateProfile_result_witness :
  ∃ s' r,
    AuthContext.updateProfile "Asha Rao" "Rao Logistics" "ABCDE1234F" "+919800000000"
      (working {[ "auth_user" := JSON.stringify (VObj {[ "id" := Str "u1" ]}) ]} 0 0
         {| user := VObj {[ "id" := Str "u1" ]}; isLoading := false;
            emailUnverified := Bool false |})
    = (Ok true, s')
    ∧ stored_user (localStorage (browser s')) = VObj r
    ∧ JS.get "companyName" r = Str "Rao Logistics"
    ∧ JS.get "id" r = Str "u1".
Proof.
  destruct (proj1 (updateProfile_result "Asha Rao" "Rao Logistics" "ABCDE1234F"
                     "+919800000000" {[ "id" := Str "u1" ]}
                     {[ "auth_user" := JSON.stringify (VObj {[ "id" := Str "u1" ]}) ]}
                     0 0 false (Bool false)
                     {| localStorage := ∅; faults := []; clock := 0; LocalTZA := 0 |}))
    as (s' & o' & r & Hrun & _ & Hr & Hset & _ & Hkeep & _).
  exists s', r. split; [exact Hrun|]. split; [exact Hr|].
  split; [apply (Hset r); by right|].
  rewrite (Hkeep {[ "id" := Str "u1" ]}); [reflexivity| vm_compute; reflexivity |].
  rewrite !not_elem_of_cons. repeat split; try done. apply not_elem_of_nil.
Defined.

(** X12.  Under every schedule of storage faults, completeOnboarding,
    updateProfile, startTrial and setPaidSubscription leave [isLoading] and
    [emailUnverified] alone, and either leave both the store and the
    in-memory user as they were, or (with a user loaded) write the user key
    and replace the in-memory user: memory is never updated without the
    store. *)
Theorem record_edits_are_all_or_nothing (F : Features) (op : Op) (s : State) :
  edits_record op = true →
  let s' := run F op s in
  isLoading (ctx s') = isLoading (ctx s)
  ∧ emailUnverified (ctx s') = emailUnverified (ctx s)
  ∧ ((localStorage (browser s') = localStorage (browser s) ∧ user (ctx s') = user (ctx s))
     ∨ (∃ o u, localStorage (browser s')
               = <["auth_user" := JSON.stringify (VObj o)]> (localStorage (browser s))
             ∧ user (ctx s') = VObj u
             ∧ JS.truthy (user (ctx s)) = true)).
Proof.
  destruct s as [[m fs now tz] [u l e]]. intros Hop.
  destruct op; try discriminate Hop; unfold_ops; split_all;
    cbn [working browser localStorage ctx user isLoading emailUnverified];
    (split; [reflexivity|]); (split; [reflexivity|]);
    first [ left; split; reflexivity
          | right; eexists _, _; split; [reflexivity|]; split; [reflexivity|];
            by apply negb_false_iff ].
Qed.

(** The theorem at a trial started with no user loaded. *)
Lemma record_edits_are_all_or_nothing_witness :
  user (ctx (run (flags false false) StartTrial (working ∅ 0 0 anonymous))) = VPrim Null.
Proof.
  destruct (record_edits_are_all_or_nothing (flags false false) StartTrial
              (working ∅ 0 0 anonymous) eq_refl) as (_ & _ & [[_ H]|(o & u & _ & _ & H)]).
  - exact H.
  - discriminate H.
Defined.

(** X13.  No operation of the session context throws, under any flag, state
    or schedule of storage faults.  login and signup end with [isLoading]
    false, and when they report an error the user and [emailUnverified] are
    as before; a completeOnboarding or updateProfile that returns false has
    changed neither the store nor the state of the context. *)
Theorem context_never_throws (F : Features) (s : State)
    (email password fullName phone vehicleNumber companyName panNumber : string)
    (tier : Tier) :
  (∃ s', AuthContext.initializeAuth s = (Ok tt, s') ∧ isLoading (ctx s') = false)
  ∧ (∃ r s', AuthContext.login F email password s = (Ok r, s')
             ∧ isLoading (ctx s') = false
             ∧ (r ≠ None → user (ctx s') = user (ctx s)
                           ∧ emailUnverified (ctx s') = emailUnverified (ctx s)))
  ∧ (∃ r s', AuthContext.signup F email password fullName phone vehicleNumber s = (Ok r, s')
             ∧ isLoading (ctx s') = false
             ∧ (r ≠ None → user (ctx s') = user (ctx s)
                           ∧ emailUnverified (ctx s') = emailUnverified (ctx s)))
  ∧ (∃ s', AuthContext.logout s = (Ok tt, s'))
  ∧ (∃ b s', AuthContext.completeOnboarding fullName phone vehicleNumber s = (Ok b, s')
             ∧ (b = false → s' = set_localStorage (localStorage (browser s))
                                   (faults (browser s')) s))
  ∧ (∃ b s', AuthContext.updateProfile fullName companyName panNumber phone s = (Ok b, s')
             ∧ (b = false → s' = set_localStorage (localStorage (browser s))
                                   (faults (browser s')) s))
  ∧ (∃ s', AuthContext.startTrial s = (Ok tt, s'))
  ∧ (∃ s', AuthContext.setPaidSubscription tier s = (Ok tt, s'))
  ∧ AuthContext.resendVerificationEmail email s = (Ok None, s).
Proof.
  destruct s as [[m fs now tz] [u l e]].
  repeat split.
  - unfold_ops. split_all; eexists; split; reflexivity.
  - unfold_ops. split_all; eexists _, _; (split; [reflexivity|]); split; done.
  - unfold_ops. split_all; eexists _, _; (split; [reflexivity|]); split; done.
  - unfold_ops. split_all; eexists; reflexivity.
  - unfold_ops. split_all; eexists _, _; (split; [reflexivity|]); done.
  - unfold_ops. split_all; eexists _, _; (split; [reflexivity|]); done.
  - unfold_ops. split_all; eexists; reflexivity.
  - unfold_ops. split_all; eexists; reflexivity.
Qed.

(** ** The length of a subscription *)

Lemma TimeClip_in_range (t : Z) : - maxTime <= t <= maxTime → Date.TimeClip t = Some t.
Proof.
  unfold Date.TimeClip, maxTime. intros Ht.
  destruct (Z.leb_spec (Z.abs t) 8640000000000000); [done|lia].
Qed.

Lemma MakeDay_six_months (y m date : Z) :
  0 <= m <= 11 →
  181 <= Date.MakeDay y (m + 6) date - Date.MakeDay y m date <= 184.
Proof.
  intros Hm. unfold Date.MakeDay.
  assert (m = 0 ∨ m = 1 ∨ m = 2 ∨ m = 3 ∨ m = 4 ∨ m = 5 ∨ m = 6 ∨ m = 7 ∨ m = 8
          ∨ m = 9 ∨ m = 10 ∨ m = 11) as Hc by lia.
  destruct_or!; subst m;
    change (0 / 12) with 0; change (0 mod 12) with 0;
    repeat match goal with
           | |- context [(?a + 6) / 12] =>
               let v := eval vm_compute in ((a + 6) / 12) in
               change ((a + 6) / 12) with v
           | |- context [(?a + 6) mod 12] =>
               let v := eval vm_compute in ((a + 6) mod 12) in
               change ((a + 6) mod 12) with v
           | |- context [?a / 12] =>
               let v := eval vm_compute in (a / 12) in change (a / 12) with v
           | |- context [?a mod 12] =>
               let v := eval vm_compute in (a mod 12) in change (a mod 12) with v
           end;
    rewrite ?Z.add_0_r, ?DayFromYear_succ; unfold Date.DaysInYear;
    destruct (Date.leap y), (Date.leap (y + 1)); cbn; lia.
Qed.

Lemma MakeDay_one_year (y m date : Z) :
  0 <= m <= 11 →
  365 <= Date.MakeDay (y + 1) m date - Date.MakeDay y m date <= 366.
Proof.
  intros Hm. unfold Date.MakeDay.
  rewrite (Z.div_small m 12), (Z.mod_small m 12), !Z.add_0_r, DayFromYear_succ by lia.
  unfold Date.DaysInYear, Date.MonthStart.
  destruct (Date.leap y), (Date.leap (y + 1));
    repeat match goal with
           | |- context [?a <=? ?b] => destruct (Z.leb_spec a b)
           | |- context [?a =? ?b] => destruct (Z.eqb_spec a b)
           end; lia.
Qed.

Lemma shifted_day (tz now d : Z) :
  Date.UTC tz (Date.MakeDate (Date.Day (Date.LocalTime tz now) + d)
                 (Date.TimeWithinDay (Date.LocalTime tz now)))
  = now + d * Date.msPerDay.
Proof.
  unfold Date.UTC, Date.MakeDate.
  pose proof (Day_decompose (Date.LocalTime tz now)) as Hdec.
  unfold Date.LocalTime in *. lia.
Qed.

Lemma setMonth_six (tz now : Z) :
  ∃ d, 181 <= d <= 184
       ∧ Date.setMonth tz (Some now) (Date.plus (Date.getMonth tz (Some now)) 6)
         = Date.TimeClip (now + d * Date.msPerDay).
Proof.
  set (lt := Date.LocalTime tz now).
  exists (Date.MakeDay (Date.YearFromTime lt) (Date.MonthFromTime lt + 6) (Date.DateFromTime lt)
          - Date.Day lt).
  pose proof (MakeDay_same_month lt (Date.DateFromTime lt)) as Heq.
  rewrite Z.sub_diag, Z.add_0_r in Heq.
  split.
  - rewrite <- Heq. apply MakeDay_six_months, MonthFromDay_range.
  - unfold Date.setMonth, Date.getMonth, Date.plus.
    cbn [mbind option_bind fmap option_fmap option_map]. fold lt.
    f_equal. rewrite <- (shifted_day tz now). fold lt. do 3 f_equal. lia.
Qed.

Lemma setFullYear_one (tz now : Z) :
  ∃ d, 365 <= d <= 366
       ∧ Date.setFullYear tz (Some now) (Date.plus (Date.getFullYear tz (Some now)) 1)
         = Date.TimeClip (now + d * Date.msPerDay).
Proof.
  set (lt := Date.LocalTime tz now).
  exists (Date.MakeDay (Date.YearFromTime lt + 1) (Date.MonthFromTime lt) (Date.DateFromTime lt)
          - Date.Day lt).
  pose proof (MakeDay_same_month lt (Date.DateFromTime lt)) as Heq.
  rewrite Z.sub_diag, Z.add_0_r in Heq.
  split.
  - rewrite <- Heq. apply MakeDay_one_year, MonthFromDay_range.
  - unfold Date.setFullYear, Date.getFullYear, Date.plus.
    cbn [mbind option_bind fmap option_fmap option_map]. fold lt.
    f_equal. rewrite <- (shifted_day tz now). fold lt. do 3 f_equal. lia.
Qed.

Lemma paid_end (tier : Tier) (tz now : Z) :
  - maxTime <= now <= maxTime - 366 * Date.msPerDay →
  ∃ d, days tier d
       ∧ match tier with
         | semiannual =>
             Date.setMonth tz (Date.new now) (Date.plus (Date.getMonth tz (Date.new now)) 6)
         | annual =>
             Date.setFullYear tz (Date.new now)
               (Date.plus (Date.getFullYear tz (Date.new now)) 1)
         end = Some (now + d * Date.msPerDay).
Proof.
  intros Hnow. unfold Date.new.
  rewrite TimeClip_in_range by (unfold maxTime, Date.msPerDay in *; lia).
  destruct tier.
  - destruct (setMonth_six tz now) as (d & Hd & ->). exists d. split; [exact Hd|].
    apply TimeClip_in_range. unfold maxTime, Date.msPerDay in *. lia.
  - destruct (setFullYear_one tz now) as (d & Hd & ->). exists d. split; [exact Hd|].
    apply TimeClip_in_range. unfold maxTime, Date.msPerDay in *. lia.
Qed.

Lemma setPaidSubscription_working (tier : Tier) (o : gmap string prim)
    (m : gmap string string) (now tz : Z) (l : bool) (e : prim) :
  - maxTime <= now <= maxTime - 366 * Date.msPerDay →
  ∃ d,
    days tier d
    ∧ AuthContext.setPaidSubscription tier
        (working m now tz {| user := VObj o; isLoading := l; emailUnverified := e |})
      = (Ok tt,
         working
           (<["auth_user" := JSON.stringify
                (VObj (AuthContext.subscribe (tier_name tier)
                         (Date.iso (now + d * Date.msPerDay)) (JS.own (stored_user m))))]> m)
           now tz
           {| user := VObj (AuthContext.subscribe (tier_name tier)
                              (Date.iso (now + d * Date.msPerDay)) o);
              isLoading := l; emailUnverified := e |}).
Proof.
  intros Hnow. destruct (paid_end tier tz now Hnow) as (d & Hd & Hend).
  exists d. split; [exact Hd|].
  unfold AuthContext.setPaidSubscription. mstep. cbn [JS.truthy negb]. mstep.
  rewrite Hend. mstep. rewrite getCurrentUser_working. mstep. reflexivity.
Qed.

(** A field that [subscribe] sets, read from the persisted record. *)
Ltac get_subscribed :=
  rewrite get_defined; unfold AuthContext.subscribe;
  repeat first [rewrite get_insert_eq | rewrite get_insert_ne by done]; reflexivity.

(** X15.  For a clock reading at least 366 days before the latest time
    value, with a user loaded and a store whose accesses succeed:
    setPaidSubscription sets the subscription end, in memory and in the
    persisted record, to the ISO text of the clock reading plus a whole number
    of days, from 181 to 184 for the semiannual tier and 365 or 366 for the
    annual tier (in a time zone of any fixed offset), with [subscribed] true
    and the tier given.  The in-memory user keeps its other properties.  The
    persisted record keeps the other properties of the stored record, when the
    store held one that the model of [JSON.parse] reads as an object (no
    number, array or nested object in it), and has the three fields only when
    the store held no record. *)
Theorem paid_subscription_length (tier : Tier) (o : gmap string prim)
    (m : gmap string string) (now tz : Z) (l : bool) (e : prim) :
  - maxTime <= now <= maxTime - 366 * Date.msPerDay →
  ∃ d s' r,
    days tier d
    ∧ AuthContext.setPaidSubscription tier
        (working m now tz {| user := VObj o; isLoading := l; emailUnverified := e |})
      = (Ok tt, s')
    ∧ user (ctx s')
      = VObj (AuthContext.subscribe (tier_name tier) (Date.iso (now + d * Date.msPerDay)) o)
    ∧ stored_user (localStorage (browser s')) = VObj r
    ∧ JS.get "subscriptionEnd" r = Str (Date.iso (now + d * Date.msPerDay))
    ∧ JS.get "subscriptionTier" r = Str (tier_name tier)
    ∧ JS.get "subscribed" r = Bool true
    ∧ (∀ p, stored_user m = VObj p →
         ∀ k, JS.get k r
              = JS.get k (AuthContext.subscribe (tier_name tier)
                            (Date.iso (now + d * Date.msPerDay)) p))
    ∧ (m !! AuthService.USER = None →
         r = AuthContext.subscribe (tier_name tier) (Date.iso (now + d * Date.msPerDay)) ∅).
Proof.
  intros Hnow.
  destruct (setPaidSubscription_working tier o m now tz l e Hnow) as (d & Hd & Hrun).
  exists d. eexists _, _. split; [exact Hd|]. split; [exact Hrun|].
  split; [reflexivity|].
  split.
  { cbn [working browser localStorage]. change "auth_user" with AuthService.USER.
    apply stored_user_write. }
  split; [get_subscribed|]. split; [get_subscribed|]. split; [get_subscribed|]. split.
  - intros p Hp k. by rewrite get_defined, Hp.
  - intros Hm. rewrite stored_user_absent by done. cbn [JS.own].
    apply defined_id. intros k. unfold AuthContext.subscribe.
    rewrite !lookup_insert, lookup_empty. repeat case_decide; done.
Qed.

(** The theorem at an annual subscription bought at the epoch, over a stored record. *)
Lemma paid_subscription_length_witness :
  ∃ d s' r,
    days annual d
    ∧ AuthContext.setPaidSubscription annual
        (working {[ "auth_user" := JSON.stringify (VObj {[ "id" := Str "u1" ]}) ]} 0 0
           {| user := VObj {[ "id" := Str "u1" ]}; isLoading := false;
              emailUnverified := Bool false |})
      = (Ok tt, s')
    ∧ stored_user (localStorage (browser s')) = VObj r
    ∧ JS.get "subscriptionTier" r = Str "annual"
    ∧ JS.get "id" r = Str "u1".
Proof.
  destruct (paid_subscription_length annual {[ "id" := Str "u1" ]}
              {[ "auth_user" := JSON.stringify (VObj {[ "id" := Str "u1" ]}) ]}
              0 0 false (Bool false))
    as (d & s' & r & H1 & H2 & _ & H4 & _ & H6 & _ & H8 & _).
  { unfold maxTime, Date.msPerDay. lia. }
  exists d, s', r. split; [exact H1|]. split; [exact H2|]. split; [exact H4|].
  split; [exact H6|].
  rewrite (H8 {[ "id" := Str "u1" ]}); [reflexivity | vm_compute; reflexivity].
Defined.

(** X14.  For a clock reading at least seven days before the latest time
    value, with a user loaded and a store whose accesses succeed: startTrial
    sets the subscription end, in memory and in the persisted record, to the
    ISO text of exactly seven days (7 x 86400000 ms) after the clock reading,
    in a time zone of any fixed offset (a change of the offset within the
    seven days is not modelled), with [subscribed] true and tier [trial],
    whatever the subscription was before.  The in-memory user keeps its other
    properties.  The persisted record keeps the other properties of the stored
    record, when the store held one that the model of [JSON.parse] reads as an
    object (no number, array or nested object in it), and has the three
    fields only when the store held no record. *)
Theorem trial_lasts_seven_days (o : gmap string prim) (m : gmap string string)
    (now tz : Z) (l : bool) (e : prim) :
  - maxTime <= now <= maxTime - 7 * Date.msPerDay →
  let trialEnd := Date.iso (now + 7 * Date.msPerDay) in
  ∃ s' r,
    AuthContext.startTrial
      (working m now tz {| user := VObj o; isLoading := l; emailUnverified := e |})
    = (Ok tt, s')
    ∧ user (ctx s') = VObj (AuthContext.subscribe "trial" trialEnd o)
    ∧ stored_user (localStorage (browser s')) = VObj r
    ∧ JS.get "subscriptionEnd" r = Str trialEnd
    ∧ JS.get "subscriptionTier" r = Str "trial"
    ∧ JS.get "subscribed" r = Bool true
    ∧ (∀ p, stored_user m = VObj p →
         ∀ k, JS.get k r = JS.get k (AuthContext.subscribe "trial" trialEnd p))
    ∧ (m !! AuthService.USER = None → r = AuthContext.subscribe "trial" trialEnd ∅).
Proof.
  intros Hnow trialEnd.
  assert (Date.setDate tz (Date.new now) (Date.plus (Date.getDate tz (Date.new now)) 7)
          = Some (now + 7 * Date.msPerDay)) as Hend.
  { unfold Date.new. rewrite TimeClip_in_range by (unfold maxTime, Date.msPerDay in *; lia).
    rewrite setDate_plus. apply TimeClip_in_range. unfold maxTime, Date.msPerDay in *. lia. }
  eexists _, _. split.
  { unfold AuthContext.startTrial. mstep. cbn [JS.truthy negb]. mstep.
    rewrite Hend. mstep.
    rewrite getCurrentUser_working. mstep. reflexivity. }
  split; [reflexivity|].
  split.
  { cbn [working browser localStorage]. change "auth_user" with AuthService.USER.
    apply stored_user_write. }
  split; [get_subscribed|]. split; [get_subscribed|]. split; [get_subscribed|]. split.
  - intros p Hp k. by rewrite get_defined, Hp.
  - intros Hm. rewrite stored_user_absent by done. cbn [JS.own].
    apply defined_id. intros k. unfold AuthContext.subscribe.
    rewrite !lookup_insert, lookup_empty. repeat case_decide; done.
Qed.

(** The theorem at a trial started at the epoch, over a stored record. *)
Lemma trial_lasts_seven_days_witness :
  ∃ s' r,
    AuthContext.startTrial
      (working {[ "auth_user" := JSON.stringify (VObj {[ "id" := Str "u1" ]}) ]} 0 0
         {| user := VObj {[ "id" := Str "u1" ]}; isLoading := false;
            emailUnverified := Bool false |})
    = (Ok tt, s')
    ∧ JS.field "subscriptionEnd" (user (ctx s')) = Str "1970-01-08T00:00:00.000Z"
    ∧ stored_user (localStorage (browser s')) = VObj r
    ∧ JS.get "subscriptionEnd" r = Str "1970-01-08T00:00:00.000Z"
    ∧ JS.get "id" r = Str "u1".
Proof.
  destruct (trial_lasts_seven_days {[ "id" := Str "u1" ]}
              {[ "auth_user" := JSON.stringify (VObj {[ "id" := Str "u1" ]}) ]}
              0 0 false (Bool false))
    as (s' & r & H1 & H2 & H3 & H4 & _ & _ & H7 & _).
  { unfold maxTime, Date.msPerDay. lia. }
  exists s', r. split; [exact H1|]. split; [rewrite H2; reflexivity|].
  split; [exact H3|]. split; [exact H4|].
  rewrite (H7 {[ "id" := Str "u1" ]}); [reflexivity | vm_compute; reflexivity].
Defined.

(** * The API service *)

(** One step of evaluation in the monad of the application. *)
Ltac wstep :=
  repeat (progress (
    unfold W_bind, W_ret, raise, catch, lift, fetch, json, set_tab, world;
    unfold mbind, mret;
    cbn [tab server sent page fst snd negb
         url method headers body init_method init_body init_headers data api_success])).

Lemma request_working (baseUrl endpoint : string) (options : RequestInit)
    (m : gmap string string) (now tz : Z) (c : AuthState)
    (srv : list Request → Reply) (log : list Request) (pg : Page) :
  let req := {| url := baseUrl +:+ endpoint; method := init_method options;
                headers := init_headers options ∪ default_headers m;
                body := init_body options |} in
  ApiService.request baseUrl endpoint options (world (working m now tz c) srv log pg)
  = (outcome_of (srv (log ++ [req])), world (working m now tz c) srv (log ++ [req]) pg).
Proof.
  intros req. unfold ApiService.request, ApiService.getAuthToken. 
  unfold mbind at 1. unfold W_bind, lift. cbn [tab world]. 
  unfold getItem, access.
  cbn [working browser faults localStorage set_localStorage clock LocalTZA ctx].
  fold (working m now tz c). unfold set_tab; cbn [server sent page].
  assert (match m !! "auth_token" with
          | Some tk =>
              if JS.truthy_prim (Str tk)
              then <["Authorization" := "Bearer " +:+ tk]>
                     ({[ "Content-Type" := "application/json" ]} : gmap string string)
              else {[ "Content-Type" := "application/json" ]}
          | None => {[ "Content-Type" := "application/json" ]}
          end = default_headers m) as ->.
  { unfold default_headers. destruct (m !! "auth_token") as [tk|]; [|done].
    cbn [JS.truthy_prim]. by destruct (decide (tk = "")). }
  fold req. wstep. fold (world (working m now tz c) srv (log ++ [req]) pg).
  unfold outcome_of.
  destruct (srv (log ++ [req])) as [msg|r]; [reflexivity|].
  destruct (ok r); cbn [negb]; [|reflexivity].
  destruct (payload r); reflexivity.
Qed.

Lemma call_working (baseUrl endpoint : string) (c : Call)
    (m : gmap string string) (now tz : Z) (a : AuthState)
    (srv : list Request → Reply) (log : list Request) (pg : Page) :
  let req := request_of baseUrl endpoint c m in
  call baseUrl endpoint c (world (working m now tz a) srv log pg)
  = (outcome_of (srv (log ++ [req])), world (working m now tz a) srv (log ++ [req]) pg).
Proof.
  intros req. subst req. unfold request_of.
  destruct c as [[ps|]| | | |]; unfold call, ApiService.get, ApiService.post, ApiService.put,
    ApiService.patch, ApiService.delete; rewrite request_working;
    cbn [init_method init_body init_headers]; rewrite (left_id_L ∅ (∪)), ?append_nil_r;
    reflexivity.
Qed.

(** X16.  Every call of the API service (get, post, put, patch, delete), on a
    store whose accesses succeed, sends exactly one request, whatever the
    reply, and changes nothing else.  The request has the header
    [Content-Type: application/json], the header [Authorization: Bearer
    token] exactly when the store holds a non-empty token, and no other
    header. *)
Theorem requests_carry_the_stored_token (baseUrl endpoint : string) (c : Call)
    (m : gmap string string) (now tz : Z) (a : AuthState)
    (srv : list Request → Reply) (log : list Request) (pg : Page) :
  let req := request_of baseUrl endpoint c m in
  (call baseUrl endpoint c (world (working m now tz a) srv log pg)).2
  = world (working m now tz a) srv (log ++ [req]) pg
  ∧ headers req !! "Content-Type" = Some "application/json"
  ∧ headers req !! "Authorization"
    = match m !! "auth_token" with
      | Some tk => if decide (tk = "") then None else Some ("Bearer " +:+ tk)
      | None => None
      end
  ∧ dom (headers req) ⊆ {[ "Content-Type"; "Authorization" ]}.
Proof.
  intros req. rewrite call_working. split; [reflexivity|].
  unfold req, request_of; cbn [headers]. unfold default_headers.
  destruct (m !! "auth_token") as [tk|]; [destruct (decide (tk = ""))|];
    (split; [done|]); (split; [done|]);
    rewrite ?dom_insert_L, ?dom_singleton_L; set_solver.
Qed.

Lemma lift_working {A} (f : M A) (m m' : gmap string string) (now tz : Z) (a a' : AuthState)
    (x : A) (srv : list Request → Reply) (log : list Request) (pg : Page) :
  f (working m now tz a) = (Ok x, working m' now tz a') →
  lift f (world (working m now tz a) srv log pg)
  = (Return x, world (working m' now tz a') srv log pg).
Proof. intros Hf. unfold lift. cbn [tab world]. rewrite Hf. reflexivity. Qed.

(** X17.  After a logout of the session manager a call of the API service
    sends no [Authorization] header, whatever the store held; after a signUp
    it sends the token that signUp stored. *)
Theorem session_decides_the_credentials (baseUrl endpoint : string) (c : Call)
    (debug : bool) (email password : string) (fullName phone : option string)
    (m : gmap string string) (now tz : Z) (a : AuthState)
    (srv : list Request → Reply) (log : list Request) (pg : Page) :
  let w := world (working m now tz a) srv log pg in
  (∃ req, sent ((lift AuthService.logout;; call baseUrl endpoint c) w).2 = log ++ [req]
          ∧ headers req !! "Authorization" = None)
  ∧ (∃ req, sent ((lift (AuthService.signUp (flags false debug) email password fullName phone);;
                   call baseUrl endpoint c) w).2 = log ++ [req]
            ∧ headers req !! "Authorization"
              = Some ("Bearer placeholder-token-" +:+ pretty now)).
Proof.
  intros w. subst w. split.
  - eexists. unfold mbind, W_bind.
    erewrite lift_working by apply logout_working.
    rewrite call_working. split; [reflexivity|].
    unfold request_of; cbn [headers]. unfold default_headers.
    change "auth_token" with AuthService.TOKEN.
    rewrite lookup_delete_ne, lookup_delete_eq by done. done.
  - eexists. unfold mbind, W_bind.
    erewrite lift_working by apply signUp_working.
    rewrite call_working. split; [reflexivity|].
    unfold request_of; cbn [headers]. unfold default_headers.
    change "auth_token" with AuthService.TOKEN.
    rewrite lookup_insert_ne, lookup_insert_eq by done.
    rewrite decide_False by done. done.
Qed.

(** X18.  A call of the API service returns exactly for a response with a
    status from 200 to 299 whose body is JSON, with [success] true and the
    parsed body as [data].  A rejected fetch, a response with another status
    (message [HTTP status: statusText]) and a body that is not JSON are thrown
    as an [ApiError] whose [status] is undefined.  When reading the token
    throws, the storage error itself is thrown and no request is sent. *)
Theorem call_outcomes (baseUrl endpoint : string) (c : Call)
    (m : gmap string string) (now tz : Z) (a : AuthState)
    (srv : list Request → Reply) (log : list Request) (pg : Page)
    (msg : string) (fs : list (option string)) :
  (call baseUrl endpoint c (world (working m now tz a) srv log pg)).1
  = outcome_of (srv (log ++ [request_of baseUrl endpoint c m]))
  ∧ (∀ resp, outcome_of (srv (log ++ [request_of baseUrl endpoint c m])) = Return resp →
       api_success resp = true
       ∧ ∃ r, srv (log ++ [request_of baseUrl endpoint c m]) = Responded r
              ∧ 200 <= status r <= 299 ∧ payload r = Some (data resp))
  ∧ (let s := {| browser := {| localStorage := m; faults := Some msg :: fs; clock := now;
                               LocalTZA := tz |}; ctx := a |} in
     ∃ w', call baseUrl endpoint c (world s srv log pg) = (Raise (Error msg), w')
           ∧ sent w' = log).
Proof.
  split; [by rewrite call_working|]. split.
  - intros resp. unfold outcome_of.
    destruct (srv _) as [?|r]; [done|].
    destruct (ok r) eqn:Hok; [|done]. destruct (payload r) as [v|] eqn:Hv; [|done].
    intros [= <-]. split; [done|]. exists r. split; [done|]. split; [|done].
    unfold ok in Hok. lia.
  - destruct c as [[ps|]| | | |]; eexists; split; reflexivity.
Qed.

Lemma all_chars_app (P : ascii → bool) (a b : string) :
  all_chars P (a +:+ b) = all_chars P a && all_chars P b.
Proof.
  induction a as [|c a IH]; [done|].
  change (String c a +:+ b) with (String c (a +:+ b)).
  cbn [all_chars]. by rewrite IH, andb_assoc.
Qed.

Lemma encode_char_safe (c : ascii) :
  all_chars query_char (URLSearchParams.encode_bytes (URLSearchParams.utf8 c)) = true.
Proof. destruct c as [[] [] [] [] [] [] [] []]; vm_compute; reflexivity. Qed.

Lemma encode_safe (s : string) : all_chars query_char (URLSearchParams.encode s) = true.
Proof.
  induction s as [|c s IH]; [done|].
  cbn [URLSearchParams.encode]. by rewrite all_chars_app, encode_char_safe, IH.
Qed.

Lemma toString_safe (ps : list (string * string)) :
  all_chars query_char (URLSearchParams.toString ps) = true.
Proof.
  induction ps as [|[k v] ps IH]; [done|].
  destruct ps as [|p ps].
  - cbn [URLSearchParams.toString]. by rewrite !all_chars_app, !encode_safe.
  - change (URLSearchParams.toString ((k, v) :: p :: ps))
      with (URLSearchParams.encode k +:+ "=" +:+ URLSearchParams.encode v +:+ "&"
            +:+ URLSearchParams.toString (p :: ps)).
    by rewrite !all_chars_app, !encode_safe, IH.
Qed.

(** X19.  get sends a GET request without a body to the base URL followed by
    the endpoint and a query.  Without parameters nothing is appended; with
    parameters a question mark and the serialized parameters are, also when
    there are none (the URL then ends in a question mark).  The serialized
    parameters consist of letters, digits and the characters [*-._+%=&]
    only. *)
Theorem get_query_string (baseUrl endpoint : string) (params : option (list (string * string)))
    (m : gmap string string) (now tz : Z) (a : AuthState)
    (srv : list Request → Reply) (log : list Request) (pg : Page) :
  ∃ req query,
    sent (ApiService.get baseUrl endpoint params (world (working m now tz a) srv log pg)).2
    = log ++ [req]
    ∧ url req = baseUrl +:+ endpoint +:+ query
    ∧ method req = Some "GET"
    ∧ body req = NoBody
    ∧ match params with
      | None => query = ""
      | Some ps =>
          ∃ text, query = String "?" text ∧ all_chars query_char text = true
                  ∧ (ps = [] → text = "")
      end.
Proof.
  pose proof (call_working baseUrl endpoint (Get params) m now tz a srv log pg) as H.
  cbv zeta in H. cbn [call] in H. rewrite H. cbn [snd world sent].
  eexists _, _. split; [reflexivity|]. split; [reflexivity|].
  split; [reflexivity|]. split; [reflexivity|].
  destruct params as [ps|]; [|reflexivity].
  eexists. split; [reflexivity|]. split; [apply toString_safe|]. by intros ->.
Qed.

(** X20.  post, put and patch send no body for a falsy body ([undefined],
    [null], [false], the empty string); for an object they send the JSON text
    that parses back to the object (without its undefined properties), for a
    non-empty string the JSON text that parses back to the string. *)
Theorem json_bodies (baseUrl endpoint : string) (v : value)
    (m : gmap string string) (now tz : Z) (a : AuthState)
    (srv : list Request → Reply) (log : list Request) (pg : Page) :
  ∀ c, c = Post v ∨ c = Put v ∨ c = Patch v →
  ∃ req,
    sent (call baseUrl endpoint c (world (working m now tz a) srv log pg)).2 = log ++ [req]
    ∧ (JS.truthy v = false → body req = NoBody)
    ∧ (∀ o, v = VObj o →
         ∃ text, body req = Text text ∧ JSON.parse text = Some (VObj (defined o)))
    ∧ (∀ s, v = VPrim (Str s) → s ≠ "" →
         ∃ text, body req = Text text ∧ JSON.parse text = Some v).
Proof.
  intros c Hc. rewrite call_working. cbn [snd world sent]. eexists. split; [reflexivity|].
  unfold request_of. cbn [body].
  assert (match c with
          | Post v0 | Put v0 | Patch v0 =>
              if JS.truthy v0 then Text (JSON.stringify v0) else NoBody
          | _ => NoBody
          end = if JS.truthy v then Text (JSON.stringify v) else NoBody) as ->
    by (destruct Hc as [->|[->| ->]]; reflexivity).
  split; [by intros ->|]. split.
  - intros o ->. cbn [JS.truthy]. eexists. split; [reflexivity|]. apply parse_stringify.
  - intros s -> Hs. cbn [JS.truthy JS.truthy_prim]. rewrite decide_False by done.
    eexists. split; [reflexivity|].
    cbn [JSON.stringify JSON.stringify_prim]. unfold JSON.parse, JSON.quote.
    cbn [JSON.lex]. change (N_of_ascii JSON.dquote) with 34%N. cbn.
    change (String JSON.dquote "") with (String JSON.dquote EmptyString).
    rewrite lex_escape. reflexivity.
Qed.

(** The theorem at a post of [false]. *)
Lemma json_bodies_witness :
  ∃ req,
    sent (call "https://api" "/vehicles" (Post (VPrim (Bool false)))
            (world (working ∅ 0 0 anonymous) (λ _, Rejected "offline") [] first_render)).2
    = [req]
    ∧ body req = NoBody.
Proof.
  destruct (json_bodies "https://api" "/vehicles" (VPrim (Bool false)) ∅ 0 0 anonymous
              (λ _, Rejected "offline") [] first_render (Post (VPrim (Bool false)))
              (or_introl eq_refl)) as (req & H1 & H2 & _).
  exists req. split; [exact H1|]. by apply H2.
Defined.

Lemma getUploadUrl_working (baseUrl : string) (file : File)
    (m : gmap string string) (now tz : Z) (a : AuthState)
    (srv : list Request → Reply) (log : list Request) (pg : Page) :
  let req := upload_url_request baseUrl file m in
  ApiService.getUploadUrl baseUrl (file_name file) (file_type file)
    (world (working m now tz a) srv log pg)
  = (outcome_of (srv (log ++ [req])), world (working m now tz a) srv (log ++ [req]) pg).
Proof.
  exact (call_working baseUrl "/upload-url"
           (Post (VObj {[ "fileName" := Str (file_name file);
                          "contentType" := Str (file_type file) ]})) m now tz a srv log pg).
Qed.

Lemma uploadFile_run (target : prim) (file : File) (w : World) :
  ApiService.uploadFile target file w
  = (match server w (sent w ++ [upload_request target file]) with
     | Rejected message => Raise (Error message)
     | Responded r =>
         if ok r then Return tt else Raise (Error ("Upload failed: " +:+ statusText r))
     end,
     {| tab := tab w; server := server w; sent := sent w ++ [upload_request target file];
        page := page w |}).
Proof.
  unfold ApiService.uploadFile. unfold mbind, W_bind, fetch. fold (upload_request target file).
  destruct (server w _) as [msg|r]; [reflexivity|].
  destruct (ok r); reflexivity.
Qed.

(** X21.  When both replies are successful, uploadFileComplete sends two
    requests: a POST to the base URL followed by [/upload-url], with the
    default headers (so with the token), and a PUT of the file to the
    [uploadUrl] of the first reply, whose only header is the type of the file
    (no [Authorization]); it returns the [fileUrl] of the first reply. *)
Theorem upload_sends_two_requests (baseUrl : string) (file : File) (d : gmap string prim)
    (r1 r2 : Response) (m : gmap string string) (now tz : Z) (a : AuthState)
    (srv : list Request → Reply) (log : list Request) (pg : Page) :
  let first := upload_url_request baseUrl file m in
  let second := upload_request (JS.get "uploadUrl" d) file in
  srv (log ++ [first]) = Responded r1 → ok r1 = true → payload r1 = Some (VObj d) →
  srv ((log ++ [first]) ++ [second]) = Responded r2 → ok r2 = true →
  ApiService.uploadFileComplete baseUrl file (world (working m now tz a) srv log pg)
  = (Return (JS.get "fileUrl" d),
     world (working m now tz a) srv ((log ++ [first]) ++ [second]) pg)
  ∧ url first = baseUrl +:+ "/upload-url"
  ∧ headers first = default_headers m
  ∧ url second = ToString (JS.get "uploadUrl" d)
  ∧ headers second = {[ "Content-Type" := file_type file ]}
  ∧ headers second !! "Authorization" = None
  ∧ body second = Blob file.
Proof.
  intros first second H1 Hok1 Hp1 H2 Hok2.
  split; [|repeat split; reflexivity].
  unfold ApiService.uploadFileComplete, catch. unfold mbind at 1. unfold W_bind at 1.
  rewrite getUploadUrl_working. fold first. rewrite H1. unfold outcome_of.
  rewrite Hok1, Hp1. cbn [data member JS.field]. unfold mbind, mret, W_bind, W_ret.
  rewrite uploadFile_run. cbn [server sent world tab page]. fold second.
  rewrite H2, Hok2. reflexivity.
Qed.

(** The theorem at the upload of a report to a presigning server. *)
Lemma upload_sends_two_requests_witness :
  ApiService.uploadFileComplete "https://api" report
    (world (working ∅ 0 0 anonymous) presigning_server [] first_render)
  = (Return (Str "https://bucket/report.pdf"),
     world (working ∅ 0 0 anonymous) presigning_server
       [upload_url_request "https://api" report ∅;
        upload_request (Str "https://bucket/put") report] first_render).
Proof.
  exact (proj1 (upload_sends_two_requests "https://api" report
           {[ "uploadUrl" := Str "https://bucket/put";
              "fileUrl" := Str "https://bucket/report.pdf" ]}
           {| status := 200; statusText := "OK";
              payload := Some (VObj {[ "uploadUrl" := Str "https://bucket/put";
                                       "fileUrl" := Str "https://bucket/report.pdf" ]}) |}
           {| status := 200; statusText := "OK"; payload := None |}
           ∅ 0 0 anonymous presigning_server [] first_render
           eq_refl eq_refl eq_refl eq_refl eq_refl)).
Defined.

(** X22.  Whatever uploadFileComplete throws, in any state, is an [Error]
    whose message starts with [File upload failed: ].  The [ApiError] of a
    failed request for the upload URL is not an [Error]: its message is lost,
    the text is [File upload failed: Unknown error], and no upload is
    attempted.  A refused upload gives [File upload failed: Upload failed:
    statusText], a rejected one [File upload failed: message]. *)
Theorem upload_failures_are_wrapped (baseUrl : string) (file : File) (w : World)
    (d : gmap string prim) (r1 r2 : Response) (x : Thrown) (msg : string)
    (m : gmap string string) (now tz : Z) (a : AuthState)
    (srv : list Request → Reply) (log : list Request) (pg : Page) :
  let first := upload_url_request baseUrl file m in
  let second := upload_request (JS.get "uploadUrl" d) file in
  let run := ApiService.uploadFileComplete baseUrl file (world (working m now tz a) srv log pg) in
  (∀ e w', ApiService.uploadFileComplete baseUrl file w = (Raise e, w') →
           ∃ reason, e = Error ("File upload failed: " +:+ reason))
  ∧ (outcome_of (srv (log ++ [first])) = Raise x →
     run = (Raise (Error "File upload failed: Unknown error"),
            world (working m now tz a) srv (log ++ [first]) pg))
  ∧ (srv (log ++ [first]) = Responded r1 → ok r1 = true → payload r1 = Some (VObj d) →
     (srv ((log ++ [first]) ++ [second]) = Responded r2 → ok r2 = false →
      run.1 = Raise (Error ("File upload failed: Upload failed: " +:+ statusText r2)))
     ∧ (srv ((log ++ [first]) ++ [second]) = Rejected msg →
        run.1 = Raise (Error ("File upload failed: " +:+ msg)))).
Proof.
  intros first second run. split; [|split].
  - intros e w'. unfold ApiService.uploadFileComplete, catch.
    match goal with
    | |- context [match ?b w with _ => _ end] => destruct (b w) as [[v|e0] w0]
    end; [done|]. intros [= <- <-]. eauto.
  - intros Hx. unfold run, ApiService.uploadFileComplete, catch.
    unfold mbind at 1. unfold W_bind at 1.
    rewrite getUploadUrl_working. fold first. rewrite Hx.
    unfold outcome_of in Hx. destruct (srv (log ++ [first])) as [?|r]; [by injection Hx as <-|].
    destruct (ok r); [|by injection Hx as <-]. destruct (payload r); [done|by injection Hx as <-].
  - intros H1 Hok1 Hp1.
    assert (∀ reply, srv ((log ++ [first]) ++ [second]) = reply →
            run.1 = match reply with
                    | Rejected message => Raise (Error ("File upload failed: " +:+ message))
                    | Responded r =>
                        if ok r then Return (JS.get "fileUrl" d)
                        else Raise (Error ("File upload failed: Upload failed: "
                                           +:+ statusText r))
                    end) as Hrun.
    { intros reply H2. unfold run, ApiService.uploadFileComplete, catch.
      unfold mbind at 1. unfold W_bind at 1.
      rewrite getUploadUrl_working. fold first. rewrite H1. unfold outcome_of.
      rewrite Hok1, Hp1. cbn [data member JS.field]. unfold mbind, mret, W_bind, W_ret.
      rewrite uploadFile_run. cbn [server sent world tab page]. fold second.
      rewrite H2. destruct reply as [?|r]; [reflexivity|]. destruct (ok r); reflexivity. }
    split.
    + intros H2 Hok2. rewrite (Hrun _ H2), Hok2. reflexivity.
    + intros H2. rewrite (Hrun _ H2). reflexivity.
Qed.

(** * The payment page *)

(** One step of evaluation, the updates of the page included. *)
Ltac pstep :=
  repeat (progress (
    wstep;
    unfold PaymentSuccessPage.setStatus, PaymentSuccessPage.setMessage,
      PaymentSuccessPage.navigate_after, PaymentSuccessPage.set_page;
    cbn [tab server sent page page_status page_message timers fst snd negb])).

Lemma setPaidSubscription_total (tier : Tier) (s : State) :
  ∃ s', AuthContext.setPaidSubscription tier s = (Ok tt, s').
Proof.
  destruct s as [[m fs now tz] [u l e]].
  unfold AuthContext.setPaidSubscription. split_all; eexists; reflexivity.
Qed.

Lemma verify_working (baseUrl orderId : string)
    (m : gmap string string) (now tz : Z) (a : AuthState)
    (srv : list Request → Reply) (log : list Request) (pg : Page) :
  orderId ≠ "" →
  let req := verify_request baseUrl orderId m in
  PaymentSuccessPage.verify baseUrl (Some orderId) (world (working m now tz a) srv log pg)
  = match confirmed (srv (log ++ [req])) with
    | Some plan =>
        (Return tt,
         world (exec (AuthContext.setPaidSubscription (tier_of plan)) (working m now tz a))
           srv (log ++ [req])
           {| page_status := success;
              page_message := "Payment confirmed! Redirecting to your dashboard...";
              timers := timers pg ++ [(800, "/")] |})
    | None =>
        (Return tt,
         world (working m now tz a) srv (log ++ [req])
           {| page_status := failed;
              page_message :=
                match srv (log ++ [req]) with
                | Responded r =>
                    if ok r then
                      match payload r with
                      | Some (VObj _) | Some (VPrim (Bool _)) | Some (VPrim (Str _)) =>
                          "Payment not completed yet. If you were charged, please contact support."
                      | _ => "Could not verify payment. Please try again."
                      end
                    else "Could not verify payment. Please try again."
                | Rejected _ => "Could not verify payment. Please try again."
                end;
              timers := timers pg |})
    end.
Proof.
  intros Ho req. unfold PaymentSuccessPage.verify.
  cbn [JS.truthy_prim]. rewrite decide_False by done.
  unfold catch. unfold mbind at 1. unfold W_bind at 1.
  pose proof (call_working baseUrl "/payments/verify"
                (Post (VObj {[ "orderId" := Str orderId ]})) m now tz a srv log pg) as Hc.
  cbv zeta in Hc. cbn [call] in Hc. rewrite Hc. fold (verify_request baseUrl orderId m). fold req.
  unfold confirmed, outcome_of.
  destruct (srv (log ++ [req])) as [msg|r]; [reflexivity|].
  destruct (ok r); [|reflexivity].
  destruct (payload r) as [[[| |b|s]|o]|]; try reflexivity.
  cbn [data member JS.field]. pstep.
  destruct (JS.truthy_prim (JS.get "isPaid" o)); pstep; [|reflexivity].
  fold (tier_of (JS.get "plan" o)).
  destruct (setPaidSubscription_total (tier_of (JS.get "plan" o)) (working m now tz a))
    as [s' Hs'].
  unfold exec. rewrite Hs'. reflexivity.
Qed.

Lemma fetch_any (req : Request) (w : World) :
  ∃ r, fetch req w
       = (r, {| tab := tab w; server := server w; sent := sent w ++ [req]; page := page w |}).
Proof. unfold fetch. destruct (server w _); eexists; reflexivity. Qed.

Lemma request_any (baseUrl endpoint : string) (options : RequestInit) (w : World) :
  ∃ r w', ApiService.request baseUrl endpoint options w = (r, w')
          ∧ page w' = page w
          ∧ (length (sent w') ≤ length (sent w) + 1)%nat.
Proof.
  unfold ApiService.request, ApiService.getAuthToken.
  unfold mbind at 1. unfold W_bind at 1. unfold lift.
  destruct (getItem "auth_token" (tab w)) as [[token|msg] s].
  2: { eexists _, _. split; [reflexivity|]. split; [reflexivity|]. cbn. lia. }
  unfold catch. unfold mbind at 1. unfold W_bind at 1.
  match goal with |- context [fetch ?req ?w0] => destruct (fetch_any req w0) as [r ->] end.
  assert (∀ l (x : Request), (length (l ++ [x]) ≤ length l + 1)%nat) as Hlen
    by (intros; rewrite length_app; cbn; lia).
  destruct r as [response|e].
  2: { eexists _, _. split; [reflexivity|]. split; [reflexivity|]. apply Hlen. }
  destruct (ok response); cbn [negb].
  2: { eexists _, _. split; [reflexivity|]. split; [reflexivity|]. apply Hlen. }
  unfold json. destruct (payload response);
    eexists _, _; (split; [reflexivity|]); (split; [reflexivity|]); apply Hlen.
Qed.

Lemma post_any (baseUrl endpoint : string) (v : value) (w : World) :
  ∃ r w', ApiService.post baseUrl endpoint v w = (r, w')
          ∧ page w' = page w
          ∧ (length (sent w') ≤ length (sent w) + 1)%nat.
Proof. apply request_any. Qed.

(** X23.  One run of verify, started in any state (also one that an earlier
    run has left: the effect runs again whenever one of its dependencies
    changes), returns, sends at most one request, and leaves the page either
    in [success], with the confirmation message and one more navigation to
    [/] scheduled after 800 ms, or in [failed], with no navigation added; it
    cancels no navigation scheduled before.  With a missing or empty
    [order_id] it reports [Missing order reference.] without sending a
    request and without touching the tab. *)
Theorem verify_always_settles (baseUrl : string) (order_id : option string) (w : World) :
  ∃ w',
    PaymentSuccessPage.verify baseUrl order_id w = (Return tt, w')
    ∧ (length (sent w') ≤ length (sent w) + 1)%nat
    ∧ ((page_status (page w') = success
        ∧ page_message (page w') = "Payment confirmed! Redirecting to your dashboard..."
        ∧ timers (page w') = timers (page w) ++ [(800, "/")])
       ∨ (page_status (page w') = failed
          ∧ timers (page w') = timers (page w)
          ∧ (order_id = None ∨ order_id = Some "" →
             page_message (page w') = "Missing order reference."
             ∧ sent w' = sent w ∧ tab w' = tab w))).
Proof.
  unfold PaymentSuccessPage.verify.
  destruct order_id as [orderId|]; cycle 1.
  { eexists. split; [reflexivity|]. split; [cbn; lia|]. right. repeat split. }
  cbn [JS.truthy_prim]. destruct (decide (orderId = "")) as [->|Ho].
  { eexists. split; [reflexivity|]. split; [cbn; lia|]. right. repeat split. }
  assert (Some orderId = None ∨ Some orderId = Some "" → False) as Hno
    by (intros [?|[= ?]]; done).
  destruct (post_any baseUrl "/payments/verify" (VObj {[ "orderId" := Str orderId ]}) w)
    as (r & w1 & Hpost & Hpg & Hlen).
  unfold catch. unfold mbind at 1. unfold W_bind at 1. rewrite Hpost.
  destruct r as [resp|e].
  2: { pstep. eexists. split; [reflexivity|]. cbn [sent page page_status timers].
       split; [done|]. right. rewrite Hpg. repeat split; by destruct Hno. }
  destruct (data resp) as [[| |b|s]|o]; cbn [member JS.field]; pstep;
    try (eexists; split; [reflexivity|]; cbn [sent page page_status timers];
         split; [done|]; right; rewrite Hpg; repeat split; by destruct Hno).
  destruct (JS.truthy_prim (JS.get "isPaid" o)); pstep;
    try (eexists; split; [reflexivity|]; cbn [sent page page_status timers];
         split; [done|]; right; rewrite Hpg; repeat split; by destruct Hno).
  destruct (setPaidSubscription_total
              (if decide (JS.get "plan" o = Str "semiannual") then semiannual else annual)
              (tab w1)) as [s' Hs'].
  rewrite Hs'. pstep. eexists. split; [reflexivity|].
  cbn [sent page page_status page_message timers].
  split; [done|]. left. rewrite Hpg. done.
Qed.

(** X24.  For a non-empty order id (and a store whose accesses succeed),
    verify posts the order id as JSON to the base URL followed by
    [/payments/verify], and the page ends in [success] exactly when the reply
    is a response with a status from 200 to 299 whose JSON body is an object
    with a truthy [isPaid]; in every other case it ends in [failed] and the
    tab is untouched. *)
Theorem verify_succeeds_on_confirmation (baseUrl orderId : string)
    (m : gmap string string) (now tz : Z) (a : AuthState)
    (srv : list Request → Reply) (log : list Request) (pg : Page) :
  orderId ≠ "" →
  let req := verify_request baseUrl orderId m in
  let w' := (PaymentSuccessPage.verify baseUrl (Some orderId)
               (world (working m now tz a) srv log pg)).2 in
  sent w' = log ++ [req]
  ∧ url req = baseUrl +:+ "/payments/verify"
  ∧ method req = Some "POST"
  ∧ (∃ text, body req = Text text
             ∧ JSON.parse text = Some (VObj {[ "orderId" := Str orderId ]}))
  ∧ (page_status (page w') = success ↔ is_Some (confirmed (srv (log ++ [req]))))
  ∧ (page_status (page w') = failed ↔ confirmed (srv (log ++ [req])) = None)
  ∧ (confirmed (srv (log ++ [req])) = None → tab w' = working m now tz a).
Proof.
  intros Ho req w'. unfold w'. rewrite verify_working by done. fold req.
  assert (∃ text, body req = Text text
                  ∧ JSON.parse text = Some (VObj {[ "orderId" := Str orderId ]})) as Hbody.
  { eexists. split; [reflexivity|]. rewrite parse_stringify, defined_id; [done|].
    intros k. rewrite lookup_singleton. case_decide; done. }
  destruct (confirmed (srv (log ++ [req]))) as [plan|];
    cbn [snd world page page_status tab sent];
    (split; [reflexivity|]); (split; [reflexivity|]); (split; [reflexivity|]);
    (split; [exact Hbody|]).
  - split; [split; eauto|]. split; [split; done|]. done.
  - split; [split; [done|intros []; done]|]. split; done.
Qed.

(** The theorem at an order that the server confirms. *)
Lemma verify_succeeds_on_confirmation_witness :
  page_status (page (PaymentSuccessPage.verify "https://api" (Some "order-1")
                       (world (working ∅ 0 0 anonymous) (paying_server (Str "annual")) []
                          first_render)).2) = success.
Proof.
  apply (verify_succeeds_on_confirmation "https://api" "order-1" ∅ 0 0 anonymous
           (paying_server (Str "annual")) [] first_render); [done|].
  by eexists.
Defined.

(** X25.  When the payment is confirmed: with a user loaded, the user is
    subscribed, in memory and in the persisted record, with the tier
    [semiannual] when the plan of the reply is exactly that text and [annual]
    for every other plan (an absent one too); with no user loaded the page
    still reports [success], and nothing is recorded: the tab is as before. *)
Theorem confirmed_payment_and_the_user (baseUrl orderId : string) (plan : prim)
    (o : gmap string prim) (m : gmap string string) (now tz : Z) (l : bool) (e : prim)
    (srv : list Request → Reply) (log : list Request) (pg : Page) :
  orderId ≠ "" →
  confirmed (srv (log ++ [verify_request baseUrl orderId m])) = Some plan →
  let loaded := {| user := VObj o; isLoading := l; emailUnverified := e |} in
  let absent := {| user := VPrim Null; isLoading := l; emailUnverified := e |} in
  let run c := (PaymentSuccessPage.verify baseUrl (Some orderId)
                  (world (working m now tz c) srv log pg)).2 in
  (- maxTime <= now <= maxTime - 366 * Date.msPerDay →
   page_status (page (run loaded)) = success
   ∧ JS.field "subscribed" (user (ctx (tab (run loaded)))) = Bool true
   ∧ JS.field "subscriptionTier" (user (ctx (tab (run loaded))))
     = Str (if decide (plan = Str "semiannual") then "semiannual" else "annual")
   ∧ JS.field "subscriptionTier" (stored_user (localStorage (browser (tab (run loaded)))))
     = Str (if decide (plan = Str "semiannual") then "semiannual" else "annual"))
  ∧ (page_status (page (run absent)) = success
     ∧ tab (run absent) = working m now tz absent).
Proof.
  intros Ho Hc loaded absent run. split.
  - intros Hnow. unfold run. rewrite verify_working, Hc by done.
    cbn [snd world page page_status tab]. split; [reflexivity|].
    destruct (setPaidSubscription_working (tier_of plan) o m now tz l e Hnow)
      as (d & _ & Hrun).
    unfold exec, loaded. rewrite Hrun. cbn [snd working browser localStorage ctx user].
    change "auth_user" with AuthService.USER. rewrite stored_user_write.
    unfold AuthContext.subscribe, tier_of. cbn [JS.field].
    rewrite !get_defined.
    repeat first [rewrite get_insert_eq | rewrite get_insert_ne by done].
    destruct (decide (plan = Str "semiannual")); done.
  - unfold run. rewrite verify_working, Hc by done.
    cbn [snd world page page_status tab]. split; reflexivity.
Qed.

(** The theorem at a confirmed order with no user loaded. *)
Lemma confirmed_payment_and_the_user_witness :
  let run := (PaymentSuccessPage.verify "https://api" (Some "order-1")
                (world (working ∅ 0 0 anonymous) (paying_server (Str "monthly")) []
                   first_render)).2 in
  page_status (page run) = success ∧ tab run = working ∅ 0 0 anonymous.
Proof.
  exact (proj2 (confirmed_payment_and_the_user "https://api" "order-1" (Str "monthly")
                  ∅ ∅ 0 0 false (Bool false) (paying_server (Str "monthly")) [] first_render
                  ltac:(done) eq_refl)).
Defined.

(** * Configuration *)

Lemma digit_pretty_N_char (x : N) :
  (x < 10)%N → Flags.digit (pretty_N_char x) = Some (Z.of_N x).
Proof.
  intros Hx.
  assert (x = 0 ∨ x = 1 ∨ x = 2 ∨ x = 3 ∨ x = 4 ∨ x = 5 ∨ x = 6 ∨ x = 7 ∨ x = 8
          ∨ x = 9)%N as Hc by lia.
  destruct_or!; subst x; reflexivity.
Qed.

Lemma digits_pretty_N_go (x : N) (s : string) :
  Flags.digits 0 (pretty_N_go x s) = Flags.digits (Z.of_N x) s.
Proof.
  revert s. induction (N.lt_wf_0 x) as [x _ IH]; intros s.
  destruct (decide (x = 0)%N) as [->|Hx]; [by rewrite pretty_N_go_0|].
  rewrite pretty_N_go_step by lia. rewrite IH by (apply N.div_lt; lia).
  cbn [Flags.digits]. rewrite digit_pretty_N_char by (apply N.mod_lt; lia).
  f_equal. pose proof (N.div_mod x 10). lia.
Qed.

Lemma pretty_N_go_app (x : N) (s t : string) :
  pretty_N_go x s +:+ t = pretty_N_go x (s +:+ t).
Proof.
  revert s. induction (N.lt_wf_0 x) as [x _ IH]; intros s.
  destruct (decide (x = 0)%N) as [->|Hx]; [by rewrite !pretty_N_go_0|].
  rewrite (pretty_N_go_step x s), (pretty_N_go_step x (s +:+ t)) by lia.
  rewrite IH by (apply N.div_lt; lia). reflexivity.
Qed.

Lemma pretty_N_go_digit_first (x : N) (s : string) :
  (0 < x)%N ∨ (∃ c r, s = String c r ∧ is_Some (Flags.digit c)) →
  ∃ c r, pretty_N_go x s = String c r ∧ is_Some (Flags.digit c).
Proof.
  revert s. induction (N.lt_wf_0 x) as [x _ IH]; intros s Hs.
  destruct (decide (x = 0)%N) as [->|Hx].
  - rewrite pretty_N_go_0. destruct Hs as [?|?]; [lia|done].
  - rewrite pretty_N_go_step by lia. apply IH; [apply N.div_lt; lia|].
    right. eexists _, _. split; [reflexivity|].
    rewrite digit_pretty_N_char by (apply N.mod_lt; lia). eauto.
Qed.

Lemma digits_stop (acc : Z) (suffix : string) :
  suffix = "" ∨ (∃ c r, suffix = String c r ∧ Flags.digit c = None) →
  Flags.digits acc suffix = acc.
Proof. intros [->|(c & r & -> & Hc)]; [done|]. cbn [Flags.digits]. by rewrite Hc. Qed.

Lemma unsigned_pretty_N (n : N) (suffix : string) :
  suffix = "" ∨ (∃ c r, suffix = String c r ∧ Flags.digit c = None) →
  ∃ c r, pretty n +:+ suffix = String c r ∧ is_Some (Flags.digit c)
         ∧ Flags.unsigned (pretty n +:+ suffix) = Flags.nearest (Z.of_N n).
Proof.
  intros Hs. unfold pretty, pretty_N. case_decide as Hn.
  - subst n. eexists _, _. split; [reflexivity|]. split; [by eexists|].
    change ("0" +:+ suffix) with (String "0" suffix).
    unfold Flags.unsigned. change (Flags.digit "0") with (Some 0). cbv iota.
    cbn [Flags.digits]. change (Flags.digit "0") with (Some 0). cbv iota.
    by rewrite digits_stop.
  - rewrite pretty_N_go_app. change ("" +:+ suffix) with suffix.
    destruct (pretty_N_go_digit_first n suffix) as (c & r & Heq & Hc); [left; lia|].
    eexists _, _. split; [exact Heq|]. split; [exact Hc|].
    unfold Flags.unsigned. rewrite Heq. destruct Hc as [d ->]. rewrite <- Heq.
    by rewrite digits_pretty_N_go, digits_stop.
Qed.

Lemma digit_is_no_sign (c : ascii) (r : string) :
  is_Some (Flags.digit c) → Flags.parseInt (String c r) = Flags.unsigned (String c r).
Proof.
  intros [d Hd]. destruct c as [[] [] [] [] [] [] [] []]; try discriminate Hd; reflexivity.
Qed.

Lemma parseInt_pretty (z : Z) (suffix : string) :
  suffix = "" ∨ (∃ c r, suffix = String c r ∧ Flags.digit c = None) →
  Flags.parseInt (pretty z +:+ suffix) = to_number z.
Proof.
  intros Hs. unfold pretty, pretty_Z, to_number. destruct z as [|p|p].
  - destruct (unsigned_pretty_N 0 suffix Hs) as (c & r & Heq & Hc & Hu).
    change (Flags.parseInt (pretty 0%N +:+ suffix) = Flags.nearest (Z.of_N 0)).
    rewrite <- Hu, Heq. by apply digit_is_no_sign.
  - destruct (unsigned_pretty_N (N.pos p) suffix Hs) as (c & r & Heq & Hc & Hu).
    change (pretty p) with (pretty (N.pos p)).
    change (Z.pos p <? 0) with false. cbv iota.
    change (Z.pos p) with (Z.of_N (N.pos p)).
    rewrite <- Hu, Heq. by apply digit_is_no_sign.
  - destruct (unsigned_pretty_N (N.pos p) suffix Hs) as (c & r & Heq & Hc & Hu).
    change (("-" +:+ pretty p) +:+ suffix) with (String "-" (pretty (N.pos p) +:+ suffix)).
    unfold Flags.parseInt. cbn [Flags.trim_start].
    change (Flags.whitespace "-") with false. cbv iota.
    rewrite Hu. reflexivity.
Qed.

(** An integer below 2^53 in magnitude is a Number. *)
Lemma to_number_safe (z : Z) : Z.abs z < 2 ^ 53 → to_number z = Int z.
Proof.
  intros Hz.
  assert (∀ a, 0 <= a < 2 ^ 53 → Flags.nearest a = Int a) as Hn.
  { intros a Ha. unfold Flags.nearest.
    assert (Z.log2 a < 53) as Hl.
    { destruct (decide (a = 0)) as [->|Hne]; [done|]. apply Z.log2_lt_pow2; lia. }
    destruct (Z.leb_spec (Z.log2 a - 52) 0); [done|lia]. }
  unfold to_number. destruct (Z.ltb_spec z 0).
  - rewrite Hn by lia. cbn [Flags.negate]. f_equal. lia.
  - apply Hn. lia.
Qed.

Lemma pretty_Z_nonempty (z : Z) : pretty z ≠ "".
Proof.
  unfold pretty, pretty_Z. destruct z as [|p|p]; [done| |done].
  destruct (unsigned_pretty_N (N.pos p) "" (or_introl eq_refl)) as (c & r & Heq & _).
  rewrite append_nil_r in Heq. change (pretty p) with (pretty (N.pos p)). by rewrite Heq.
Qed.

(** X26.  The API base URL is the variable when it is set to a non-empty
    text and [http://localhost:3000/api] otherwise; it and the AWS region are
    never empty.  Each of the four feature flags is on exactly when its
    variable is the text [true], and the session manager reads two of them.
    The API timeout is 30000 when the variable is unset or empty; for the
    decimal text of an integer [z] below 2^53 in magnitude it is the number
    [z], also when that text is followed by a character that is no digit; and
    it is NaN (not the default) for a text that starts with a character that
    is no white space, sign or digit. *)
Theorem configuration_from_the_environment (env : gmap string string) :
  let config := Flags.CONFIG env in
  let features := Flags.FEATURES env in
  let timeout := env !! "VITE_API_TIMEOUT" in
  (env !! "VITE_API_BASE_URL" = None ∨ env !! "VITE_API_BASE_URL" = Some "" →
   Flags.API_BASE_URL config = "http://localhost:3000/api")
  ∧ (∀ text, env !! "VITE_API_BASE_URL" = Some text → text ≠ "" →
             Flags.API_BASE_URL config = text)
  ∧ Flags.API_BASE_URL config ≠ ""
  ∧ Flags.AWS_REGION config ≠ ""
  ∧ (Flags.USE_AMPLIFY_AUTH features = true ↔ env !! "VITE_USE_AMPLIFY_AUTH" = Some "true")
  ∧ (Flags.USE_AWS_S3 features = true ↔ env !! "VITE_USE_AWS_S3" = Some "true")
  ∧ (Flags.ENABLE_LOVABLE_FEATURES features = true
     ↔ env !! "VITE_ENABLE_LOVABLE_FEATURES" = Some "true")
  ∧ (Flags.DEBUG_MODE features = true ↔ env !! "VITE_DEBUG_MODE" = Some "true")
  ∧ USE_AMPLIFY_AUTH (session_flags env) = Flags.USE_AMPLIFY_AUTH features
  ∧ DEBUG_MODE (session_flags env) = Flags.DEBUG_MODE features
  ∧ (timeout = None ∨ timeout = Some "" → Flags.API_TIMEOUT config = Int 30000)
  ∧ (∀ z, Z.abs z < 2 ^ 53 → timeout = Some (pretty z) → Flags.API_TIMEOUT config = Int z)
  ∧ (∀ z c r, Z.abs z < 2 ^ 53 → timeout = Some (pretty z +:+ String c r) →
              Flags.digit c = None → Flags.API_TIMEOUT config = Int z)
  ∧ (∀ c r, timeout = Some (String c r) → numeric_start c = false →
            Flags.API_TIMEOUT config = NaN).
Proof.
  intros config features timeout. subst config features timeout.
  assert (∀ n f, f ≠ "" → Flags.or_else env n f ≠ "") as Hne.
  { intros n f Hf. unfold Flags.or_else. destruct (env !! n) as [t|]; [|done].
    cbn [JS.truthy_prim]. by case_decide. }
  cbn [Flags.CONFIG Flags.API_BASE_URL Flags.AWS_REGION Flags.API_TIMEOUT Flags.FEATURES
       Flags.USE_AMPLIFY_AUTH Flags.USE_AWS_S3 Flags.ENABLE_LOVABLE_FEATURES Flags.DEBUG_MODE
       session_flags USE_AMPLIFY_AUTH DEBUG_MODE].
  split; [|split; [|split; [|split]]].
  - unfold Flags.or_else. by intros [->| ->].
  - intros text Ht Hn. unfold Flags.or_else. rewrite Ht. cbn [JS.truthy_prim].
    by rewrite decide_False.
  - by apply Hne.
  - by apply Hne.
  - unfold Flags.enabled.
    do 4 (split; [apply bool_decide_eq_true|]). do 2 (split; [reflexivity|]).
    unfold Flags.or_else. split; [|split; [|split]].
    + by intros [->| ->].
    + intros z Hz ->. cbn [JS.truthy_prim]. rewrite decide_False by apply pretty_Z_nonempty.
      rewrite <- (append_nil_r (pretty z)), <- (to_number_safe z Hz).
      apply parseInt_pretty. by left.
    + intros z c r Hz -> Hc. cbn [JS.truthy_prim]. rewrite decide_False.
      * rewrite <- (to_number_safe z Hz). apply parseInt_pretty. right. eauto.
      * destruct (pretty z) eqn:Hp; [by destruct (pretty_Z_nonempty z)|done].
    + intros c r -> Hc. cbn [JS.truthy_prim]. rewrite decide_False by done.
      unfold numeric_start in Hc.
      destruct c as [[] [] [] [] [] [] [] []]; try discriminate Hc; reflexivity.
Qed.

(** * The adapter of the Lovable SDK *)

Ltac lstep :=
  repeat (progress (
    unfold Lovable.configure, Lovable.trackEvent, Lovable.tagComponent,
      Lovable.getUserInsights, Lovable.sendFeedback, Lovable.initializeChatWidget,
      Lovable.updateUserProfile, Lovable.getVersion, Lovable.attempt, Lovable.bind,
      Lovable.ret, Lovable.isAvailable, Lovable.has, Lovable.invoke,
      Lovable.invoke_insights, new_adapter;
    cbn [Lovable.this Lovable.calls Lovable.document Lovable.isInitialized
         Lovable.lovableSDK fst snd negb andb])).

Ltac lsplit :=
  repeat (lstep;
          match goal with
          | |- context [bool_decide (is_Some (Some ?x))] =>
              rewrite (bool_decide_eq_true_2 (is_Some (Some x))) by eauto
          | |- context [bool_decide (is_Some (@None ?T))] =>
              rewrite (bool_decide_eq_false_2 (is_Some (@None T)))
                by (intros [? ?]; discriminate)
          | |- context [if ?b then _ else _] => destruct b eqn:?
          | |- context [match ?x with Some _ => _ | None => _ end] => destruct x eqn:?
          end);
  lstep.

Lemma setAttributes_returns {Data : Type} (valid_name : string → bool) (el : string)
    (entries : list (string * string)) (t : Lovable.Tab Data) :
  ∃ r t', Lovable.setAttributes valid_name el entries t = (r, t')
          ∧ Lovable.this t' = Lovable.this t ∧ Lovable.calls t' = Lovable.calls t.
Proof.
  revert t. induction entries as [|[k v] entries IH]; intros t.
  - eexists _, _. split; [reflexivity|]. done.
  - cbn [Lovable.setAttributes]. unfold Lovable.bind, Lovable.setAttribute.
    destruct (valid_name _).
    + destruct (IH {| Lovable.this := Lovable.this t; Lovable.calls := Lovable.calls t;
                      Lovable.document :=
                        <[el := <[Lovable.ascii_lowercase ("data-lovable-" +:+ k) := v]>
                                  (default ∅ (Lovable.document t !! el))]>
                          (Lovable.document t) |}) as (r & t' & -> & H1 & H2).
      eexists _, _. split; [reflexivity|]. done.
    + eexists _, _. split; [reflexivity|]. done.
Qed.

(** X27.  No method of the adapter throws, whatever the SDK is and does
    (whichever members it has, whatever a call of one does) and whichever
    attribute names [setAttribute] refuses. *)
Theorem adapter_never_throws {Data : Type} (valid_name : string → bool)
    (t : Lovable.Tab Data) (config properties feedback profile : Data)
    (eventName userId : string) (element containerId : option string)
    (tag : Lovable.LovableTag) :
  (∃ t', Lovable.configure config t = (Ok tt, t'))
  ∧ (∃ t', Lovable.trackEvent eventName properties t = (Ok tt, t'))
  ∧ (∃ t', Lovable.tagComponent valid_name element tag t = (Ok tt, t'))
  ∧ (∃ r t', Lovable.getUserInsights userId t = (Ok r, t'))
  ∧ (∃ b t', Lovable.sendFeedback feedback t = (Ok b, t'))
  ∧ (∃ t', Lovable.initializeChatWidget containerId t = (Ok tt, t'))
  ∧ (∃ t', Lovable.updateUserProfile profile t = (Ok tt, t'))
  ∧ (∃ v t', Lovable.getVersion t = (Ok v, t')).
Proof.
  destruct t as [[init [sdk|]] log doc].
  all: repeat split.
  all: try (lsplit; eexists; reflexivity).
  all: try (lsplit; eexists _, _; reflexivity).
  all: unfold Lovable.tagComponent; lstep.
  all: destruct element as [el|]; [|lsplit; eexists; reflexivity].
  all: lsplit; try (eexists; reflexivity).
  all: unfold Lovable.setAttribute; cbn [Lovable.this Lovable.calls Lovable.document].
  all: repeat match goal with
         | |- context [if ?b then _ else _] => destruct b eqn:?
         | |- context [match ?x with Some _ => _ | None => _ end] => destruct x eqn:?
         end; try (eexists; reflexivity).
  all: match goal with
       | |- context [Lovable.setAttributes _ ?el ?entries ?t0] =>
           destruct (setAttributes_returns valid_name el entries t0) as ([[]|?] & t' & -> & _)
       end; eexists; reflexivity.
Qed.

(** X28.  With the feature flag off, or with no SDK at [window.Lovable], the
    adapter is not available, and every method returns at once and leaves the
    calls made to the SDK and the document as they were: getUserInsights
    returns [null], sendFeedback false, getVersion [null]. *)
Theorem disabled_adapter_is_inert {Data : Type} (valid_name : string → bool)
    (enabled : bool) (global : option (Lovable.SDK Data))
    (log : list (Lovable.Invocation Data)) (doc : gmap string (gmap string string))
    (config properties feedback profile : Data)
    (eventName userId : string) (element containerId : option string)
    (tag : Lovable.LovableTag) :
  enabled = false ∨ global = None →
  let t := new_adapter enabled global log doc in
  Lovable.isAvailable t = (Ok false, t)
  ∧ Lovable.configure config t = (Ok tt, t)
  ∧ Lovable.trackEvent eventName properties t = (Ok tt, t)
  ∧ Lovable.tagComponent valid_name element tag t = (Ok tt, t)
  ∧ Lovable.getUserInsights userId t = (Ok Lovable.NoInsights, t)
  ∧ Lovable.sendFeedback feedback t = (Ok false, t)
  ∧ Lovable.initializeChatWidget containerId t = (Ok tt, t)
  ∧ Lovable.updateUserProfile profile t = (Ok tt, t)
  ∧ Lovable.getVersion t = (Ok Null, t).
Proof.
  intros Hoff t.
  assert (Lovable.initializeLovable enabled global
          = {| Lovable.isInitialized := false; Lovable.lovableSDK := None |}) as Hinit.
  { unfold Lovable.initializeLovable. destruct Hoff as [->| ->]; [done|].
    by destruct enabled. }
  unfold t, new_adapter. rewrite Hinit.
  repeat split; try reflexivity. by destruct element.
Qed.

(** The theorem at a feedback sent with the feature flag off. *)
Lemma disabled_adapter_is_inert_witness :
  Lovable.sendFeedback "slow page"
    (new_adapter false (None : option (Lovable.SDK string)) [] ∅)
  = (Ok false, new_adapter false None [] ∅).
Proof.
  destruct (disabled_adapter_is_inert (λ _, true) false (None : option (Lovable.SDK string))
              [] ∅ "" "" "slow page" "" "" "" None None
              {| Lovable.tagName := "div"; Lovable.attributes := None |} (or_introl eq_refl))
    as (_ & _ & _ & _ & _ & H & _).
  exact H.
Defined.

(** X29.  With an SDK in place, sendFeedback returns true exactly when the
    SDK has a [sendFeedback] member and the call of it returned (the promise
    resolved); it makes that one call when the member is there, also when the
    call throws, and none otherwise; the document is not touched. *)
Theorem sendFeedback_reports_delivery {Data : Type} (sdk : Lovable.SDK Data)
    (log : list (Lovable.Invocation Data)) (doc : gmap string (gmap string string))
    (feedback : Data) :
  let t := new_adapter true (Some sdk) log doc in
  let sent := {| Lovable.this := Lovable.this t;
                 Lovable.calls := log ++ [Lovable.SendFeedback feedback];
                 Lovable.document := doc |} in
  Lovable.sendFeedback feedback t
  = if Lovable.present sdk Lovable.m_sendFeedback
    then (Ok (bool_decide (Lovable.behaviour sdk (log ++ [Lovable.SendFeedback feedback])
                           = None)), sent)
    else (Ok false, t).
Proof.
  intros t sent. subst t sent. unfold new_adapter, Lovable.initializeLovable. cbn [negb].
  lstep. rewrite bool_decide_eq_true_2 by eauto. lstep.
  destruct (Lovable.present sdk Lovable.m_sendFeedback); lstep; [|reflexivity].
  destruct (Lovable.behaviour sdk _); lstep; [|reflexivity].
  by rewrite bool_decide_eq_false_2.
Qed.

Lemma setAttributes_valid {Data : Type} (valid_name : string → bool) (el : string)
    (entries : list (string * string)) (this : Lovable.Fields Data)
    (log : list (Lovable.Invocation Data)) (doc : gmap string (gmap string string))
    (attrs : gmap string string) :
  Forall (λ entry, valid_name ("data-lovable-" +:+ entry.1) = true) entries →
  Lovable.setAttributes valid_name el entries
    {| Lovable.this := this; Lovable.calls := log; Lovable.document := <[el := attrs]> doc |}
  = (Ok tt, {| Lovable.this := this; Lovable.calls := log;
               Lovable.document := <[el := foldl tag_attribute attrs entries]> doc |}).
Proof.
  revert attrs. induction entries as [|[k v] entries IH]; intros attrs Hvalid.
  - reflexivity.
  - apply Forall_cons in Hvalid as [Hk Hvalid]. cbn [fst] in Hk.
    cbn [Lovable.setAttributes foldl]. unfold Lovable.bind, Lovable.setAttribute.
    rewrite Hk. cbn [Lovable.this Lovable.calls Lovable.document].
    rewrite lookup_insert_eq, insert_insert_eq. cbn [default].
    by rewrite IH.
Qed.

(** X30.  With an SDK that has a [tagComponent] member, tagComponent calls
    it and leaves the document alone.  With an SDK that has none (and
    attribute names that [setAttribute] accepts) it calls nothing and sets,
    on the element, [data-lovable-tag] to the tag name and then, for each
    attribute of the tag in order, [data-lovable-] followed by its name in
    lower case: without attributes [data-lovable-tag] is the tag name, and an
    attribute named [tag] replaces it. *)
Theorem tagComponent_falls_back_to_attributes {Data : Type} (valid_name : string → bool)
    (sdk : Lovable.SDK Data) (log : list (Lovable.Invocation Data))
    (doc : gmap string (gmap string string)) (el : string) (tag : Lovable.LovableTag) :
  let t := new_adapter true (Some sdk) log doc in
  let old := default ∅ (doc !! el) in
  (Lovable.present sdk Lovable.m_tagComponent = true →
   ∃ t', Lovable.tagComponent valid_name (Some el) tag t = (Ok tt, t')
         ∧ Lovable.calls t' = log ++ [Lovable.TagComponent el tag]
         ∧ Lovable.document t' = doc)
  ∧ (Lovable.present sdk Lovable.m_tagComponent = false →
     valid_name "data-lovable-tag" = true →
     Forall (λ entry, valid_name ("data-lovable-" +:+ entry.1) = true) (entries_of tag) →
     ∃ t' attrs,
       Lovable.tagComponent valid_name (Some el) tag t = (Ok tt, t')
       ∧ Lovable.calls t' = log
       ∧ Lovable.document t' = <[el := attrs]> doc
       ∧ attrs = foldl tag_attribute (<["data-lovable-tag" := Lovable.tagName tag]> old)
                   (entries_of tag)
       ∧ (Lovable.attributes tag = None →
          attrs !! "data-lovable-tag" = Some (Lovable.tagName tag))
       ∧ (∀ value, Lovable.attributes tag = Some [("tag", value)] →
          attrs !! "data-lovable-tag" = Some value)).
Proof.
  intros t old. subst t old. unfold new_adapter, Lovable.initializeLovable. cbn [negb]. split.
  - intros Hp. lstep. rewrite bool_decide_eq_true_2 by eauto. lstep. rewrite Hp. lstep.
    destruct (Lovable.behaviour sdk _); eexists; (split; [reflexivity|]); done.
  - intros Hp Htag Hentries. unfold entries_of in *.
    lstep. rewrite bool_decide_eq_true_2 by eauto. lstep.
    rewrite Hp. unfold Lovable.setAttribute at 1. rewrite Htag.
    cbn [Lovable.this Lovable.calls Lovable.document].
    change (Lovable.ascii_lowercase "data-lovable-tag") with "data-lovable-tag".
    destruct (Lovable.attributes tag) as [entries|]; cbn [default] in *.
    + rewrite setAttributes_valid by done.
      eexists _, _. split; [reflexivity|]. split; [reflexivity|]. split; [reflexivity|].
      split; [reflexivity|]. split; [done|].
      intros value [= ->]. cbn [foldl]. unfold tag_attribute. cbn [fst snd].
      change (Lovable.ascii_lowercase ("data-lovable-" +:+ "tag")) with "data-lovable-tag".
      apply lookup_insert_eq.
    + eexists _, _. split; [reflexivity|]. split; [reflexivity|]. split; [reflexivity|].
      split; [reflexivity|]. split; [|done].
      intros _. apply lookup_insert_eq.
Qed.

(** The theorem at a tag with an attribute named [tag]. *)
Lemma tagComponent_falls_back_to_attributes_witness :
  let sdk : Lovable.SDK string :=
    {| Lovable.present := λ _, false; Lovable.version := Undefined;
       Lovable.behaviour := λ _, None; Lovable.insights := λ _, "" |} in
  ∃ t', Lovable.tagComponent (λ _, true) (Some "card")
          {| Lovable.tagName := "hero"; Lovable.attributes := Some [("tag", "footer")] |}
          (new_adapter true (Some sdk) [] ∅) = (Ok tt, t')
        ∧ Lovable.document t' = {[ "card" := {[ "data-lovable-tag" := "footer" ]} ]}.
Proof.
  intros sdk.
  destruct (proj2 (tagComponent_falls_back_to_attributes (λ _, true) sdk [] ∅ "card"
              {| Lovable.tagName := "hero"; Lovable.attributes := Some [("tag", "footer")] |})
              eq_refl eq_refl) as (t' & attrs & H1 & _ & H3 & H4 & _).
  { repeat constructor. }
  exists t'. split; [exact H1|]. rewrite H3, H4. vm_compute. reflexivity.
Defined.
